(** * Warehouse management: the domain layer and its service

    A shallow embedding of [domain/models.py], [domain/exceptions.py],
    [domain/services.py] and of the repositories of
    [infrastructure/repositories.py] the service runs against.

    - a Python [int] is a [Z]; a [float] is a binary64 [float];
      a [str] is the list of its code points; [Optional[int]] is [option Z];
    - a raised exception is the [Raise] outcome of a state-and-exception
      monad: the state reached when the exception is raised is kept, as it
      is in Python;
    - [Product] objects are shared between the catalogue, the service and
      the order lines, so they live in a heap and are handled by address;
      an [Order] and its [OrderItem]s have one owner throughout the domain
      code and are records passed by value. *)

From Stdlib Require Import ZArith Floats String Ascii.
From stdpp Require Import gmap list fin_maps.

Open Scope Z_scope.

(** ** Python strings *)

(** A [str] is the sequence of its Unicode code points. *)
Abbreviation str := (list N).

(** A literal of the source. *)
Definition py (s : string) : str := map N_of_ascii (list_ascii_of_string s).

(** [str.isspace] on one character, as CPython's [Py_UNICODE_ISSPACE]. *)
Definition isspace (c : N) : bool :=
  ((9 <=? c) && (c <=? 13) || (28 <=? c) && (c <=? 32)
   || (c =? 133) || (c =? 160) || (c =? 5760)
   || (8192 <=? c) && (c <=? 8202)
   || (c =? 8232) || (c =? 8233) || (c =? 8239) || (c =? 8287)
   || (c =? 12288))%N.

(** [s.lstrip()]: drop the leading whitespace. *)
Fixpoint lstrip (s : str) : str :=
  match s with
  | c :: s' => if isspace c then lstrip s' else s
  | [] => []
  end.

(** [s.rstrip()]: drop the trailing whitespace. *)
Definition rstrip (s : str) : str := reverse (lstrip (reverse s)).

(** [s.strip()] *)
Definition strip (s : str) : str := rstrip (lstrip s).

(** Truth value of a [str]: the empty string is false. *)
Definition truthy (s : str) : bool :=
  match s with [] => false | _ :: _ => true end.

Definition str_eqb (s1 s2 : str) : bool := bool_decide (s1 = s2).

(** ** Exceptions ([domain/exceptions.py] and the built-in ones raised) *)

(** The text of a [ValueError], with the values its f-string formats. *)
Inductive message : Type :=
  | Product_name_cannot_be_empty
  | Cannot_confirm_empty_order
  | Can_only_complete_confirmed_orders (status : str)
  | Cannot_cancel_completed_order
  | Product_with_name_already_exists (name : str)
  | Cannot_delete_product_referenced_in_order (product_id : Z) (order_id : option Z)
  | Cannot_cancel_order_with_status (status : str)
  | Product_with_id_not_found (product_id : option Z)
  | Order_with_id_not_found (order_id : option Z).

Inductive exn : Type :=
  | ProductNotFoundError (product_id : option Z)
  | OrderNotFoundError (order_id : Z)
  | InsufficientStockError (product_name : str) (requested available : Z)
  | InvalidPriceError (price : float)
  | InvalidQuantityError (quantity : Z)
  | ValueError (msg : message)
  | AttributeError.

(** ** Outcomes and the state-and-exception monad *)

Inductive result (A : Type) : Type :=
  | Ok (a : A)
  | Raise (e : exn).
Arguments Ok {A} a.
Arguments Raise {A} e.

Definition M (S A : Type) : Type := S -> result A * S.

Definition ret {S A} (a : A) : M S A := fun s => (Ok a, s).
Definition raise {S A} (e : exn) : M S A := fun s => (Raise e, s).
Definition bind {S A B} (m : M S A) (k : A -> M S B) : M S B :=
  fun s =>
    match m s with
    | (Ok a, s') => k a s'
    | (Raise e, s') => (Raise e, s')
    end.
Definition gets {S A} (f : S -> A) : M S A := fun s => (Ok (f s), s).
Definition of_result {S A} (r : result A) : M S A := fun s => (r, s).

Notation "'let*' x ':=' m 'in' k" := (bind m (fun x => k))
  (at level 10, x pattern, m at level 100, k at level 200).
Notation "m ';;' k" := (bind m (fun _ => k))
  (at level 100, k at level 200, right associativity).

(** ** Addresses of [Product] objects *)

Abbreviation addr := nat.

(** ** [class Product] *)

Module Product.

Record t : Type := mk {
  id : option Z;
  name : str;
  quantity : Z;
  price : float
}.

#[global] Instance t_inhabited : Inhabited t :=
  populate (mk None [] 0 0%float).

(** The heap: the objects created so far, an object's address being its
    position. [h !!! a] reads the object at [a]; addresses are only made by
    [new], so no run reads an address that has no object (the read would
    give the default above). *)
Abbreviation heap := (list t).

Definition set_id (v : option Z) (self : t) : t :=
  mk v (name self) (quantity self) (price self).
Definition set_quantity (v : Z) (self : t) : t :=
  mk (id self) (name self) v (price self).

(** [_validate]: the three checks, in the order of the source. *)
Definition _validate (self : t) : result unit :=
  if (price self <=? 0)%float then Raise (InvalidPriceError (price self))
  else if quantity self <? 0 then Raise (InvalidQuantityError (quantity self))
  else if negb (truthy (name self)) || negb (truthy (strip (name self)))
  then Raise (ValueError Product_name_cannot_be_empty)
  else Ok tt.

(** The dataclass constructor: the fields are set, then [__post_init__]
    validates; when it raises, the caller gets no object. *)
Definition init (id : option Z) (name : str) (quantity : Z) (price : float)
  : result t :=
  let self := mk id name quantity price in
  match _validate self with
  | Ok _ => Ok self
  | Raise e => Raise e
  end.

(** [Product(...)] as an expression: a new object on the heap. *)
Definition new (id : option Z) (name : str) (quantity : Z) (price : float)
  : M heap addr :=
  fun h =>
    match init id name quantity price with
    | Ok self => (Ok (length h), h ++ [self])
    | Raise e => (Raise e, h)
    end.

(** [dataclasses.replace(old, price=new_price)]: a new object, validated. *)
Definition replace_price (old : addr) (new_price : float) : M heap addr :=
  fun h =>
    let o := h !!! old in
    new (id o) (name o) (quantity o) new_price h.

Definition reduce_quantity (self : addr) (amount : Z) : M heap unit :=
  fun h =>
    let p := h !!! self in
    if amount <=? 0 then (Raise (InvalidQuantityError amount), h)
    else if amount >? quantity p
    then (Raise (InsufficientStockError (name p) amount (quantity p)), h)
    else (Ok tt, <[self := set_quantity (quantity p - amount) p]> h).

Definition increase_quantity (self : addr) (amount : Z) : M heap unit :=
  fun h =>
    let p := h !!! self in
    if amount <=? 0 then (Raise (InvalidQuantityError amount), h)
    else (Ok tt, <[self := set_quantity (quantity p + amount) p]> h).

Definition is_in_stock (self : t) : bool := quantity self >? 0.

End Product.

Abbreviation heap := (list Product.t).

(** ** [class OrderItem] *)

Module OrderItem.

(** [product] is a reference: the address of the object the line was built
    with. *)
Record t : Type := mk {
  product : addr;
  quantity : Z;
  price_at_order : float
}.

Definition set_quantity (v : Z) (self : t) : t :=
  mk (product self) v (price_at_order self).

(** The dataclass constructor with its [__post_init__]. *)
Definition init (product : addr) (quantity : Z) (price_at_order : float)
  : result t :=
  if quantity <=? 0 then Raise (InvalidQuantityError quantity)
  else if (price_at_order <=? 0)%float
  then Raise (InvalidPriceError price_at_order)
  else Ok (mk product quantity price_at_order).

End OrderItem.

(** ** [class Order] *)

Module Order.

Record t : Type := mk {
  id : option Z;
  items : list OrderItem.t;
  created_at : Z;
  status : str
}.

Definition set_id (v : option Z) (self : t) : t :=
  mk v (items self) (created_at self) (status self).
Definition set_items (v : list OrderItem.t) (self : t) : t :=
  mk (id self) v (created_at self) (status self).
Definition set_status (v : str) (self : t) : t :=
  mk (id self) (items self) (created_at self) v.

(** [Order(id=id)]: no items, status "pending"; [now] is what
    [datetime.now()] returns. *)
Definition init (id : option Z) (now : Z) : t := mk id [] now (py "pending").

(** The loop of [add_item]: the first line whose product has the same id
    gets the quantity added; [None] when the loop ends without a match. *)
Fixpoint add_to_existing (h : heap) (product_id : option Z) (quantity : Z)
  (items : list OrderItem.t) : option (list OrderItem.t) :=
  match items with
  | [] => None
  | item :: rest =>
      if bool_decide (Product.id (h !!! OrderItem.product item) = product_id)
      then Some (OrderItem.set_quantity (OrderItem.quantity item + quantity) item
                 :: rest)
      else cons item <$> add_to_existing h product_id quantity rest
  end.

Definition add_item (h : heap) (product : addr) (quantity : Z) : M t unit :=
  fun self =>
    if quantity <=? 0 then (Raise (InvalidQuantityError quantity), self)
    else
      match add_to_existing h (Product.id (h !!! product)) quantity
              (items self) with
      | Some items' => (Ok tt, set_items items' self)
      | None =>
          match OrderItem.init product quantity (Product.price (h !!! product))
          with
          | Ok order_item => (Ok tt, set_items (items self ++ [order_item]) self)
          | Raise e => (Raise e, self)
          end
      end.

Definition remove_item (h : heap) (product_id : option Z) : M t unit :=
  fun self =>
    (Ok tt,
     set_items
       (filter (fun item =>
                  Product.id (h !!! OrderItem.product item) <> product_id)
               (items self))
       self).

Definition total_items (self : t) : Z :=
  foldr (fun item acc => OrderItem.quantity item + acc) 0 (items self).

Definition confirm : M t unit :=
  fun self =>
    match items self with
    | [] => (Raise (ValueError Cannot_confirm_empty_order), self)
    | _ :: _ => (Ok tt, set_status (py "confirmed") self)
    end.

Definition complete : M t unit :=
  fun self =>
    if negb (str_eqb (status self) (py "confirmed"))
    then (Raise (ValueError (Can_only_complete_confirmed_orders (status self))),
          self)
    else (Ok tt, set_status (py "completed") self).

Definition cancel : M t unit :=
  fun self =>
    if str_eqb (status self) (py "completed")
    then (Raise (ValueError Cannot_cancel_completed_order), self)
    else (Ok tt, set_status (py "cancelled") self).

End Order.

(** ** The world the service runs in *)

(** The heap of [Product] objects and the state [D] the repositories keep. *)
Record World (D : Type) : Type := mkWorld {
  objects : heap;
  session : D
}.
Arguments mkWorld {D} objects session.
Arguments objects {D} w.
Arguments session {D} w.

(** A computation on the heap, run in the world. *)
Definition on_heap {D A} (m : M heap A) : M (World D) A :=
  fun w =>
    let '(r, h) := m (objects w) in (r, mkWorld h (session w)).

(** A method call on the order held in a local variable: the order after the
    call is returned, an exception leaves the method and the caller. *)
Definition call {S A} (m : M Order.t A) (order : Order.t) : M S Order.t :=
  fun s =>
    match m order with
    | (Ok _, order') => (Ok order', s)
    | (Raise e, _) => (Raise e, s)
    end.

(** [for x in l: body x] *)
Fixpoint for_each {S A} (l : list A) (body : A -> M S unit) : M S unit :=
  match l with
  | [] => ret tt
  | x :: l' => body x;; for_each l' body
  end.

(** [for x in l: acc = body acc x], [acc] being a local variable. *)
Fixpoint for_fold {S A B} (l : list A) (body : B -> A -> M S B) (acc : B)
  : M S B :=
  match l with
  | [] => ret acc
  | x :: l' => let* acc' := body acc x in for_fold l' body acc'
  end.

(** [[f x for x in l]] *)
Fixpoint map_each {S A B} (f : A -> M S B) (l : list A) : M S (list B) :=
  match l with
  | [] => ret []
  | x :: l' =>
      let* y := f x in
      let* ys := map_each f l' in
      ret (y :: ys)
  end.

(** ** The repository interfaces ([domain/repositories.py]) *)

Module ProductRepository.

Class t (D : Type) : Type := {
  add : addr -> M (World D) addr;
  get : option Z -> M (World D) (option addr);
  get_by_name : str -> M (World D) (option addr);
  list : M (World D) (Datatypes.list addr);
  update : addr -> M (World D) addr;
  delete : Z -> M (World D) bool;
  list_in_stock : M (World D) (Datatypes.list addr)
}.

End ProductRepository.

Module OrderRepository.

Class t (D : Type) : Type := {
  add : Order.t -> M (World D) Order.t;
  get : Z -> M (World D) (option Order.t);
  list : M (World D) (Datatypes.list Order.t);
  update : Order.t -> M (World D) Order.t;
  list_by_status : str -> M (World D) (Datatypes.list Order.t);
  delete : Z -> M (World D) bool
}.

End OrderRepository.

(** ** [class WarehouseService] ([domain/services.py]) *)

Module WarehouseService.

Section Service.

Context {D : Type}.
Context {product_repo : ProductRepository.t D}.
Context {order_repo : OrderRepository.t D}.

Definition get_product (product_id : option Z) : M (World D) addr :=
  let* product := ProductRepository.get product_id in
  match product with
  | None => raise (ProductNotFoundError product_id)
  | Some product => ret product
  end.

Definition create_product (name : str) (quantity : Z) (price : float)
  : M (World D) addr :=
  let* existing := ProductRepository.get_by_name name in
  match existing with
  | Some _ => raise (ValueError (Product_with_name_already_exists name))
  | None =>
      let* product := on_heap (Product.new None name quantity price) in
      ProductRepository.add product
  end.



Definition update_product_price (product_id : Z) (new_price : float)
  : M (World D) addr :=
  let* old_product := get_product (Some product_id) in
  let* new_product := on_heap (Product.replace_price old_product new_price) in
  ProductRepository.update new_product.

Definition restock_product (product_id : Z) (quantity : Z)
  : M (World D) addr :=
  let* product := get_product (Some product_id) in
  on_heap (Product.increase_quantity product quantity);;
  ProductRepository.update product.

(** The inner loop of [delete_product], over the items of one order. *)
Definition delete_product_check_order (product_id : Z) (order : Order.t)
  : M (World D) unit :=
  for_each (Order.items order) (fun item =>
    let* product := gets (fun w => objects w !!! OrderItem.product item) in
    if bool_decide (Product.id product = Some product_id)
    then raise (ValueError (Cannot_delete_product_referenced_in_order
                              product_id (Order.id order)))
    else ret tt).

Definition delete_product (product_id : Z) : M (World D) bool :=
  let* product := get_product (Some product_id) in
  let* all_orders := OrderRepository.list in
  for_each all_orders (delete_product_check_order product_id);;
  ProductRepository.delete product_id.

(** The body of the loop of [create_order]; [order] is the local variable. *)
Definition create_order_step (order : Order.t) (pq : Z * Z)
  : M (World D) Order.t :=
  let '(product_id, quantity) := pq in
  let* product := get_product (Some product_id) in
  let* p := gets (fun w => objects w !!! product) in
  if Product.quantity p <? quantity
  then raise (InsufficientStockError (Product.name p) quantity
                (Product.quantity p))
  else
    let* h := gets objects in
    let* order := call (Order.add_item h product quantity) order in
    on_heap (Product.reduce_quantity product quantity);;
    ProductRepository.update product;;
    ret order.

(** [now] is what [datetime.now()] returns when the order is built. *)
Definition create_order (now : Z) (product_quantities : list (Z * Z))
  : M (World D) Order.t :=
  let order := Order.init None now in
  let* order := for_fold product_quantities create_order_step order in
  OrderRepository.add order.

Definition get_order (order_id : Z) : M (World D) Order.t :=
  let* order := OrderRepository.get order_id in
  match order with
  | None => raise (OrderNotFoundError order_id)
  | Some order => ret order
  end.


(** The body of the loop of [cancel_order]. *)
Definition cancel_order_restore (item : OrderItem.t) : M (World D) unit :=
  let* line_product := gets (fun w => objects w !!! OrderItem.product item) in
  let* product := get_product (Product.id line_product) in
  on_heap (Product.increase_quantity product (OrderItem.quantity item));;
  ProductRepository.update product;;
  ret tt.

Definition cancel_order (order_id : Z) : M (World D) Order.t :=
  let* order := get_order order_id in
  if negb (str_eqb (Order.status order) (py "pending")
           || str_eqb (Order.status order) (py "confirmed"))
  then raise (ValueError (Cannot_cancel_order_with_status (Order.status order)))
  else
    for_each (Order.items order) cancel_order_restore;;
    let* order := call Order.cancel order in
    OrderRepository.update order.

Definition complete_order (order_id : Z) : M (World D) Order.t :=
  let* order := get_order order_id in
  if negb (str_eqb (Order.status order) (py "confirmed"))
  then raise (ValueError (Can_only_complete_confirmed_orders
                            (Order.status order)))
  else
    let order := Order.set_status (py "completed") order in
    OrderRepository.update order.

End Service.

End WarehouseService.

(** ** The SQLAlchemy repositories ([infrastructure/orm.py] and
       [infrastructure/repositories.py])

    The session is modelled by its tables, keyed by the primary key [id]: a
    query reads them, [session.add], an attribute assignment and
    [session.delete] followed by [flush] write them. What the database engine
    itself may refuse (a duplicate name, a missing foreign key, a null) is
    outside the model, and so are the timestamp columns of the products. A
    query without ordering returns the rows in the order of [map_to_list]. *)

Module ProductORM.
Record t : Type := mk { name : str; quantity : Z; price : float }.
End ProductORM.

Module OrderItemORM.
Record t : Type := mk {
  product_id : option Z;
  quantity : Z;
  price_at_order : float
}.
End OrderItemORM.

Module OrderORM.
Record t : Type := mk {
  status : str;
  created_at : Z;
  items : list OrderItemORM.t
}.
Definition set_status (v : str) (self : t) : t :=
  mk v (created_at self) (items self).
End OrderORM.

Record Session : Type := mkSession {
  products : gmap Z ProductORM.t;
  orders : gmap Z OrderORM.t
}.

Definition set_products (v : gmap Z ProductORM.t) (s : Session) : Session :=
  mkSession v (orders s).
Definition set_orders (v : gmap Z OrderORM.t) (s : Session) : Session :=
  mkSession (products s) v.

(** The key an autoincrement column gives to the next row. *)
Definition next_id {V} (table : gmap Z V) : Z :=
  1 + map_fold (fun k _ acc => Z.max k acc) 0 table.

(** [session.query(ProductORM).filter_by(id=product_id).first()] *)
Definition query_product (product_id : option Z) (s : Session)
  : option (Z * ProductORM.t) :=
  match product_id with
  | None => None
  | Some id => pair id <$> products s !! id
  end.

(** [session.query(OrderORM).filter_by(id=order_id).first()] *)
Definition query_order (order_id : option Z) (s : Session)
  : option (Z * OrderORM.t) :=
  match order_id with
  | None => None
  | Some id => pair id <$> orders s !! id
  end.

Module SqlAlchemyProductRepository.

Definition _to_domain (row : Z * ProductORM.t) : M (World Session) addr :=
  on_heap (Product.new (Some row.1) (ProductORM.name row.2)
             (ProductORM.quantity row.2) (ProductORM.price row.2)).

Definition add (product : addr) : M (World Session) addr :=
  fun w =>
    let p := objects w !!! product in
    let product_orm :=
      ProductORM.mk (Product.name p) (Product.quantity p) (Product.price p) in
    let id := next_id (products (session w)) in
    (Ok product,
     mkWorld (<[product := Product.set_id (Some id) p]> (objects w))
       (set_products (<[id := product_orm]> (products (session w)))
          (session w))).

Definition get (product_id : option Z) : M (World Session) (option addr) :=
  let* product_orm := gets (fun w => query_product product_id (session w)) in
  match product_orm with
  | None => ret None
  | Some row => let* product := _to_domain row in ret (Some product)
  end.

Definition get_by_name (name : str) : M (World Session) (option addr) :=
  let* product_orm :=
    gets (fun w =>
            head (filter (fun row => ProductORM.name row.2 = name)
                    (map_to_list (products (session w))))) in
  match product_orm with
  | None => ret None
  | Some row => let* product := _to_domain row in ret (Some product)
  end.

Definition list : M (World Session) (Datatypes.list addr) :=
  let* products_orm := gets (fun w => map_to_list (products (session w))) in
  map_each _to_domain products_orm.

Definition update (product : addr) : M (World Session) addr :=
  fun w =>
    let p := objects w !!! product in
    match query_product (Product.id p) (session w) with
    | None =>
        (Raise (ValueError (Product_with_id_not_found (Product.id p))), w)
    | Some (id, _) =>
        let product_orm :=
          ProductORM.mk (Product.name p) (Product.quantity p)
            (Product.price p) in
        (Ok product,
         mkWorld (objects w)
           (set_products (<[id := product_orm]> (products (session w)))
              (session w)))
    end.

Definition delete (product_id : Z) : M (World Session) bool :=
  fun w =>
    match query_product (Some product_id) (session w) with
    | None => (Ok false, w)
    | Some (id, _) =>
        (Ok true,
         mkWorld (objects w)
           (set_products (base.delete id (products (session w))) (session w)))
    end.

Definition list_in_stock : M (World Session) (Datatypes.list addr) :=
  let* products_orm :=
    gets (fun w =>
            filter (fun row => ProductORM.quantity row.2 > 0)
              (map_to_list (products (session w)))) in
  map_each _to_domain products_orm.

#[global] Instance repository : ProductRepository.t Session := {
  ProductRepository.add := add;
  ProductRepository.get := get;
  ProductRepository.get_by_name := get_by_name;
  ProductRepository.list := list;
  ProductRepository.update := update;
  ProductRepository.delete := delete;
  ProductRepository.list_in_stock := list_in_stock
}.

End SqlAlchemyProductRepository.

Module SqlAlchemyOrderRepository.

(** One turn of the loop of [add]: the row of a line. *)
Definition item_to_orm (h : heap) (item : OrderItem.t) : OrderItemORM.t :=
  OrderItemORM.mk (Product.id (h !!! OrderItem.product item))
    (OrderItem.quantity item) (OrderItem.price_at_order item).

Definition add (order : Order.t) : M (World Session) Order.t :=
  fun w =>
    let order_orm :=
      OrderORM.mk (Order.status order) (Order.created_at order)
        (item_to_orm (objects w) <$> Order.items order) in
    let id := next_id (orders (session w)) in
    (Ok (Order.set_id (Some id) order),
     mkWorld (objects w)
       (set_orders (<[id := order_orm]> (orders (session w))) (session w))).

(** One turn of the loop of [_to_domain]: [item_orm.product] is the row the
    foreign key joins, [None] when there is none. *)
Definition item_to_domain (item_orm : OrderItemORM.t)
  : M (World Session) OrderItem.t :=
  let* joined :=
    gets (fun w => query_product (OrderItemORM.product_id item_orm)
                     (session w)) in
  match joined with
  | None => raise AttributeError
  | Some row =>
      let* product := SqlAlchemyProductRepository._to_domain row in
      of_result (OrderItem.init product (OrderItemORM.quantity item_orm)
                   (OrderItemORM.price_at_order item_orm))
  end.

Definition _to_domain (row : Z * OrderORM.t) : M (World Session) Order.t :=
  let order :=
    Order.mk (Some row.1) [] (OrderORM.created_at row.2)
      (OrderORM.status row.2) in
  let* items := map_each item_to_domain (OrderORM.items row.2) in
  ret (Order.set_items items order).

Definition get (order_id : Z) : M (World Session) (option Order.t) :=
  let* order_orm := gets (fun w => query_order (Some order_id) (session w)) in
  match order_orm with
  | None => ret None
  | Some row => let* order := _to_domain row in ret (Some order)
  end.

Definition list : M (World Session) (Datatypes.list Order.t) :=
  let* orders_orm := gets (fun w => map_to_list (orders (session w))) in
  map_each _to_domain orders_orm.

Definition update (order : Order.t) : M (World Session) Order.t :=
  fun w =>
    match query_order (Order.id order) (session w) with
    | None => (Raise (ValueError (Order_with_id_not_found (Order.id order))), w)
    | Some (id, order_orm) =>
        (Ok order,
         mkWorld (objects w)
           (set_orders
              (<[id := OrderORM.set_status (Order.status order) order_orm]>
                 (orders (session w)))
              (session w)))
    end.

Definition list_by_status (status : str)
  : M (World Session) (Datatypes.list Order.t) :=
  let* orders_orm :=
    gets (fun w =>
            filter (fun row => OrderORM.status row.2 = status)
              (map_to_list (orders (session w)))) in
  map_each _to_domain orders_orm.

Definition delete (order_id : Z) : M (World Session) bool :=
  fun w =>
    match query_order (Some order_id) (session w) with
    | None => (Ok false, w)
    | Some (id, _) =>
        (Ok true,
         mkWorld (objects w)
           (set_orders (base.delete id (orders (session w))) (session w)))
    end.

#[global] Instance repository : OrderRepository.t Session := {
  OrderRepository.add := add;
  OrderRepository.get := get;
  OrderRepository.list := list;
  OrderRepository.update := update;
  OrderRepository.list_by_status := list_by_status;
  OrderRepository.delete := delete
}.

End SqlAlchemyOrderRepository.

(** ** [class SqlAlchemyUnitOfWork] ([infrastructure/unit_of_work.py])

    The database keeps the tables as they were last committed; the session
    of the world holds them as the open transaction sees them, with what
    the repositories have flushed. [session.commit()] makes the session's
    tables the committed ones; [session.rollback()] gives the session the
    committed ones back, and so does [session.close()] for a transaction
    still open. The objects of the heap are not touched by either. *)

Record Database : Type := mkDatabase {
  committed : Session;
  world : World Session
}.

Module SqlAlchemyUnitOfWork.

Definition commit : M Database unit :=
  fun db => (Ok tt, mkDatabase (session (world db)) (world db)).

Definition rollback : M Database unit :=
  fun db =>
    (Ok tt,
     mkDatabase (committed db) (mkWorld (objects (world db)) (committed db))).

(** [self.session.close()] *)
Definition close : M Database unit := rollback.

(** [__exit__]; [raised] is [exception_type is not None]. It returns
    [None], so an exception of the block goes on to the caller. *)
Definition __exit__ (raised : bool) : M Database unit :=
  (if raised then rollback else commit);;
  close.

(** [with SqlAlchemyUnitOfWork(session): body] *)
Definition run {A} (body : M (World Session) A) : M Database A :=
  fun db =>
    let '(r, w') := body (world db) in
    let raised := match r with Raise _ => true | Ok _ => false end in
    let '(_, db') := __exit__ raised (mkDatabase (committed db) w') in
    (r, db').

End SqlAlchemyUnitOfWork.

(** ** Vocabulary of the statements *)

(** No line of [items] is for the product identity [product_id]. *)
Definition no_line_for (h : heap) (product_id : option Z)
  (items : list OrderItem.t) : Prop :=
  Forall (fun item => Product.id (h !!! OrderItem.product item) <> product_id)
    items.

(** The lines of an order for a product identity. *)
Definition lines_for (h : heap) (product_id : option Z) (o : Order.t)
  : list OrderItem.t :=
  filter (fun item => Product.id (h !!! OrderItem.product item) = product_id)
    (Order.items o).

(** What the repositories can load: every product row passes the checks of
    [Product], and every line of every order row joins a product row and
    passes the checks of [OrderItem]. *)
Definition product_of_row (row : Z * ProductORM.t) : Product.t :=
  Product.mk (Some row.1) (ProductORM.name row.2) (ProductORM.quantity row.2)
    (ProductORM.price row.2).

Definition valid_product_row (row : Z * ProductORM.t) : bool :=
  match Product._validate (product_of_row row) with
  | Ok _ => true
  | Raise _ => false
  end.

Definition valid_item_row (s : Session) (item_orm : OrderItemORM.t) : bool :=
  match query_product (OrderItemORM.product_id item_orm) s with
  | None => false
  | Some _ =>
      (0 <? OrderItemORM.quantity item_orm)
      && negb (OrderItemORM.price_at_order item_orm <=? 0)%float
  end.

Definition well_formed (s : Session) : bool :=
  forallb valid_product_row (map_to_list (products s))
  && forallb (fun row => forallb (valid_item_row s) (OrderORM.items row.2))
       (map_to_list (orders s)).

(** A loaded line and the row it was loaded from: the line refers to an
    object of the heap that has the id the row joins, and has the row's
    quantity. *)
Definition line_of (h : heap) (item : OrderItem.t) (item_orm : OrderItemORM.t)
  : Prop :=
  (OrderItem.product item < length h)%nat
  /\ Product.id (h !!! OrderItem.product item)
     = OrderItemORM.product_id item_orm
  /\ OrderItem.quantity item = OrderItemORM.quantity item_orm.

(** A loaded order and its row. *)
Definition order_of (h : heap) (order : Order.t) (row : Z * OrderORM.t)
  : Prop :=
  Order.id order = Some row.1
  /\ Order.status order = OrderORM.status row.2
  /\ Order.created_at order = OrderORM.created_at row.2
  /\ Forall2 (line_of h) (Order.items order) (OrderORM.items row.2).

(** An order row has a line for the product. *)
Definition references (product_id : Z) (order_orm : OrderORM.t) : Prop :=
  Exists (fun item_orm => OrderItemORM.product_id item_orm = Some product_id)
    (OrderORM.items order_orm).

(** What [cancel_order] is to do for one line: the row of the product is
    read, its quantity is increased by the line's, and it is written back. *)
Definition restore_line (table : gmap Z ProductORM.t)
  (item_orm : OrderItemORM.t) : gmap Z ProductORM.t :=
  match OrderItemORM.product_id item_orm with
  | Some id =>
      match table !! id with
      | Some row =>
          <[id := ProductORM.mk (ProductORM.name row)
                    (ProductORM.quantity row + OrderItemORM.quantity item_orm)
                    (ProductORM.price row)]> table
      | None => table
      end
  | None => table
  end.

(** The same for the lines of an order, one after the other. *)
Definition restored_products (items_orm : list OrderItemORM.t)
  (table : gmap Z ProductORM.t) : gmap Z ProductORM.t :=
  foldl restore_line table items_orm.

(** The two parts of [well_formed], as propositions on the tables. *)
Definition products_valid (table : gmap Z ProductORM.t) : Prop :=
  forall id row, table !! id = Some row -> valid_product_row (id, row) = true.

Definition items_valid (table : gmap Z ProductORM.t)
  (items_orm : list OrderItemORM.t) : Prop :=
  Forall (fun item_orm =>
            exists id,
              OrderItemORM.product_id item_orm = Some id
              /\ is_Some (table !! id)
              /\ 0 < OrderItemORM.quantity item_orm
              /\ (OrderItemORM.price_at_order item_orm <=? 0)%float = false)
    items_orm.

(** A computation that leaves the orders table as it finds it, whether it
    returns or raises. *)
Definition keeps_orders {A} (m : M (World Session) A) : Prop :=
  forall w r w', m w = (r, w') -> orders (session w') = orders (session w).

(** ** A shop to run the service in *)

(** Two products in the table, no order, no object loaded yet. *)
Definition shop : World Session :=
  mkWorld []
    (mkSession
       (<[1 := ProductORM.mk (py "Laptop") 10 50]>
          (<[2 := ProductORM.mk (py "Mouse") 20 30]> ∅))
       ∅).

(** The shop after two laptops were ordered (order 1, pending); order 2, of
    three mice, is completed. *)
Definition shop_with_orders : World Session :=
  mkWorld []
    (mkSession
       (<[1 := ProductORM.mk (py "Laptop") 8 50]>
          (<[2 := ProductORM.mk (py "Mouse") 17 30]> ∅))
       (<[1 := OrderORM.mk (py "pending") 0 [OrderItemORM.mk (Some 1) 2 50]]>
          (<[2 := OrderORM.mk (py "completed") 0
                    [OrderItemORM.mk (Some 2) 3 30]]> ∅))).

(** ** Vocabulary of the further properties *)

(** The product identities of the lines of an order, in the order of the
    lines. *)
Definition line_ids (h : heap) (o : Order.t) : list (option Z) :=
  (fun item => Product.id (h !!! OrderItem.product item)) <$> Order.items o.

(** What [add_item] keeps: no two lines for one product identity, and no
    line with a quantity that is not positive. *)
Definition lines_ok (h : heap) (o : Order.t) : Prop :=
  NoDup (line_ids h o)
  /\ Forall (fun item => 0 < OrderItem.quantity item) (Order.items o).

(** The loop of [create_order] seen from the products table alone: pair
    after pair, the row of the product is read, the pair is refused when the
    product has no row, when it asks for more than the row's quantity or
    when it asks for a quantity that is not positive, and otherwise the
    quantity asked is taken off the row. *)
Fixpoint reserve (product_quantities : list (Z * Z))
  : M (gmap Z ProductORM.t) unit :=
  match product_quantities with
  | [] => ret tt
  | (product_id, quantity) :: rest =>
      fun table =>
        match table !! product_id with
        | None => (Raise (ProductNotFoundError (Some product_id)), table)
        | Some row =>
            if ProductORM.quantity row <? quantity
            then (Raise (InsufficientStockError (ProductORM.name row) quantity
                           (ProductORM.quantity row)), table)
            else if quantity <=? 0
            then (Raise (InvalidQuantityError quantity), table)
            else
              reserve rest
                (<[product_id :=
                     ProductORM.mk (ProductORM.name row)
                       (ProductORM.quantity row - quantity)
                       (ProductORM.price row)]> table)
        end
  end.

(** The quantity the lines of an order row hold of a product. *)
Definition stored_quantity (product_id : Z) (items_orm : list OrderItemORM.t)
  : Z :=
  foldr (fun item_orm acc =>
           (if bool_decide (OrderItemORM.product_id item_orm = Some product_id)
            then OrderItemORM.quantity item_orm else 0) + acc)
    0 items_orm.

(** The lines of an order being built: each refers to an object of the heap
    whose id is the key of a product row, and has a positive quantity and a
    price that passes the check of [OrderItem]. *)
Definition order_lines_ok (h : heap) (table : gmap Z ProductORM.t)
  (order : Order.t) : Prop :=
  Forall (fun item =>
            (OrderItem.product item < length h)%nat
            /\ (exists k, Product.id (h !!! OrderItem.product item) = Some k
                          /\ is_Some (table !! k))
            /\ 0 < OrderItem.quantity item
            /\ (OrderItem.price_at_order item <=? 0)%float = false)
    (Order.items order).

(** * Properties *)

(** ** Strings *)

Lemma lstrip_nil (s : str) : lstrip s = [] <-> forallb isspace s = true.
Proof.
  induction s as [|c s IH]; simpl; [tauto|].
  destruct (isspace c); simpl; [exact IH|].
  split; discriminate.
Qed.

Lemma lstrip_all_space (s : str) :
  forallb isspace (lstrip s) = true -> lstrip s = [].
Proof.
  induction s as [|c s IH]; simpl; [reflexivity|].
  destruct (isspace c) eqn:Hc; [exact IH|].
  simpl. rewrite Hc. discriminate.
Qed.

Lemma forallb_reverse {A} (f : A -> bool) (l : list A) :
  forallb f (reverse l) = forallb f l.
Proof.
  induction l as [|x l IH]; [reflexivity|].
  rewrite reverse_cons, forallb_app, IH. simpl.
  rewrite andb_true_r. apply andb_comm.
Qed.

Lemma reverse_eq_nil {A} (l : list A) : reverse l = [] <-> l = [].
Proof.
  split; intros H; [|subst; reflexivity].
  apply (f_equal reverse) in H. rewrite reverse_involutive in H. exact H.
Qed.

(** [strip] leaves nothing exactly when every character is whitespace. *)
Lemma strip_nil (s : str) : strip s = [] <-> forallb isspace s = true.
Proof.
  unfold strip, rstrip.
  rewrite reverse_eq_nil, lstrip_nil, forallb_reverse.
  split; intros H.
  - apply lstrip_nil. apply lstrip_all_space. exact H.
  - apply lstrip_nil in H. rewrite H. reflexivity.
Qed.

(** ** Floats *)

Lemma float_gt0_not_le0 (x : float) :
  (0 <? x)%float = true -> (x <=? 0)%float = false.
Proof.
  rewrite ltb_spec, leb_spec.
  change (Prim2SF 0) with (S754_zero false).
  destruct (Prim2SF x) as [s|s| |s m e]; try destruct s; simpl;
    try discriminate; reflexivity.
Qed.

(** ** Product *)

Lemma set_quantity_same (p : Product.t) :
  Product.set_quantity (Product.quantity p) p = p.
Proof. destruct p; reflexivity. Qed.

Lemma set_quantity_twice (v w : Z) (p : Product.t) :
  Product.set_quantity v (Product.set_quantity w p) = Product.set_quantity v p.
Proof. reflexivity. Qed.

Lemma validate_name_blank (name : str) :
  negb (truthy name) || negb (truthy (strip name)) = true
  <-> forallb isspace name = true.
Proof.
  rewrite <- strip_nil.
  destruct name as [|c name]; simpl.
  - split; reflexivity.
  - destruct (strip (c :: name)); simpl; split; congruence.
Qed.

(** C5. Constructing a Product with a name that is not blank, a quantity
    [>= 0] and a price [> 0] succeeds, and [is_in_stock] holds exactly when
    the quantity is positive. The checks run in the order price, quantity,
    name, and the first one violated decides the exception: [InvalidPriceError]
    for a price [<= 0], [InvalidQuantityError] for a quantity [< 0],
    [ValueError] for an empty or whitespace-only name. Whenever one of the
    three is violated the construction raises and no object is created: the
    heap is the one before the call. *)
Theorem Product_construction
  (id : option Z) (name : str) (quantity : Z) (price : float) (h : heap) :
  (strip name <> [] -> 0 <= quantity -> (0 <? price)%float = true ->
     Product.init id name quantity price
       = Ok (Product.mk id name quantity price)
     /\ Product.new id name quantity price h
       = (Ok (length h), h ++ [Product.mk id name quantity price])
     /\ (Product.is_in_stock (Product.mk id name quantity price) = true
         <-> quantity > 0))
  /\ ((price <=? 0)%float = true ->
     Product.init id name quantity price = Raise (InvalidPriceError price)
     /\ Product.new id name quantity price h
       = (Raise (InvalidPriceError price), h))
  /\ ((price <=? 0)%float = false -> quantity < 0 ->
     Product.init id name quantity price
       = Raise (InvalidQuantityError quantity)
     /\ Product.new id name quantity price h
       = (Raise (InvalidQuantityError quantity), h))
  /\ ((price <=? 0)%float = false -> 0 <= quantity ->
      forallb isspace name = true ->
     Product.init id name quantity price
       = Raise (ValueError Product_name_cannot_be_empty)
     /\ Product.new id name quantity price h
       = (Raise (ValueError Product_name_cannot_be_empty), h))
  /\ ((price <=? 0)%float = true \/ quantity < 0
      \/ forallb isspace name = true ->
     exists e : exn,
       Product.init id name quantity price = Raise e
       /\ Product.new id name quantity price h = (Raise e, h)).
Proof.
  assert (Hprice : (price <=? 0)%float = true ->
            Product.init id name quantity price
            = Raise (InvalidPriceError price)).
  { intros H. unfold Product.init, Product._validate; simpl.
    rewrite H. reflexivity. }
  assert (Hquantity : (price <=? 0)%float = false -> quantity < 0 ->
            Product.init id name quantity price
            = Raise (InvalidQuantityError quantity)).
  { intros H Hq. unfold Product.init, Product._validate; simpl.
    rewrite H. destruct (Z.ltb_spec quantity 0); [reflexivity|lia]. }
  assert (Hname : (price <=? 0)%float = false -> 0 <= quantity ->
            forallb isspace name = true ->
            Product.init id name quantity price
            = Raise (ValueError Product_name_cannot_be_empty)).
  { intros H Hq Hn. unfold Product.init, Product._validate; simpl.
    rewrite H. destruct (Z.ltb_spec quantity 0); [lia|].
    apply validate_name_blank in Hn. rewrite Hn. reflexivity. }
  assert (Hvalid : strip name <> [] -> 0 <= quantity ->
            (0 <? price)%float = true ->
            Product.init id name quantity price
            = Ok (Product.mk id name quantity price)).
  { intros Hn Hq H. unfold Product.init, Product._validate; simpl.
    rewrite (float_gt0_not_le0 _ H).
    destruct (Z.ltb_spec quantity 0); [lia|].
    destruct (negb (truthy name) || negb (truthy (strip name))) eqn:E;
      [|reflexivity].
    apply validate_name_blank, strip_nil in E. contradiction. }
  unfold Product.new.
  split; [|split; [|split; [|split]]].
  - intros Hn Hq H. rewrite (Hvalid Hn Hq H).
    split; [reflexivity|]. split; [reflexivity|].
    unfold Product.is_in_stock; simpl. rewrite Z.gtb_ltb, Z.ltb_lt. lia.
  - intros H. rewrite (Hprice H). split; reflexivity.
  - intros H Hq. rewrite (Hquantity H Hq). split; reflexivity.
  - intros H Hq Hn. rewrite (Hname H Hq Hn). split; reflexivity.
  - intros H.
    destruct (price <=? 0)%float eqn:Ep.
    { eexists. rewrite (Hprice eq_refl). split; reflexivity. }
    destruct (Z.ltb_spec quantity 0) as [Hq|Hq].
    { eexists. rewrite (Hquantity eq_refl Hq). split; reflexivity. }
    destruct H as [H | [H | H]]; [discriminate|lia|].
    eexists. rewrite (Hname eq_refl Hq H). split; reflexivity.
Qed.

(** The two quantity methods keep the quantity from going below zero,
    whether they return or raise. *)
Lemma quantity_stays_nonnegative (h h' : heap) (self : addr) (amount : Z)
  (r : result unit) :
  0 <= Product.quantity (h !!! self) ->
  Product.reduce_quantity self amount h = (r, h')
  \/ Product.increase_quantity self amount h = (r, h') ->
  0 <= Product.quantity (h' !!! self).
Proof.
  intros Hq.
  assert (Hset : forall v, 0 <= v ->
            0 <= Product.quantity
                   (<[self := Product.set_quantity v (h !!! self)]> h
                    !!! self)).
  { intros v Hv. destruct (decide (self < length h)%nat) as [Hlt|Hge].
    - rewrite list_lookup_total_insert_eq by exact Hlt. exact Hv.
    - rewrite list_insert_ge by lia. exact Hq. }
  unfold Product.reduce_quantity, Product.increase_quantity.
  intros [H | H].
  - destruct (Z.leb_spec amount 0); [injection H as _ <-; exact Hq|].
    rewrite Z.gtb_ltb in H.
    destruct (Z.ltb_spec (Product.quantity (h !!! self)) amount);
      injection H as _ <-; [exact Hq|].
    apply Hset. lia.
  - destruct (Z.leb_spec amount 0); injection H as _ <-; [exact Hq|].
    apply Hset. lia.
Qed.

(** C4. On a product whose quantity is not negative, as the constructor and
    the two quantity methods keep it, [reduce_quantity] with
    an amount above the current quantity raises [InsufficientStockError]
    with the product's name, the amount asked and the current quantity; with
    an amount [<= 0] it raises [InvalidQuantityError]; both leave the heap,
    hence the product's quantity, as it was. *)
Theorem reduce_quantity_failure
  (h : heap) (self : addr) (p : Product.t) (q : Z) :
  h !! self = Some p ->
  0 <= Product.quantity p ->
  (q > Product.quantity p ->
     Product.reduce_quantity self q h
     = (Raise (InsufficientStockError (Product.name p) q (Product.quantity p)),
        h))
  /\ (q <= 0 ->
     Product.reduce_quantity self q h = (Raise (InvalidQuantityError q), h)).
Proof.
  intros Hp Hq. unfold Product.reduce_quantity.
  rewrite (list_lookup_total_correct _ _ _ Hp).
  split; intros H.
  - destruct (Z.leb_spec q 0); [lia|].
    rewrite Z.gtb_ltb. destruct (Z.ltb_spec (Product.quantity p) q); [|lia].
    reflexivity.
  - destruct (Z.leb_spec q 0); [|lia]. reflexivity.
Qed.

(** C6. For [0 < q <= quantity], [reduce_quantity q] followed by
    [increase_quantity q] both succeed and give back the product, and the
    whole heap, as they were. *)
Theorem reduce_then_increase_restores
  (h : heap) (self : addr) (p : Product.t) (q : Z) :
  h !! self = Some p ->
  0 < q <= Product.quantity p ->
  (Product.reduce_quantity self q;; Product.increase_quantity self q) h
  = (Ok tt, h).
Proof.
  intros Hp Hq. unfold bind, Product.reduce_quantity.
  rewrite (list_lookup_total_correct _ _ _ Hp).
  destruct (Z.leb_spec q 0); [lia|].
  rewrite Z.gtb_ltb. destruct (Z.ltb_spec (Product.quantity p) q); [lia|].
  unfold Product.increase_quantity.
  destruct (Z.leb_spec q 0); [lia|].
  assert (Hlt : (self < length h)%nat) by (eapply lookup_lt_Some; eauto).
  rewrite list_lookup_total_insert_eq by exact Hlt.
  rewrite list_insert_insert_eq, set_quantity_twice. simpl.
  replace (Product.quantity p - q + q) with (Product.quantity p) by lia.
  rewrite set_quantity_same. f_equal. apply list_insert_id. exact Hp.
Qed.

Lemma Product_construction_witness :
  Product.init (Some 1) (py "Test Product") 10 50
    = Ok (Product.mk (Some 1) (py "Test Product") 10 50)
  /\ Product.init (Some 1) (py "Test Product") 10 0
    = Raise (InvalidPriceError 0)
  /\ Product.init (Some 1) (py "Test Product") (-5) 50
    = Raise (InvalidQuantityError (-5))
  /\ Product.init (Some 1) (py "   ") 10 50
    = Raise (ValueError Product_name_cannot_be_empty)
  /\ (exists e : exn,
        Product.init (Some 1) (py "") (-5) (-10) = Raise e
        /\ Product.new (Some 1) (py "") (-5) (-10) [] = (Raise e, [])).
Proof.
  split; [|split; [|split; [|split]]].
  - apply (proj1 (Product_construction (Some 1) (py "Test Product") 10 50 []));
      [vm_compute; discriminate | lia | reflexivity].
  - apply (proj1 (proj2 (Product_construction
                           (Some 1) (py "Test Product") 10 0 []))).
    reflexivity.
  - apply (proj1 (proj2 (proj2 (Product_construction
                                  (Some 1) (py "Test Product") (-5) 50 []))));
      [reflexivity | lia].
  - apply (proj1 (proj2 (proj2 (proj2 (Product_construction
                                         (Some 1) (py "   ") 10 50 [])))));
      [reflexivity | lia | reflexivity].
  - apply (proj2 (proj2 (proj2 (proj2 (Product_construction
                                         (Some 1) (py "") (-5) (-10) []))))).
    right; left; lia.
Defined.

Lemma reduce_quantity_failure_witness :
  Product.reduce_quantity 0 10 [Product.mk (Some 1) (py "Test Product") 5 50]
  = (Raise (InsufficientStockError (py "Test Product") 10 5),
     [Product.mk (Some 1) (py "Test Product") 5 50])
  /\ Product.reduce_quantity 0 (-5)
       [Product.mk (Some 1) (py "Test Product") 5 50]
  = (Raise (InvalidQuantityError (-5)),
     [Product.mk (Some 1) (py "Test Product") 5 50]).
Proof.
  split.
  - apply (proj1 (reduce_quantity_failure
                    [Product.mk (Some 1) (py "Test Product") 5 50] 0%nat
                    (Product.mk (Some 1) (py "Test Product") 5 50) 10
                    eq_refl ltac:(simpl; lia))).
    simpl; lia.
  - apply (proj2 (reduce_quantity_failure
                    [Product.mk (Some 1) (py "Test Product") 5 50] 0%nat
                    (Product.mk (Some 1) (py "Test Product") 5 50) (-5)
                    eq_refl ltac:(simpl; lia))).
    lia.
Defined.

Lemma reduce_then_increase_restores_witness :
  (Product.reduce_quantity 0 3;; Product.increase_quantity 0 3)
    [Product.mk (Some 1) (py "Test Product") 10 50]
  = (Ok tt, [Product.mk (Some 1) (py "Test Product") 10 50]).
Proof.
  apply (reduce_then_increase_restores
           [Product.mk (Some 1) (py "Test Product") 10 50] 0%nat
           (Product.mk (Some 1) (py "Test Product") 10 50) 3);
    [reflexivity | simpl; lia].
Defined.

(** ** Order: the status transitions *)

Lemma str_eqb_eq (s1 s2 : str) : str_eqb s1 s2 = true <-> s1 = s2.
Proof. unfold str_eqb. apply bool_decide_eq_true. Qed.

Lemma str_eqb_refl (s : str) : str_eqb s s = true.
Proof. apply str_eqb_eq. reflexivity. Qed.

Lemma str_eqb_neq (s1 s2 : str) : s1 <> s2 -> str_eqb s1 s2 = false.
Proof. unfold str_eqb. apply bool_decide_eq_false. Qed.

Lemma set_status_same (o : Order.t) :
  Order.set_status (Order.status o) o = o.
Proof. destruct o; reflexivity. Qed.

Lemma complete_spec (o : Order.t) :
  Order.complete o
  = if str_eqb (Order.status o) (py "confirmed")
    then (Ok tt, Order.set_status (py "completed") o)
    else (Raise (ValueError (Can_only_complete_confirmed_orders
                               (Order.status o))), o).
Proof. unfold Order.complete. destruct (str_eqb _ _); reflexivity. Qed.

(** [confirm] looks at the items only. *)
Lemma confirm_nonempty (o : Order.t) :
  Order.items o <> [] ->
  Order.confirm o = (Ok tt, Order.set_status (py "confirmed") o).
Proof.
  unfold Order.confirm. destruct (Order.items o); [congruence|reflexivity].
Qed.

(** C1, as stated, fails twice: [cancel] on a cancelled order succeeds, and
    [confirm] on a completed order that has an item succeeds and makes it
    confirmed. *)
Lemma terminal_order_transitions_succeed :
  Order.cancel (Order.mk (Some 1) [] 0 (py "cancelled"))
  = (Ok tt, Order.mk (Some 1) [] 0 (py "cancelled"))
  /\ Order.confirm
       (Order.mk (Some 1) [OrderItem.mk 0 2 50] 0 (py "completed"))
     = (Ok tt, Order.mk (Some 1) [OrderItem.mk 0 2 50] 0 (py "confirmed")).
Proof. split; reflexivity. Qed.

(** C1, amended. On an order whose status is "completed" or "cancelled",
    [complete] raises [ValueError] and leaves the order as it was; [cancel]
    raises [ValueError] and leaves a completed order as it was, and on a
    cancelled order it succeeds and the order, still cancelled, is as it was.
    [confirm] on an order without items raises [ValueError] and leaves the
    order as it was, whatever the status. *)
Theorem terminal_status_kept (o : Order.t) :
  Order.status o = py "completed" \/ Order.status o = py "cancelled" ->
  Order.complete o
  = (Raise (ValueError (Can_only_complete_confirmed_orders (Order.status o))),
     o)
  /\ (Order.status o = py "completed" ->
      Order.cancel o = (Raise (ValueError Cannot_cancel_completed_order), o))
  /\ (Order.status o = py "cancelled" -> Order.cancel o = (Ok tt, o))
  /\ (Order.items o = [] ->
      Order.confirm o = (Raise (ValueError Cannot_confirm_empty_order), o)).
Proof.
  intros Hst. repeat split.
  - rewrite complete_spec.
    destruct Hst as [-> | ->]; reflexivity.
  - intros H. unfold Order.cancel. rewrite H. reflexivity.
  - intros H. unfold Order.cancel. rewrite H. simpl.
    rewrite <- H. rewrite set_status_same. reflexivity.
  - intros H. unfold Order.confirm. rewrite H. reflexivity.
Qed.

Lemma terminal_status_kept_witness :
  Order.complete (Order.mk (Some 1) [] 0 (py "completed"))
  = (Raise (ValueError (Can_only_complete_confirmed_orders (py "completed"))),
     Order.mk (Some 1) [] 0 (py "completed"))
  /\ Order.cancel (Order.mk (Some 1) [] 0 (py "completed"))
     = (Raise (ValueError Cannot_cancel_completed_order),
        Order.mk (Some 1) [] 0 (py "completed"))
  /\ Order.cancel (Order.mk (Some 1) [] 0 (py "cancelled"))
     = (Ok tt, Order.mk (Some 1) [] 0 (py "cancelled"))
  /\ Order.confirm (Order.mk (Some 1) [] 0 (py "completed"))
     = (Raise (ValueError Cannot_confirm_empty_order),
        Order.mk (Some 1) [] 0 (py "completed")).
Proof.
  split; [|split; [|split]].
  - apply (terminal_status_kept (Order.mk (Some 1) [] 0 (py "completed"))).
    left; reflexivity.
  - apply (terminal_status_kept (Order.mk (Some 1) [] 0 (py "completed")));
      [left; reflexivity | reflexivity].
  - apply (terminal_status_kept (Order.mk (Some 1) [] 0 (py "cancelled")));
      [right; reflexivity | reflexivity].
  - apply (terminal_status_kept (Order.mk (Some 1) [] 0 (py "completed")));
      [left; reflexivity | reflexivity].
Defined.

(** ** Order: adding items *)

Lemma add_to_existing_no_line (h : heap) (product_id : option Z) (q : Z)
  (items : list OrderItem.t) :
  no_line_for h product_id items ->
  Order.add_to_existing h product_id q items = None.
Proof.
  induction 1 as [|item items Hne _ IH]; simpl; [reflexivity|].
  rewrite bool_decide_eq_false_2 by exact Hne.
  rewrite IH. reflexivity.
Qed.

Lemma add_to_existing_last (h : heap) (product_id : option Z) (q : Z)
  (items : list OrderItem.t) (item : OrderItem.t) :
  no_line_for h product_id items ->
  Product.id (h !!! OrderItem.product item) = product_id ->
  Order.add_to_existing h product_id q (items ++ [item])
  = Some (items ++
          [OrderItem.set_quantity (OrderItem.quantity item + q) item]).
Proof.
  intros Hno Hid.
  induction Hno as [|item' items Hne _ IH]; simpl.
  - rewrite bool_decide_eq_true_2 by exact Hid. reflexivity.
  - rewrite bool_decide_eq_false_2 by exact Hne.
    rewrite IH. reflexivity.
Qed.

(** A product the order has no line for gets a new line, the last one, with
    the product's address and its price at this moment. *)
Lemma add_item_new_line (h : heap) (product : addr) (q : Z) (o : Order.t) :
  0 < q ->
  (Product.price (h !!! product) <=? 0)%float = false ->
  no_line_for h (Product.id (h !!! product)) (Order.items o) ->
  Order.add_item h product q o
  = (Ok tt,
     Order.set_items
       (Order.items o ++ [OrderItem.mk product q (Product.price (h !!! product))])
       o).
Proof.
  intros Hq Hprice Hno. unfold Order.add_item, OrderItem.init.
  destruct (Z.leb_spec q 0); [lia|].
  rewrite (add_to_existing_no_line _ _ _ _ Hno), Hprice. reflexivity.
Qed.

(** A product whose identity the last line has, and no line before it, is
    merged into that line: only the line's quantity changes. *)
Lemma add_item_merge_last (h : heap) (product : addr) (q : Z) (o : Order.t)
  (items : list OrderItem.t) (item : OrderItem.t) :
  0 < q ->
  Order.items o = items ++ [item] ->
  no_line_for h (Product.id (h !!! product)) items ->
  Product.id (h !!! OrderItem.product item) = Product.id (h !!! product) ->
  Order.add_item h product q o
  = (Ok tt,
     Order.set_items
       (items ++ [OrderItem.set_quantity (OrderItem.quantity item + q) item])
       o).
Proof.
  intros Hq Hitems Hno Hid. unfold Order.add_item.
  destruct (Z.leb_spec q 0); [lia|].
  rewrite Hitems, (add_to_existing_last _ _ _ _ _ Hno Hid). reflexivity.
Qed.

Lemma add_item_invalid_quantity (h : heap) (product : addr) (q : Z)
  (o : Order.t) :
  q <= 0 ->
  Order.add_item h product q o = (Raise (InvalidQuantityError q), o).
Proof.
  intros Hq. unfold Order.add_item.
  destruct (Z.leb_spec q 0); [reflexivity|lia].
Qed.

Lemma validate_ok_price (p : Product.t) :
  Product._validate p = Ok tt -> (Product.price p <=? 0)%float = false.
Proof.
  unfold Product._validate.
  destruct (Product.price p <=? 0)%float; [discriminate|reflexivity].
Qed.

(** Two adds of one identity, the second possibly with another object and
    after the objects have changed. *)
Lemma add_item_twice (h h' : heap) (p1 p2 : addr) (a b : Z) (o : Order.t) :
  0 < a -> 0 < b ->
  (Product.price (h !!! p1) <=? 0)%float = false ->
  no_line_for h (Product.id (h !!! p1)) (Order.items o) ->
  no_line_for h' (Product.id (h !!! p1)) (Order.items o) ->
  Product.id (h' !!! p1) = Product.id (h !!! p1) ->
  Product.id (h' !!! p2) = Product.id (h !!! p1) ->
  (Order.add_item h p1 a;; Order.add_item h' p2 b) o
  = (Ok tt,
     Order.set_items
       (Order.items o ++ [OrderItem.mk p1 (a + b) (Product.price (h !!! p1))])
       o).
Proof.
  intros Ha Hb Hprice Hno Hno' Hkept Hsame. unfold bind.
  rewrite (add_item_new_line _ _ _ _ Ha Hprice Hno).
  erewrite (add_item_merge_last h' p2 b _ (Order.items o)
              (OrderItem.mk p1 a (Product.price (h !!! p1))) Hb).
  - reflexivity.
  - reflexivity.
  - rewrite Hsame. exact Hno'.
  - simpl. rewrite Hkept, Hsame. reflexivity.
Qed.

Lemma lines_for_new_line (h : heap) (product_id : option Z) (o : Order.t)
  (item : OrderItem.t) :
  no_line_for h product_id (Order.items o) ->
  Product.id (h !!! OrderItem.product item) = product_id ->
  lines_for h product_id (Order.set_items (Order.items o ++ [item]) o)
  = [item].
Proof.
  intros Hno Hid. unfold lines_for. simpl.
  rewrite filter_app.
  assert (Hnil : filter (fun item0 =>
              Product.id (h !!! OrderItem.product item0) = product_id)
            (Order.items o) = []).
  { induction Hno as [|x l Hx _ IH]; [reflexivity|].
    rewrite filter_cons_False by exact Hx. exact IH. }
  rewrite Hnil. simpl.
  rewrite filter_cons_True by exact Hid. reflexivity.
Qed.

(** C3. On an order with no line yet for a product identity, two [add_item]
    of that identity with positive quantities [a] and [b] leave exactly one
    line for it, with quantity [a + b] and, as [price_at_order], the price
    the product had at the first add, whatever the price is at the second.
    The second add may be given another object of the same identity, and the
    heap [h'] it runs in may differ from the heap [h] of the first, as long
    as the identities involved are the same. [add_item] with a quantity
    [<= 0] raises [InvalidQuantityError] and leaves the order as it was. *)
Theorem add_item_same_product_twice
  (h h' : heap) (p1 p2 : addr) (a b q : Z) (o : Order.t) :
  (Product._validate (h !!! p1) = Ok tt ->
   0 < a -> 0 < b ->
   no_line_for h (Product.id (h !!! p1)) (Order.items o) ->
   no_line_for h' (Product.id (h !!! p1)) (Order.items o) ->
   Product.id (h' !!! p1) = Product.id (h !!! p1) ->
   Product.id (h' !!! p2) = Product.id (h !!! p1) ->
   exists o',
     (Order.add_item h p1 a;; Order.add_item h' p2 b) o = (Ok tt, o')
     /\ lines_for h' (Product.id (h !!! p1)) o'
        = [OrderItem.mk p1 (a + b) (Product.price (h !!! p1))])
  /\ (q <= 0 ->
      Order.add_item h p1 q o = (Raise (InvalidQuantityError q), o)).
Proof.
  split.
  - intros Hvalid Ha Hb Hno Hno' Hkept Hsame.
    eexists. split.
    + apply add_item_twice; eauto using validate_ok_price.
    + apply lines_for_new_line; assumption.
  - apply add_item_invalid_quantity.
Qed.

(** The second add is given another object, priced 60, of the product. *)
Lemma add_item_same_product_twice_witness :
  (exists o',
     (Order.add_item [Product.mk (Some 1) (py "Product") 10 50] 0 2;;
      Order.add_item [Product.mk (Some 1) (py "Product") 10 50;
                      Product.mk (Some 1) (py "Product") 10 60] 1 3)
       (Order.init (Some 1) 0) = (Ok tt, o')
     /\ lines_for [Product.mk (Some 1) (py "Product") 10 50;
                   Product.mk (Some 1) (py "Product") 10 60] (Some 1) o'
        = [OrderItem.mk 0 5 50])
  /\ Order.add_item [Product.mk (Some 1) (py "Product") 10 50] 0 (-5)
       (Order.init (Some 1) 0)
     = (Raise (InvalidQuantityError (-5)), Order.init (Some 1) 0).
Proof.
  split.
  - apply (proj1 (add_item_same_product_twice
                    [Product.mk (Some 1) (py "Product") 10 50]
                    [Product.mk (Some 1) (py "Product") 10 50;
                     Product.mk (Some 1) (py "Product") 10 60]
                    0%nat 1%nat 2 3 0 (Order.init (Some 1) 0)));
      [reflexivity | lia | lia | constructor | constructor
      | reflexivity | reflexivity].
  - apply (proj2 (add_item_same_product_twice
                    [Product.mk (Some 1) (py "Product") 10 50]
                    [Product.mk (Some 1) (py "Product") 10 50]
                    0%nat 0%nat 2 3 (-5) (Order.init (Some 1) 0))).
    lia.
Defined.

(** C10. [add_item] compares ids only: on an order with no line yet for the
    identity [None], adding two products that both have the id [None] gives
    one line, the last of the order, that refers to the first product and
    has its price as [price_at_order], with the sum of the two quantities. *)
Theorem add_item_unsaved_products_merge
  (h : heap) (p1 p2 : addr) (a b : Z) (o : Order.t) :
  Product.id (h !!! p1) = None ->
  Product.id (h !!! p2) = None ->
  Product._validate (h !!! p1) = Ok tt ->
  0 < a -> 0 < b ->
  no_line_for h None (Order.items o) ->
  (Order.add_item h p1 a;; Order.add_item h p2 b) o
  = (Ok tt,
     Order.set_items
       (Order.items o ++ [OrderItem.mk p1 (a + b) (Product.price (h !!! p1))])
       o)
  /\ lines_for h None
       (Order.set_items
          (Order.items o
           ++ [OrderItem.mk p1 (a + b) (Product.price (h !!! p1))]) o)
     = [OrderItem.mk p1 (a + b) (Product.price (h !!! p1))].
Proof.
  intros Hid1 Hid2 Hvalid Ha Hb Hno. split.
  - apply add_item_twice; eauto using validate_ok_price; congruence.
  - apply lines_for_new_line; assumption.
Qed.

Lemma add_item_unsaved_products_merge_witness :
  (Order.add_item [Product.mk None (py "Laptop") 10 50;
                   Product.mk None (py "Mouse") 20 30] 0 2;;
   Order.add_item [Product.mk None (py "Laptop") 10 50;
                   Product.mk None (py "Mouse") 20 30] 1 3)
    (Order.init (Some 1) 0)
  = (Ok tt, Order.mk (Some 1) [OrderItem.mk 0 5 50] 0 (py "pending")).
Proof.
  apply (add_item_unsaved_products_merge
           [Product.mk None (py "Laptop") 10 50;
            Product.mk None (py "Mouse") 20 30] 0%nat 1%nat 2 3
           (Order.init (Some 1) 0));
    [reflexivity | reflexivity | reflexivity | lia | lia | constructor].
Defined.

(** C2, as stated, fails: the line made by [add_item] refers to the product
    object itself, so after [reduce_quantity] on that object the product
    data of the line shows the quantity 8, not the 10 it had when the line
    was made. *)
Lemma order_line_shows_reduced_product :
  exists (item : OrderItem.t) (h' : heap),
    Order.add_item [Product.mk (Some 1) (py "Product") 10 50] 0 2
      (Order.init (Some 1) 0)
    = (Ok tt, Order.mk (Some 1) [item] 0 (py "pending"))
    /\ [Product.mk (Some 1) (py "Product") 10 50] !!! OrderItem.product item
       = Product.mk (Some 1) (py "Product") 10 50
    /\ Product.reduce_quantity 0 2 [Product.mk (Some 1) (py "Product") 10 50]
       = (Ok tt, h')
    /\ h' !!! OrderItem.product item
       = Product.mk (Some 1) (py "Product") 8 50.
Proof.
  exists (OrderItem.mk 0 2 50), [Product.mk (Some 1) (py "Product") 8 50].
  repeat split.
Qed.

(** C2, amended. The line [add_item] makes for a product keeps the address
    of the product object it was given (no copy is made), the quantity asked
    and, as [price_at_order], the product's price at that moment. Whatever
    state [p'] the object is put in afterwards, the product read through the
    line is [p']; after [reduce_quantity] it is the product with the reduced
    quantity. The line's own quantity and [price_at_order] are not
    touched. *)
Theorem add_item_line_refers_to_product
  (h : heap) (product : addr) (q : Z) (o : Order.t) (p' : Product.t) :
  (product < length h)%nat ->
  Product._validate (h !!! product) = Ok tt ->
  0 < q ->
  no_line_for h (Product.id (h !!! product)) (Order.items o) ->
  exists item : OrderItem.t,
    Order.add_item h product q o
    = (Ok tt, Order.set_items (Order.items o ++ [item]) o)
    /\ OrderItem.product item = product
    /\ OrderItem.quantity item = q
    /\ OrderItem.price_at_order item = Product.price (h !!! product)
    /\ <[product := p']> h !!! OrderItem.product item = p'
    /\ (forall r : Z,
          0 < r <= Product.quantity (h !!! product) ->
          exists h' : heap,
            Product.reduce_quantity product r h = (Ok tt, h')
            /\ h' !!! OrderItem.product item
               = Product.set_quantity (Product.quantity (h !!! product) - r)
                   (h !!! product)).
Proof.
  intros Hlt Hvalid Hq Hno.
  exists (OrderItem.mk product q (Product.price (h !!! product))).
  split; [apply add_item_new_line; eauto using validate_ok_price|].
  simpl. repeat split.
  - apply list_lookup_total_insert_eq. exact Hlt.
  - intros r Hr. eexists. split.
    + unfold Product.reduce_quantity.
      destruct (Z.leb_spec r 0); [lia|].
      rewrite Z.gtb_ltb.
      destruct (Z.ltb_spec (Product.quantity (h !!! product)) r); [lia|].
      reflexivity.
    + apply list_lookup_total_insert_eq. exact Hlt.
Qed.

Lemma add_item_line_refers_to_product_witness :
  exists item : OrderItem.t,
    Order.add_item [Product.mk (Some 1) (py "Product") 10 50] 0 2
      (Order.init (Some 1) 0)
    = (Ok tt,
       Order.set_items (Order.items (Order.init (Some 1) 0) ++ [item])
         (Order.init (Some 1) 0))
    /\ OrderItem.product item = 0%nat
    /\ OrderItem.quantity item = 2
    /\ OrderItem.price_at_order item = 50%float
    /\ <[0%nat := Product.mk (Some 1) (py "Product") 10 60]>
         [Product.mk (Some 1) (py "Product") 10 50] !!! OrderItem.product item
       = Product.mk (Some 1) (py "Product") 10 60
    /\ (exists h' : heap,
          Product.reduce_quantity 0 2
            [Product.mk (Some 1) (py "Product") 10 50] = (Ok tt, h')
          /\ h' !!! OrderItem.product item
             = Product.mk (Some 1) (py "Product") 8 50).
Proof.
  destruct (add_item_line_refers_to_product
              [Product.mk (Some 1) (py "Product") 10 50] 0%nat 2
              (Order.init (Some 1) 0)
              (Product.mk (Some 1) (py "Product") 10 60))
    as (item & H1 & H2 & H3 & H4 & H5 & H6).
  - simpl; lia.
  - reflexivity.
  - lia.
  - constructor.
  - exists item. repeat split; try assumption.
    destruct (H6 2) as (h' & E & Hread); [simpl; lia|].
    exists h'. rewrite H2. split; [exact E|].
    rewrite H2 in Hread. exact Hread.
Defined.

(** ** The monad *)

Lemma for_fold_app {S A B} (l1 l2 : list A) (body : B -> A -> M S B)
  (acc : B) (s : S) :
  for_fold (l1 ++ l2) body acc s
  = match for_fold l1 body acc s with
    | (Ok acc', s') => for_fold l2 body acc' s'
    | (Raise e, s') => (Raise e, s')
    end.
Proof.
  revert acc s. induction l1 as [|x l1 IH]; intros acc s; simpl.
  - reflexivity.
  - unfold bind. destruct (body acc x s) as [[acc'|e] s'].
    + apply IH.
    + reflexivity.
Qed.

(** ** Computations that leave the orders table alone *)

Lemma keeps_orders_ret {A} (a : A) : keeps_orders (ret a).
Proof. intros w r w' [= _ <-]. reflexivity. Qed.

Lemma keeps_orders_raise {A} (e : exn) : keeps_orders (@raise _ A e).
Proof. intros w r w' [= _ <-]. reflexivity. Qed.

Lemma keeps_orders_gets {A} (f : World Session -> A) : keeps_orders (gets f).
Proof. intros w r w' [= _ <-]. reflexivity. Qed.

Lemma keeps_orders_of_result {A} (x : result A) : keeps_orders (of_result x).
Proof. intros w r w' [= _ <-]. reflexivity. Qed.

Lemma keeps_orders_on_heap {A} (m : M heap A) : keeps_orders (on_heap m).
Proof.
  intros w r w'. unfold on_heap.
  destruct (m (objects w)) as [r0 h]. intros [= _ <-]. reflexivity.
Qed.

Lemma keeps_orders_call {A} (m : M Order.t A) (order : Order.t) :
  keeps_orders (call m order).
Proof.
  intros w r w'. unfold call.
  destruct (m order) as [[a|e] o']; intros [= _ <-]; reflexivity.
Qed.

Lemma keeps_orders_bind {A B} (m : M (World Session) A)
  (k : A -> M (World Session) B) :
  keeps_orders m -> (forall a, keeps_orders (k a)) -> keeps_orders (bind m k).
Proof.
  intros Hm Hk w r w'. unfold bind.
  destruct (m w) as [[a|e] w1] eqn:E.
  - intros H. rewrite (Hk a _ _ _ H). eapply Hm; eauto.
  - intros [= _ <-]. eapply Hm; eauto.
Qed.

Lemma keeps_orders_for_fold {A B} (l : list A)
  (body : B -> A -> M (World Session) B) (acc : B) :
  (forall acc x, keeps_orders (body acc x)) ->
  keeps_orders (for_fold l body acc).
Proof.
  intros Hbody. revert acc.
  induction l as [|x l IH]; intros acc; simpl.
  - apply keeps_orders_ret.
  - apply keeps_orders_bind; auto.
Qed.

Lemma keeps_orders_for_each {A} (l : list A)
  (body : A -> M (World Session) unit) :
  (forall x, keeps_orders (body x)) -> keeps_orders (for_each l body).
Proof.
  intros Hbody. induction l as [|x l IH]; simpl.
  - apply keeps_orders_ret.
  - apply keeps_orders_bind; auto.
Qed.

Lemma keeps_orders_product_to_domain (row : Z * ProductORM.t) :
  keeps_orders (SqlAlchemyProductRepository._to_domain row).
Proof. apply keeps_orders_on_heap. Qed.

Lemma keeps_orders_product_get (product_id : option Z) :
  keeps_orders (ProductRepository.get product_id).
Proof.
  simpl. unfold SqlAlchemyProductRepository.get.
  apply keeps_orders_bind; [apply keeps_orders_gets|].
  intros [row|]; [|apply keeps_orders_ret].
  apply keeps_orders_bind; [apply keeps_orders_product_to_domain|].
  intros a. apply keeps_orders_ret.
Qed.

Lemma keeps_orders_product_update (product : addr) :
  keeps_orders (ProductRepository.update product).
Proof.
  intros w r w'. simpl. unfold SqlAlchemyProductRepository.update.
  destruct (query_product _ _) as [[id row]|]; intros [= _ <-]; reflexivity.
Qed.

Lemma keeps_orders_get_product (product_id : option Z) :
  keeps_orders (WarehouseService.get_product product_id).
Proof.
  unfold WarehouseService.get_product.
  apply keeps_orders_bind; [apply keeps_orders_product_get|].
  intros [a|]; [apply keeps_orders_ret|apply keeps_orders_raise].
Qed.

Create HintDb keeps.

#[local] Hint Resolve keeps_orders_ret keeps_orders_raise keeps_orders_gets
  keeps_orders_of_result keeps_orders_on_heap keeps_orders_call
  keeps_orders_product_update keeps_orders_get_product : keeps.

Lemma keeps_orders_create_order_step (order : Order.t) (pq : Z * Z) :
  keeps_orders (WarehouseService.create_order_step order pq).
Proof.
  destruct pq as [product_id quantity].
  unfold WarehouseService.create_order_step.
  apply keeps_orders_bind; [auto with keeps|]. intros product.
  apply keeps_orders_bind; [auto with keeps|]. intros p.
  destruct (Product.quantity p <? quantity); [auto with keeps|].
  repeat (apply keeps_orders_bind; [auto with keeps|]; intros ?).
  auto with keeps.
Qed.

(** ** Loading and saving products *)

Lemma valid_product_row_init (row : Z * ProductORM.t) :
  valid_product_row row = true ->
  Product.init (Some row.1) (ProductORM.name row.2) (ProductORM.quantity row.2)
    (ProductORM.price row.2)
  = Ok (product_of_row row).
Proof.
  unfold valid_product_row, Product.init, product_of_row.
  destruct (Product._validate _); [reflexivity|discriminate].
Qed.

Lemma valid_product_row_validate (row : Z * ProductORM.t) :
  valid_product_row row = true ->
  Product._validate (product_of_row row) = Ok tt.
Proof.
  unfold valid_product_row.
  destruct (Product._validate _) as [[]|]; [reflexivity|discriminate].
Qed.

Lemma product_to_domain_valid (row : Z * ProductORM.t) (w : World Session) :
  valid_product_row row = true ->
  SqlAlchemyProductRepository._to_domain row w
  = (Ok (length (objects w)),
     mkWorld (objects w ++ [product_of_row row]) (session w)).
Proof.
  intros Hv. unfold SqlAlchemyProductRepository._to_domain, on_heap,
    Product.new.
  rewrite (valid_product_row_init _ Hv). reflexivity.
Qed.

(** A product that is stored is loaded into a new object. *)
Lemma get_product_found (id : Z) (row : ProductORM.t) (w : World Session) :
  products (session w) !! id = Some row ->
  valid_product_row (id, row) = true ->
  WarehouseService.get_product (Some id) w
  = (Ok (length (objects w)),
     mkWorld (objects w ++ [product_of_row (id, row)]) (session w)).
Proof.
  intros Hrow Hv.
  unfold WarehouseService.get_product; simpl.
  unfold SqlAlchemyProductRepository.get, bind, gets; simpl.
  rewrite Hrow; simpl.
  rewrite (product_to_domain_valid _ _ Hv). reflexivity.
Qed.

Lemma get_product_not_found (id : Z) (w : World Session) :
  products (session w) !! id = None ->
  WarehouseService.get_product (Some id) w
  = (Raise (ProductNotFoundError (Some id)), w).
Proof.
  intros Hrow.
  unfold WarehouseService.get_product; simpl.
  unfold SqlAlchemyProductRepository.get, bind, gets; simpl.
  rewrite Hrow. reflexivity.
Qed.

Lemma get_product_None (w : World Session) :
  WarehouseService.get_product None w = (Raise (ProductNotFoundError None), w).
Proof. reflexivity. Qed.

(** [update] writes the object's fields in the row of its id. *)
Lemma product_update_found (product : addr) (id : Z) (row : ProductORM.t)
  (w : World Session) :
  Product.id (objects w !!! product) = Some id ->
  products (session w) !! id = Some row ->
  ProductRepository.update product w
  = (Ok product,
     mkWorld (objects w)
       (set_products
          (<[id := ProductORM.mk (Product.name (objects w !!! product))
                     (Product.quantity (objects w !!! product))
                     (Product.price (objects w !!! product))]>
             (products (session w)))
          (session w))).
Proof.
  intros Hid Hrow. simpl. unfold SqlAlchemyProductRepository.update.
  rewrite Hid; simpl. rewrite Hrow. reflexivity.
Qed.

Lemma lookup_total_new {A} `{Inhabited A} (l : list A) (x : A) :
  (l ++ [x]) !!! length l = x.
Proof.
  apply list_lookup_total_correct.
  rewrite lookup_app_r by lia.
  replace (length l - length l)%nat with 0%nat by lia. reflexivity.
Qed.

Lemma insert_new {A} (l : list A) (x y : A) :
  <[length l := y]> (l ++ [x]) = l ++ [y].
Proof.
  rewrite insert_app_r_alt by lia.
  replace (length l - length l)%nat with 0%nat by lia. reflexivity.
Qed.

(** ** create_order *)

(** A pair that asks for more than the stock stops the loop. *)
Lemma create_order_step_insufficient (order : Order.t) (id q : Z)
  (row : ProductORM.t) (w : World Session) :
  products (session w) !! id = Some row ->
  valid_product_row (id, row) = true ->
  ProductORM.quantity row < q ->
  WarehouseService.create_order_step order (id, q) w
  = (Raise (InsufficientStockError (ProductORM.name row) q
              (ProductORM.quantity row)),
     mkWorld (objects w ++ [product_of_row (id, row)]) (session w)).
Proof.
  intros Hrow Hv Hq. unfold WarehouseService.create_order_step.
  unfold bind at 1. rewrite (get_product_found _ _ _ Hrow Hv).
  unfold bind, gets; simpl. rewrite lookup_total_new; simpl.
  destruct (Z.ltb_spec (ProductORM.quantity row) q); [reflexivity|lia].
Qed.

(** A pair the stock covers: a line is added or merged, and the row of the
    product is written back with the quantity reduced. *)
Lemma create_order_step_reduces (order : Order.t) (id q : Z)
  (row : ProductORM.t) (w : World Session) :
  products (session w) !! id = Some row ->
  valid_product_row (id, row) = true ->
  0 < q <= ProductORM.quantity row ->
  exists order' : Order.t,
    WarehouseService.create_order_step order (id, q) w
    = (Ok order',
       mkWorld
         (objects w
          ++ [Product.set_quantity (ProductORM.quantity row - q)
                (product_of_row (id, row))])
         (set_products
            (<[id := ProductORM.mk (ProductORM.name row)
                       (ProductORM.quantity row - q) (ProductORM.price row)]>
               (products (session w)))
            (session w))).
Proof.
  intros Hrow Hv Hq. unfold WarehouseService.create_order_step.
  unfold bind at 1. rewrite (get_product_found _ _ _ Hrow Hv).
  unfold bind at 1. unfold gets at 1. simpl. rewrite lookup_total_new; simpl.
  destruct (Z.ltb_spec (ProductORM.quantity row) q); [lia|].
  unfold bind at 1. unfold gets at 1. simpl.
  assert (Hadd : exists order',
             Order.add_item (objects w ++ [product_of_row (id, row)])
               (length (objects w)) q order = (Ok tt, order')).
  { unfold Order.add_item. destruct (Z.leb_spec q 0); [lia|].
    destruct (Order.add_to_existing _ _ _ _); [eauto|].
    rewrite lookup_total_new. unfold OrderItem.init.
    destruct (Z.leb_spec q 0); [lia|].
    simpl. apply valid_product_row_validate, validate_ok_price in Hv.
    simpl in Hv. rewrite Hv. eauto. }
  destruct Hadd as [order' Hadd]. exists order'.
  unfold bind at 1. unfold call. rewrite Hadd.
  unfold bind at 1. unfold on_heap, Product.reduce_quantity; simpl.
  rewrite lookup_total_new. simpl.
  destruct (Z.leb_spec q 0); [lia|].
  rewrite Z.gtb_ltb.
  destruct (Z.ltb_spec (ProductORM.quantity row) q); [lia|].
  rewrite insert_new.
  unfold bind at 1.
  erewrite product_update_found;
    [|simpl; rewrite lookup_total_new; reflexivity|exact Hrow].
  simpl. rewrite lookup_total_new. reflexivity.
Qed.

(** C7. When the pairs before it have been processed, in the sequence
    given, and a pair asks for more than the stock its product has at that
    moment, [create_order] raises [InsufficientStockError] with the product's
    name, the quantity asked and the stock. The pairs after it are not looked
    at; the products table is the one the earlier pairs left, with their
    reductions; the orders table is the one [create_order] started from: the
    order is not added. *)
Theorem create_order_insufficient_stock
  (now : Z) (done rest : list (Z * Z)) (product_id quantity : Z)
  (w w1 : World Session) (order1 : Order.t) (row : ProductORM.t) :
  for_fold done WarehouseService.create_order_step (Order.init None now) w
  = (Ok order1, w1) ->
  products (session w1) !! product_id = Some row ->
  valid_product_row (product_id, row) = true ->
  ProductORM.quantity row < quantity ->
  WarehouseService.create_order now (done ++ (product_id, quantity) :: rest) w
  = (Raise (InsufficientStockError (ProductORM.name row) quantity
              (ProductORM.quantity row)),
     mkWorld (objects w1 ++ [product_of_row (product_id, row)]) (session w1))
  /\ orders (session w1) = orders (session w).
Proof.
  intros Hdone Hrow Hv Hq. split.
  - unfold WarehouseService.create_order. unfold bind at 1.
    rewrite for_fold_app, Hdone. cbn [for_fold]. unfold bind at 1.
    rewrite (create_order_step_insufficient _ _ _ _ _ Hrow Hv Hq).
    reflexivity.
  - eapply keeps_orders_for_fold; [|exact Hdone].
    apply keeps_orders_create_order_step.
Qed.

Lemma create_order_insufficient_stock_witness :
  WarehouseService.create_order 0 [(1, 2); (2, 30); (1, 1)] shop
  = (Raise (InsufficientStockError (py "Mouse") 30 20),
     mkWorld
       ([Product.mk (Some 1) (py "Laptop") 8 50]
        ++ [product_of_row (2, ProductORM.mk (py "Mouse") 20 30)])
       (mkSession
          (<[1 := ProductORM.mk (py "Laptop") 8 50]>
             (<[2 := ProductORM.mk (py "Mouse") 20 30]> ∅))
          ∅)).
Proof.
  apply (create_order_insufficient_stock 0 [(1, 2)] [(1, 1)] 2 30 shop
           (mkWorld [Product.mk (Some 1) (py "Laptop") 8 50]
              (mkSession
                 (<[1 := ProductORM.mk (py "Laptop") 8 50]>
                    (<[2 := ProductORM.mk (py "Mouse") 20 30]> ∅))
                 ∅))
           (Order.mk None [OrderItem.mk 0 2 50] 0 (py "pending"))
           (ProductORM.mk (py "Mouse") 20 30)).
  - vm_compute. reflexivity.
  - vm_compute. reflexivity.
  - vm_compute. reflexivity.
  - simpl. lia.
Defined.

(** ** Loading orders from a well-formed session *)

Lemma well_formed_products (s : Session) :
  well_formed s = true -> products_valid (products s).
Proof.
  unfold well_formed. intros H id row Hrow.
  apply andb_true_iff in H as [H _].
  rewrite forallb_forall in H. apply H.
  apply list_elem_of_In, elem_of_map_to_list. exact Hrow.
Qed.

Lemma valid_item_row_spec (s : Session) (item_orm : OrderItemORM.t) :
  valid_item_row s item_orm = true ->
  exists id,
    OrderItemORM.product_id item_orm = Some id
    /\ is_Some (products s !! id)
    /\ 0 < OrderItemORM.quantity item_orm
    /\ (OrderItemORM.price_at_order item_orm <=? 0)%float = false.
Proof.
  unfold valid_item_row, query_product.
  destruct (OrderItemORM.product_id item_orm) as [id|]; [|discriminate].
  destruct (products s !! id) as [row|] eqn:Hrow; [|discriminate].
  simpl. intros H. apply andb_true_iff in H as [Hq Hp].
  exists id. repeat split; eauto.
  - apply Z.ltb_lt. exact Hq.
  - apply negb_true_iff. exact Hp.
Qed.

Lemma well_formed_items (s : Session) (id : Z) (order_orm : OrderORM.t) :
  well_formed s = true ->
  orders s !! id = Some order_orm ->
  items_valid (products s) (OrderORM.items order_orm).
Proof.
  unfold well_formed. intros H Hrow.
  apply andb_true_iff in H as [_ H].
  rewrite forallb_forall in H.
  specialize (H (id, order_orm)). simpl in H.
  assert (Hin : In (id, order_orm) (map_to_list (orders s)))
    by (apply list_elem_of_In, elem_of_map_to_list; exact Hrow).
  specialize (H Hin). rewrite forallb_forall in H.
  apply Forall_forall. intros item_orm Hitem.
  apply valid_item_row_spec, H, list_elem_of_In, Hitem.
Qed.

Lemma line_of_app (h ext : heap) (item : OrderItem.t)
  (item_orm : OrderItemORM.t) :
  line_of h item item_orm -> line_of (h ++ ext) item item_orm.
Proof.
  intros (Hlt & Hid & Hq). repeat split.
  - rewrite length_app. lia.
  - rewrite lookup_total_app_l by exact Hlt. exact Hid.
  - exact Hq.
Qed.

Lemma order_of_app (h ext : heap) (order : Order.t) (row : Z * OrderORM.t) :
  order_of h order row -> order_of (h ++ ext) order row.
Proof.
  intros (Hid & Hst & Hat & Hitems). repeat split; try assumption.
  eapply Forall2_impl; [exact Hitems|].
  intros item item_orm. apply line_of_app.
Qed.

(** One line is loaded into a new product object. *)
Lemma item_to_domain_valid (item_orm : OrderItemORM.t) (w : World Session) :
  products_valid (products (session w)) ->
  items_valid (products (session w)) [item_orm] ->
  exists (item : OrderItem.t) (p : Product.t),
    SqlAlchemyOrderRepository.item_to_domain item_orm w
    = (Ok item, mkWorld (objects w ++ [p]) (session w))
    /\ line_of (objects w ++ [p]) item item_orm.
Proof.
  intros Hprod Hitem.
  apply Forall_cons in Hitem as [(id & Hid & [row Hrow] & Hq & Hp) _].
  exists (OrderItem.mk (length (objects w)) (OrderItemORM.quantity item_orm)
            (OrderItemORM.price_at_order item_orm)),
    (product_of_row (id, row)).
  unfold SqlAlchemyOrderRepository.item_to_domain, bind, gets.
  rewrite Hid; simpl. rewrite Hrow; simpl.
  rewrite (product_to_domain_valid _ _ (Hprod _ _ Hrow)).
  unfold of_result, OrderItem.init.
  destruct (Z.leb_spec (OrderItemORM.quantity item_orm) 0); [lia|].
  rewrite Hp. split; [reflexivity|].
  repeat split; simpl.
  - rewrite length_app; simpl; lia.
  - rewrite lookup_total_new. simpl. congruence.
Qed.

(** The lines of an order row are loaded one after the other. *)
Lemma items_to_domain_valid (items_orm : list OrderItemORM.t)
  (w : World Session) :
  products_valid (products (session w)) ->
  items_valid (products (session w)) items_orm ->
  exists (items : list OrderItem.t) (ext : heap),
    map_each SqlAlchemyOrderRepository.item_to_domain items_orm w
    = (Ok items, mkWorld (objects w ++ ext) (session w))
    /\ Forall2 (line_of (objects w ++ ext)) items items_orm.
Proof.
  intros Hprod. revert w Hprod.
  induction items_orm as [|item_orm items_orm IH]; intros w Hprod Hitems.
  - exists [], []. rewrite app_nil_r. destruct w; split; [reflexivity|].
    constructor.
  - apply Forall_cons in Hitems as [Hitem Hitems].
    destruct (item_to_domain_valid item_orm w Hprod) as (item & p & E & Hline).
    { constructor; [exact Hitem|constructor]. }
    destruct (IH (mkWorld (objects w ++ [p]) (session w)) Hprod Hitems)
      as (items & ext & E' & Hlines).
    simpl in E', Hlines.
    exists (item :: items), ([p] ++ ext).
    cbn [map_each]. unfold bind at 1. rewrite E.
    unfold bind at 1. rewrite E'. simpl.
    rewrite <- app_assoc in Hlines. simpl in Hlines.
    rewrite <- app_assoc. simpl.
    split; [reflexivity|].
    constructor; [|exact Hlines].
    replace (objects w ++ p :: ext) with ((objects w ++ [p]) ++ ext)
      by (rewrite <- app_assoc; reflexivity).
    apply line_of_app. exact Hline.
Qed.

Lemma order_to_domain_valid (row : Z * OrderORM.t) (w : World Session) :
  products_valid (products (session w)) ->
  items_valid (products (session w)) (OrderORM.items row.2) ->
  exists (order : Order.t) (ext : heap),
    SqlAlchemyOrderRepository._to_domain row w
    = (Ok order, mkWorld (objects w ++ ext) (session w))
    /\ order_of (objects w ++ ext) order row.
Proof.
  intros Hprod Hitems.
  destruct (items_to_domain_valid _ w Hprod Hitems)
    as (items & ext & E & Hlines).
  exists (Order.mk (Some row.1) items (OrderORM.created_at row.2)
            (OrderORM.status row.2)), ext.
  unfold SqlAlchemyOrderRepository._to_domain, bind. rewrite E.
  split; [reflexivity|].
  repeat split. exact Hlines.
Qed.

(** A stored order is loaded, with its lines. *)
Lemma get_order_found (order_id : Z) (order_orm : OrderORM.t)
  (w : World Session) :
  well_formed (session w) = true ->
  orders (session w) !! order_id = Some order_orm ->
  exists (order : Order.t) (ext : heap),
    WarehouseService.get_order order_id w
    = (Ok order, mkWorld (objects w ++ ext) (session w))
    /\ order_of (objects w ++ ext) order (order_id, order_orm).
Proof.
  intros Hwf Hrow.
  destruct (order_to_domain_valid (order_id, order_orm) w)
    as (order & ext & E & Horder).
  { apply well_formed_products, Hwf. }
  { eapply well_formed_items; eauto. }
  exists order, ext. split; [|exact Horder].
  unfold WarehouseService.get_order; simpl.
  unfold SqlAlchemyOrderRepository.get, bind, gets; simpl.
  rewrite Hrow; simpl. rewrite E. reflexivity.
Qed.

(** ** cancel_order *)

Lemma valid_product_row_increase (id : Z) (row : ProductORM.t) (q : Z) :
  valid_product_row (id, row) = true ->
  0 <= q ->
  valid_product_row
    (id, ProductORM.mk (ProductORM.name row) (ProductORM.quantity row + q)
           (ProductORM.price row)) = true.
Proof.
  unfold valid_product_row, Product._validate, product_of_row; simpl.
  destruct (ProductORM.price row <=? 0)%float; [discriminate|].
  destruct (Z.ltb_spec (ProductORM.quantity row) 0); [discriminate|].
  destruct (negb (truthy (ProductORM.name row)) || _); [discriminate|].
  intros _ Hq.
  destruct (Z.ltb_spec (ProductORM.quantity row + q) 0); [lia|reflexivity].
Qed.

Lemma products_valid_insert (table : gmap Z ProductORM.t) (id : Z)
  (row : ProductORM.t) :
  products_valid table ->
  valid_product_row (id, row) = true ->
  products_valid (<[id := row]> table).
Proof.
  intros Hvalid Hrow id' row'. rewrite lookup_insert.
  case_decide as Hid.
  - intros [= <-]. subst id'. exact Hrow.
  - apply Hvalid.
Qed.

Lemma items_valid_insert (table : gmap Z ProductORM.t) (id : Z)
  (row : ProductORM.t) (items_orm : list OrderItemORM.t) :
  items_valid table items_orm -> items_valid (<[id := row]> table) items_orm.
Proof.
  unfold items_valid. intros H. eapply Forall_impl; [exact H|].
  intros item_orm (id' & Hid & Hsome & Hrest). exists id'.
  repeat split; try tauto.
  rewrite lookup_insert_is_Some. destruct (decide (id = id')); tauto.
Qed.

(** One turn of the loop of [cancel_order]: the row of the product the line
    joins is loaded into a new object, which gets the line's quantity
    added and is written back. *)
Lemma cancel_order_restore_line (item : OrderItem.t)
  (item_orm : OrderItemORM.t) (id : Z) (row : ProductORM.t)
  (w : World Session) :
  line_of (objects w) item item_orm ->
  OrderItemORM.product_id item_orm = Some id ->
  products (session w) !! id = Some row ->
  valid_product_row (id, row) = true ->
  0 < OrderItemORM.quantity item_orm ->
  WarehouseService.cancel_order_restore item w
  = (Ok tt,
     mkWorld
       (objects w
        ++ [Product.set_quantity
              (ProductORM.quantity row + OrderItemORM.quantity item_orm)
              (product_of_row (id, row))])
       (set_products (restore_line (products (session w)) item_orm)
          (session w))).
Proof.
  intros (Hlt & Hid & Hq) Hjoin Hrow Hv Hpos.
  unfold WarehouseService.cancel_order_restore.
  unfold bind at 1. unfold gets at 1. rewrite Hid, Hjoin.
  unfold bind at 1. rewrite (get_product_found _ _ _ Hrow Hv).
  unfold bind at 1.
  unfold on_heap, Product.increase_quantity; simpl.
  rewrite lookup_total_new, Hq. simpl.
  destruct (Z.leb_spec (OrderItemORM.quantity item_orm) 0); [lia|].
  rewrite insert_new.
  unfold bind at 1.
  erewrite product_update_found;
    [|simpl; rewrite lookup_total_new; reflexivity|exact Hrow].
  simpl. rewrite lookup_total_new. simpl.
  unfold restore_line. rewrite Hjoin, Hrow. reflexivity.
Qed.

Lemma restore_line_valid (table : gmap Z ProductORM.t)
  (item_orm : OrderItemORM.t) :
  products_valid table ->
  0 <= OrderItemORM.quantity item_orm ->
  products_valid (restore_line table item_orm).
Proof.
  intros Hvalid Hq. unfold restore_line.
  destruct (OrderItemORM.product_id item_orm) as [id|]; [|exact Hvalid].
  destruct (table !! id) as [row|] eqn:Hrow; [|exact Hvalid].
  apply products_valid_insert; [exact Hvalid|].
  apply valid_product_row_increase; [|exact Hq].
  apply Hvalid. exact Hrow.
Qed.

Lemma restore_line_items_valid (table : gmap Z ProductORM.t)
  (item_orm : OrderItemORM.t) (items_orm : list OrderItemORM.t) :
  items_valid table items_orm ->
  items_valid (restore_line table item_orm) items_orm.
Proof.
  intros H. unfold restore_line.
  destruct (OrderItemORM.product_id item_orm) as [id|]; [|exact H].
  destruct (table !! id) as [row|]; [|exact H].
  apply items_valid_insert. exact H.
Qed.

(** The loop of [cancel_order] over the lines of a loaded order. *)
Lemma cancel_order_restore_loop (items : list OrderItem.t)
  (items_orm : list OrderItemORM.t) (w : World Session) :
  Forall2 (line_of (objects w)) items items_orm ->
  products_valid (products (session w)) ->
  items_valid (products (session w)) items_orm ->
  exists ext : heap,
    for_each items WarehouseService.cancel_order_restore w
    = (Ok tt,
       mkWorld (objects w ++ ext)
         (set_products (restored_products items_orm (products (session w)))
            (session w))).
Proof.
  intros Hlines. revert items w Hlines.
  induction items_orm as [|item_orm items_orm IH];
    intros items w Hlines Hprod Hitems.
  - apply Forall2_nil_inv_r in Hlines. subst items.
    exists []. rewrite app_nil_r. destruct w as [h [tp to]]. reflexivity.
  - apply Forall2_cons_inv_r in Hlines
      as (item & items' & Hline & Hlines & ->).
    apply Forall_cons in Hitems as [(id & Hid & [row Hrow] & Hq & _) Hitems].
    pose proof (cancel_order_restore_line item item_orm id row w
                  Hline Hid Hrow (Hprod _ _ Hrow) Hq) as E.
    set (p := Product.set_quantity
                (ProductORM.quantity row + OrderItemORM.quantity item_orm)
                (product_of_row (id, row))) in E.
    destruct (IH items'
                (mkWorld (objects w ++ [p])
                   (set_products
                      (restore_line (products (session w)) item_orm)
                      (session w)))) as (ext & E').
    + simpl. eapply Forall2_impl; [exact Hlines|].
      intros x y. apply line_of_app.
    + simpl. apply restore_line_valid; [exact Hprod|lia].
    + simpl. apply restore_line_items_valid. exact Hitems.
    + exists ([p] ++ ext). cbn [for_each]. unfold bind at 1. rewrite E.
      rewrite E'. simpl. rewrite <- app_assoc. reflexivity.
Qed.

Lemma order_update_found (order : Order.t) (id : Z) (order_orm : OrderORM.t)
  (w : World Session) :
  Order.id order = Some id ->
  orders (session w) !! id = Some order_orm ->
  OrderRepository.update order w
  = (Ok order,
     mkWorld (objects w)
       (set_orders
          (<[id := OrderORM.set_status (Order.status order) order_orm]>
             (orders (session w)))
          (session w))).
Proof.
  intros Hid Hrow. simpl. unfold SqlAlchemyOrderRepository.update.
  rewrite Hid; simpl. rewrite Hrow. reflexivity.
Qed.

(** C8. In a well-formed session, [cancel_order] on a stored order raises
    [ValueError] when the status is neither "pending" nor "confirmed", and
    the tables are as they were. When the status is one of the two it
    succeeds: line after line the row of the line's product is read from the
    products table as it is at that moment, gets the line's quantity added
    and is written back; then the order row gets the status "cancelled", and
    the order returned is cancelled. *)
Theorem cancel_order_restores_stock
  (order_id : Z) (order_orm : OrderORM.t) (w : World Session) :
  well_formed (session w) = true ->
  orders (session w) !! order_id = Some order_orm ->
  (OrderORM.status order_orm <> py "pending" ->
   OrderORM.status order_orm <> py "confirmed" ->
   exists h' : heap,
     WarehouseService.cancel_order order_id w
     = (Raise (ValueError (Cannot_cancel_order_with_status
                             (OrderORM.status order_orm))),
        mkWorld h' (session w)))
  /\ (OrderORM.status order_orm = py "pending"
      \/ OrderORM.status order_orm = py "confirmed" ->
      exists (order' : Order.t) (h' : heap),
        WarehouseService.cancel_order order_id w
        = (Ok order',
           mkWorld h'
             (mkSession
                (restored_products (OrderORM.items order_orm)
                   (products (session w)))
                (<[order_id := OrderORM.set_status (py "cancelled") order_orm]>
                   (orders (session w)))))
        /\ Order.id order' = Some order_id
        /\ Order.status order' = py "cancelled").
Proof.
  intros Hwf Hrow.
  destruct (get_order_found _ _ _ Hwf Hrow)
    as (order & ext & E & Hid & Hst & _ & Hlines).
  simpl in Hid, Hst, Hlines.
  unfold WarehouseService.cancel_order.
  split.
  - intros Hp Hc. exists (objects w ++ ext).
    unfold bind at 1. rewrite E, Hst.
    rewrite (str_eqb_neq _ _ Hp), (str_eqb_neq _ _ Hc). reflexivity.
  - intros Hpc.
    destruct (cancel_order_restore_loop _ _
                (mkWorld (objects w ++ ext) (session w)) Hlines)
      as (ext' & E').
    { apply well_formed_products, Hwf. }
    { eapply well_formed_items; eauto. }
    simpl in E'.
    exists (Order.set_status (py "cancelled") order), ((objects w ++ ext) ++ ext').
    split; [|split; [exact Hid|reflexivity]].
    unfold bind at 1. rewrite E, Hst.
    assert (Hguard : negb (str_eqb (OrderORM.status order_orm) (py "pending")
                           || str_eqb (OrderORM.status order_orm)
                                (py "confirmed")) = false).
    { destruct Hpc as [-> | ->]; reflexivity. }
    rewrite Hguard.
    unfold bind at 1. rewrite E'.
    unfold bind at 1. unfold call, Order.cancel. rewrite Hst.
    assert (Hnot : str_eqb (OrderORM.status order_orm) (py "completed")
                   = false).
    { destruct Hpc as [-> | ->]; reflexivity. }
    rewrite Hnot.
    erewrite order_update_found; [|exact Hid|exact Hrow].
    reflexivity.
Qed.

Lemma cancel_order_restores_stock_witness :
  (exists h' : heap,
     WarehouseService.cancel_order 2 shop_with_orders
     = (Raise (ValueError (Cannot_cancel_order_with_status (py "completed"))),
        mkWorld h' (session shop_with_orders)))
  /\ (exists (order' : Order.t) (h' : heap),
        WarehouseService.cancel_order 1 shop_with_orders
        = (Ok order',
           mkWorld h'
             (mkSession
                (<[1 := ProductORM.mk (py "Laptop") 10 50]>
                   (<[2 := ProductORM.mk (py "Mouse") 17 30]> ∅))
                (<[1 := OrderORM.mk (py "cancelled") 0
                          [OrderItemORM.mk (Some 1) 2 50]]>
                   (<[2 := OrderORM.mk (py "completed") 0
                             [OrderItemORM.mk (Some 2) 3 30]]> ∅))))
        /\ Order.id order' = Some 1
        /\ Order.status order' = py "cancelled").
Proof.
  split.
  - apply (proj1 (cancel_order_restores_stock 2
                    (OrderORM.mk (py "completed") 0
                       [OrderItemORM.mk (Some 2) 3 30])
                    shop_with_orders eq_refl eq_refl));
      vm_compute; discriminate.
  - destruct (proj2 (cancel_order_restores_stock 1
                       (OrderORM.mk (py "pending") 0
                          [OrderItemORM.mk (Some 1) 2 50])
                       shop_with_orders eq_refl eq_refl))
      as (order' & h' & E & Hid & Hst).
    + left; reflexivity.
    + exists order', h'. rewrite E. repeat split; assumption.
Defined.

(** ** delete_product *)

Lemma well_formed_orders (s : Session) :
  well_formed s = true ->
  Forall (fun row : Z * OrderORM.t =>
            items_valid (products s) (OrderORM.items row.2))
    (map_to_list (orders s)).
Proof.
  intros Hwf. apply Forall_forall. intros [id order_orm] Hin.
  apply elem_of_map_to_list in Hin.
  eapply well_formed_items; eauto.
Qed.

(** All the order rows are loaded, one after the other. *)
Lemma orders_to_domain_valid (rows : list (Z * OrderORM.t))
  (w : World Session) :
  products_valid (products (session w)) ->
  Forall (fun row : Z * OrderORM.t =>
            items_valid (products (session w)) (OrderORM.items row.2)) rows ->
  exists (all_orders : list Order.t) (ext : heap),
    map_each SqlAlchemyOrderRepository._to_domain rows w
    = (Ok all_orders, mkWorld (objects w ++ ext) (session w))
    /\ Forall2 (order_of (objects w ++ ext)) all_orders rows.
Proof.
  intros Hprod. revert w Hprod.
  induction rows as [|row rows IH]; intros w Hprod Hrows.
  - exists [], []. rewrite app_nil_r. destruct w; split; [reflexivity|].
    constructor.
  - apply Forall_cons in Hrows as [Hrow Hrows].
    destruct (order_to_domain_valid row w Hprod Hrow)
      as (order & ext & E & Horder).
    destruct (IH (mkWorld (objects w ++ ext) (session w)) Hprod Hrows)
      as (all_orders & ext' & E' & Horders).
    simpl in E', Horders.
    exists (order :: all_orders), (ext ++ ext').
    cbn [map_each]. unfold bind at 1. rewrite E.
    unfold bind at 1. rewrite E'. simpl.
    rewrite app_assoc.
    split; [reflexivity|].
    constructor; [|exact Horders].
    apply order_of_app. exact Horder.
Qed.

(** The inner loop of [delete_product] on an order without a line for the
    product, and on an order with one. *)
Lemma check_order_no_reference (product_id : Z) (order : Order.t)
  (items_orm : list OrderItemORM.t) (w : World Session) :
  Forall2 (line_of (objects w)) (Order.items order) items_orm ->
  Forall (fun item_orm =>
            OrderItemORM.product_id item_orm <> Some product_id) items_orm ->
  WarehouseService.delete_product_check_order product_id order w = (Ok tt, w).
Proof.
  unfold WarehouseService.delete_product_check_order.
  destruct order as [oid items created status]; simpl.
  induction 1 as [|item item_orm items items_orm (_ & Hid & _) _ IH];
    intros Hno.
  - reflexivity.
  - apply Forall_cons in Hno as [Hne Hno].
    cbn [for_each]. unfold bind at 1. unfold bind at 1. unfold gets at 1.
    rewrite Hid, bool_decide_eq_false_2 by exact Hne.
    simpl. apply IH. exact Hno.
Qed.

Lemma check_order_reference (product_id : Z) (order : Order.t)
  (items_orm : list OrderItemORM.t) (w : World Session) :
  Forall2 (line_of (objects w)) (Order.items order) items_orm ->
  Exists (fun item_orm =>
            OrderItemORM.product_id item_orm = Some product_id) items_orm ->
  WarehouseService.delete_product_check_order product_id order w
  = (Raise (ValueError (Cannot_delete_product_referenced_in_order
                          product_id (Order.id order))), w).
Proof.
  unfold WarehouseService.delete_product_check_order.
  destruct order as [oid items created status]; simpl.
  induction 1 as [|item item_orm items items_orm (_ & Hid & _) _ IH];
    intros Hex.
  - inversion Hex.
  - cbn [for_each]. unfold bind at 1. unfold bind at 1. unfold gets at 1.
    rewrite Hid.
    destruct (decide (OrderItemORM.product_id item_orm = Some product_id))
      as [Heq|Hne].
    + rewrite bool_decide_eq_true_2 by exact Heq. reflexivity.
    + rewrite bool_decide_eq_false_2 by exact Hne. simpl.
      apply IH. inversion Hex; [contradiction|assumption].
Qed.

(** The outer loop, over the loaded orders. *)
Lemma scan_orders_no_reference (product_id : Z) (all_orders : list Order.t)
  (rows : list (Z * OrderORM.t)) (w : World Session) :
  Forall2 (order_of (objects w)) all_orders rows ->
  Forall (fun row : Z * OrderORM.t => ~ references product_id row.2) rows ->
  for_each all_orders
    (WarehouseService.delete_product_check_order product_id) w
  = (Ok tt, w).
Proof.
  induction 1 as [|order row all_orders rows (_ & _ & _ & Hlines) _ IH];
    intros Hno.
  - reflexivity.
  - apply Forall_cons in Hno as [Hne Hno].
    cbn [for_each]. unfold bind at 1.
    rewrite (check_order_no_reference _ _ _ _ Hlines).
    + apply IH. exact Hno.
    + apply not_Exists_Forall in Hne; [exact Hne|].
      intros x. apply _.
Qed.

Lemma scan_orders_reference (product_id : Z) (all_orders : list Order.t)
  (rows : list (Z * OrderORM.t)) (w : World Session) :
  Forall2 (order_of (objects w)) all_orders rows ->
  Exists (fun row : Z * OrderORM.t => references product_id row.2) rows ->
  exists row : Z * OrderORM.t,
    row ∈ rows
    /\ references product_id row.2
    /\ for_each all_orders
         (WarehouseService.delete_product_check_order product_id) w
       = (Raise (ValueError (Cannot_delete_product_referenced_in_order
                               product_id (Some row.1))), w).
Proof.
  induction 1 as [|order row all_orders rows (Hid & _ & _ & Hlines) _ IH];
    intros Hex.
  - inversion Hex.
  - cbn [for_each]. unfold bind at 1.
    destruct (decide (references product_id row.2)) as [Href|Hne].
    + exists row. split; [left|]. split; [exact Href|].
      rewrite (check_order_reference _ _ _ _ Hlines Href), Hid. reflexivity.
    + rewrite (check_order_no_reference _ _ _ _ Hlines).
      * destruct IH as (row' & Hin & Href & E).
        { inversion Hex; [contradiction|assumption]. }
        exists row'. split; [right; exact Hin|]. split; assumption.
      * apply not_Exists_Forall in Hne; [exact Hne|].
        intros x. apply _.
Qed.

Lemma product_delete_found (id : Z) (row : ProductORM.t) (w : World Session) :
  products (session w) !! id = Some row ->
  ProductRepository.delete id w
  = (Ok true,
     mkWorld (objects w)
       (set_products (delete id (products (session w))) (session w))).
Proof.
  intros Hrow. simpl. unfold SqlAlchemyProductRepository.delete; simpl.
  rewrite Hrow. reflexivity.
Qed.

(** The start of [delete_product] on a stored product: the product, then
    all the orders, are loaded. *)
Lemma delete_product_loads (product_id : Z) (row : ProductORM.t)
  (w : World Session) :
  well_formed (session w) = true ->
  products (session w) !! product_id = Some row ->
  exists (all_orders : list Order.t) (h' : heap),
    WarehouseService.delete_product product_id w
    = (for_each all_orders
         (WarehouseService.delete_product_check_order product_id);;
       ProductRepository.delete product_id) (mkWorld h' (session w))
    /\ Forall2 (order_of h') all_orders (map_to_list (orders (session w))).
Proof.
  intros Hwf Hrow.
  pose proof (well_formed_products _ Hwf) as Hprod.
  destruct (orders_to_domain_valid (map_to_list (orders (session w)))
              (mkWorld (objects w ++ [product_of_row (product_id, row)])
                 (session w)) Hprod (well_formed_orders _ Hwf))
    as (all_orders & ext & E & Horders).
  simpl in E, Horders.
  exists all_orders, ((objects w ++ [product_of_row (product_id, row)]) ++ ext).
  split; [|exact Horders].
  unfold WarehouseService.delete_product.
  unfold bind at 1. rewrite (get_product_found _ _ _ Hrow (Hprod _ _ Hrow)).
  unfold bind at 1. simpl OrderRepository.list.
  unfold SqlAlchemyOrderRepository.list.
  unfold bind at 1. unfold gets at 1. simpl session. rewrite E.
  reflexivity.
Qed.

(** C9. [delete_product] on a product that is not stored raises
    [ProductNotFoundError]. On a stored product, in a well-formed session:
    when an order row, whatever its status, has a line for the product, it
    raises [ValueError] with the id of such an order, and the tables are as
    they were — the store's delete is not reached; when no order row has a
    line for the product, the store's delete is run: the product's row is
    removed and [True] is returned. *)
Theorem delete_product_referential_integrity
  (product_id : Z) (w : World Session) :
  (products (session w) !! product_id = None ->
   WarehouseService.delete_product product_id w
   = (Raise (ProductNotFoundError (Some product_id)), w))
  /\ (well_formed (session w) = true ->
      is_Some (products (session w) !! product_id) ->
      (exists order_id order_orm,
         orders (session w) !! order_id = Some order_orm
         /\ references product_id order_orm) ->
      exists (order_id : Z) (order_orm : OrderORM.t) (h' : heap),
        orders (session w) !! order_id = Some order_orm
        /\ references product_id order_orm
        /\ WarehouseService.delete_product product_id w
           = (Raise (ValueError (Cannot_delete_product_referenced_in_order
                                   product_id (Some order_id))),
              mkWorld h' (session w)))
  /\ (well_formed (session w) = true ->
      is_Some (products (session w) !! product_id) ->
      (forall order_id order_orm,
         orders (session w) !! order_id = Some order_orm ->
         ~ references product_id order_orm) ->
      exists h' : heap,
        WarehouseService.delete_product product_id w
        = (Ok true,
           mkWorld h'
             (set_products (delete product_id (products (session w)))
                (session w)))).
Proof.
  split; [|split].
  - intros Hnone. unfold WarehouseService.delete_product.
    unfold bind at 1. rewrite (get_product_not_found _ _ Hnone). reflexivity.
  - intros Hwf [row Hrow] (order_id & order_orm & Horder & Href).
    destruct (delete_product_loads _ _ _ Hwf Hrow)
      as (all_orders & h' & E & Horders).
    destruct (scan_orders_reference product_id all_orders _
                (mkWorld h' (session w)) Horders)
      as ([order_id' order_orm'] & Hin & Href' & E').
    { apply Exists_exists. exists (order_id, order_orm).
      split; [|exact Href]. apply elem_of_map_to_list. exact Horder. }
    exists order_id', order_orm', h'.
    split; [apply elem_of_map_to_list; exact Hin|].
    split; [exact Href'|].
    rewrite E. unfold bind at 1. rewrite E'. reflexivity.
  - intros Hwf [row Hrow] Hnone.
    destruct (delete_product_loads _ _ _ Hwf Hrow)
      as (all_orders & h' & E & Horders).
    exists h'. rewrite E. unfold bind at 1.
    rewrite (scan_orders_no_reference product_id all_orders _
               (mkWorld h' (session w)) Horders).
    + erewrite product_delete_found; [reflexivity|exact Hrow].
    + apply Forall_forall. intros [order_id order_orm] Hin.
      apply elem_of_map_to_list in Hin. simpl. eapply Hnone; eauto.
Qed.

Lemma delete_product_referential_integrity_witness :
  WarehouseService.delete_product 3 shop_with_orders
  = (Raise (ProductNotFoundError (Some 3)), shop_with_orders)
  /\ (exists (order_id : Z) (order_orm : OrderORM.t) (h' : heap),
        orders (session shop_with_orders) !! order_id = Some order_orm
        /\ references 2 order_orm
        /\ WarehouseService.delete_product 2 shop_with_orders
           = (Raise (ValueError (Cannot_delete_product_referenced_in_order
                                   2 (Some order_id))),
              mkWorld h' (session shop_with_orders)))
  /\ (exists h' : heap,
        WarehouseService.delete_product 1 shop
        = (Ok true,
           mkWorld h'
             (mkSession (<[2 := ProductORM.mk (py "Mouse") 20 30]> ∅) ∅))).
Proof.
  split; [|split].
  - apply (proj1 (delete_product_referential_integrity 3 shop_with_orders)).
    reflexivity.
  - apply (proj1 (proj2 (delete_product_referential_integrity
                           2 shop_with_orders)) eq_refl).
    + eexists. reflexivity.
    + exists 2, (OrderORM.mk (py "completed") 0
                   [OrderItemORM.mk (Some 2) 3 30]).
      split; [reflexivity|]. left. reflexivity.
  - destruct (proj2 (proj2 (delete_product_referential_integrity 1 shop))
                eq_refl) as (h' & E).
    + eexists. reflexivity.
    + intros order_id order_orm H. discriminate H.
    + exists h'. rewrite E. reflexivity.
Defined.

(** ** The service on the shop: the cases of the test suite *)

(** [create_order([(1, 2), (2, 3)])] with stocks 10 and 20: an order of two
    lines and five items, stocks 8 and 17. *)
Example create_order_two_products :
  exists (order : Order.t) (w' : World Session),
    WarehouseService.create_order 0 [(1, 2); (2, 3)] shop = (Ok order, w')
    /\ Order.id order = Some 1
    /\ length (Order.items order) = 2%nat
    /\ Order.total_items order = 5
    /\ ProductORM.quantity <$> products (session w') !! 1 = Some 8
    /\ ProductORM.quantity <$> products (session w') !! 2 = Some 17.
Proof.
  eexists _, _. split; [vm_compute; reflexivity|].
  repeat split.
Qed.

(** The order [create_order] returns refers to the product object whose
    stock it has just reduced: read through the line, the product has the
    quantity 8 that is left, while the line keeps the price 50. *)
Example create_order_line_shows_stock_left :
  exists (order : Order.t) (item : OrderItem.t) (w' : World Session),
    WarehouseService.create_order 0 [(1, 2)] shop = (Ok order, w')
    /\ Order.items order = [item]
    /\ OrderItem.price_at_order item = 50%float
    /\ objects w' !!! OrderItem.product item
       = Product.mk (Some 1) (py "Laptop") 8 50.
Proof.
  eexists _, _, _. split; [vm_compute; reflexivity|].
  repeat split.
Qed.

(** An order loaded after the price of its product was changed: the product
    of the line is the current row, priced 60; [price_at_order] is the 50
    of the day of the order. *)
Example get_order_shows_current_product :
  exists (order : Order.t) (item : OrderItem.t) (w' : World Session),
    (WarehouseService.create_order 0 [(1, 2)];;
     WarehouseService.update_product_price 1 60;;
     WarehouseService.get_order 1) shop = (Ok order, w')
    /\ Order.items order = [item]
    /\ OrderItem.price_at_order item = 50%float
    /\ objects w' !!! OrderItem.product item
       = Product.mk (Some 1) (py "Laptop") 8 60.
Proof.
  eexists _, _, _. split; [vm_compute; reflexivity|].
  repeat split.
Qed.

(** [create_order] then [cancel_order]: the stock is 10 again and the order
    is cancelled. *)
Example create_then_cancel_order :
  exists (order : Order.t) (w' : World Session),
    (WarehouseService.create_order 0 [(1, 2)];;
     WarehouseService.cancel_order 1) shop = (Ok order, w')
    /\ Order.status order = py "cancelled"
    /\ products (session w') = products (session shop).
Proof.
  eexists _, _. split; [vm_compute; reflexivity|].
  repeat split.
Qed.

(** The session [create_order] leaves is one the repositories can load. *)
Example create_order_keeps_well_formed :
  well_formed (session (WarehouseService.create_order 0 [(1, 2); (2, 3)] shop).2)
  = true.
Proof. vm_compute. reflexivity. Qed.

(** * Further properties *)

(** ** Product: the quantity methods *)

(** X1. [reduce_quantity] and [increase_quantity] keep a product valid:
    whether they return or raise, an object that passes [_validate] before
    the call passes it after, and its id, name and price are the same. *)
Theorem quantity_methods_keep_valid
  (h h' : heap) (self : addr) (amount : Z) (r : result unit) :
  Product._validate (h !!! self) = Ok tt ->
  Product.reduce_quantity self amount h = (r, h')
  \/ Product.increase_quantity self amount h = (r, h') ->
  Product._validate (h' !!! self) = Ok tt
  /\ Product.id (h' !!! self) = Product.id (h !!! self)
  /\ Product.name (h' !!! self) = Product.name (h !!! self)
  /\ Product.price (h' !!! self) = Product.price (h !!! self).
Proof.
  intros Hvalid.
  assert (Hset : forall v, 0 <= v ->
            let p := <[self := Product.set_quantity v (h !!! self)]> h
                     !!! self in
            Product._validate p = Ok tt
            /\ Product.id p = Product.id (h !!! self)
            /\ Product.name p = Product.name (h !!! self)
            /\ Product.price p = Product.price (h !!! self)).
  { intros v Hv. destruct (decide (self < length h)%nat) as [Hlt|Hge]; simpl.
    - rewrite list_lookup_total_insert_eq by exact Hlt.
      split; [|repeat split].
      revert Hvalid. unfold Product._validate; simpl.
      destruct (Product.price (h !!! self) <=? 0)%float; [discriminate|].
      destruct (Z.ltb_spec (Product.quantity (h !!! self)) 0);
        [discriminate|].
      destruct (negb (truthy (Product.name (h !!! self))) || _);
        [discriminate|].
      intros _. destruct (Z.ltb_spec v 0); [lia|reflexivity].
    - rewrite list_insert_ge by lia. repeat split. exact Hvalid. }
  assert (Hq : 0 <= Product.quantity (h !!! self)).
  { revert Hvalid. unfold Product._validate.
    destruct (Product.price (h !!! self) <=? 0)%float; [discriminate|].
    destruct (Z.ltb_spec (Product.quantity (h !!! self)) 0);
      [discriminate|lia]. }
  unfold Product.reduce_quantity, Product.increase_quantity.
  intros [H | H].
  - destruct (Z.leb_spec amount 0);
      [injection H as _ <-; repeat split; exact Hvalid|].
    rewrite Z.gtb_ltb in H.
    destruct (Z.ltb_spec (Product.quantity (h !!! self)) amount);
      injection H as _ <-; [repeat split; exact Hvalid|].
    apply Hset. lia.
  - destruct (Z.leb_spec amount 0); injection H as _ <-;
      [repeat split; exact Hvalid|].
    apply Hset. lia.
Qed.

Lemma quantity_methods_keep_valid_witness :
  Product._validate
    ([Product.mk (Some 1) (py "Test Product") 7 50] !!! 0%nat) = Ok tt.
Proof.
  apply (quantity_methods_keep_valid
           [Product.mk (Some 1) (py "Test Product") 10 50]
           [Product.mk (Some 1) (py "Test Product") 7 50] 0%nat 3 (Ok tt));
    [reflexivity | left; reflexivity].
Defined.

(** ** Order: the lines *)

Lemma add_to_existing_total (h : heap) (product_id : option Z) (q : Z)
  (items items' : list OrderItem.t) :
  Order.add_to_existing h product_id q items = Some items' ->
  foldr (fun item acc => OrderItem.quantity item + acc) 0 items'
  = foldr (fun item acc => OrderItem.quantity item + acc) 0 items + q.
Proof.
  revert items'. induction items as [|item items IH]; intros items'; simpl.
  - discriminate.
  - case_bool_decide.
    + intros [= <-]. simpl. lia.
    + destruct (Order.add_to_existing h product_id q items) as [rest|];
        [|discriminate].
      intros [= <-]. simpl. rewrite (IH rest eq_refl). lia.
Qed.

(** X2. An [add_item] that returns has added exactly the quantity asked to
    the order's [total_items], whether the product got a new line or was
    merged into one; an [add_item] that raises leaves the order as it
    was. *)
Theorem add_item_total_items
  (h : heap) (product : addr) (q : Z) (o o' : Order.t) (r : result unit) :
  Order.add_item h product q o = (r, o') ->
  match r with
  | Ok _ => Order.total_items o' = Order.total_items o + q
  | Raise _ => o' = o
  end.
Proof.
  unfold Order.add_item, Order.total_items.
  destruct (Z.leb_spec q 0); [intros [= <- <-]; reflexivity|].
  destruct (Order.add_to_existing _ _ _ _) as [items'|] eqn:E.
  - intros [= <- <-]. simpl. apply (add_to_existing_total _ _ _ _ _ E).
  - destruct (OrderItem.init _ _ _) as [item|e] eqn:Ei;
      intros [= <- <-]; [|reflexivity].
    simpl. rewrite foldr_app. simpl.
    unfold OrderItem.init in Ei.
    destruct (q <=? 0); [discriminate|].
    destruct (_ <=? _)%float; [discriminate|].
    injection Ei as <-. simpl.
    generalize (Order.items o). intros l.
    induction l as [|x l IH]; simpl; lia.
Qed.

Lemma add_item_total_items_witness :
  Order.total_items (Order.mk (Some 1) [OrderItem.mk 0 5 50] 0 (py "pending"))
  = Order.total_items (Order.mk (Some 1) [OrderItem.mk 0 2 50] 0 (py "pending"))
    + 3.
Proof.
  apply (add_item_total_items [Product.mk (Some 1) (py "Product") 10 50]
           0%nat 3
           (Order.mk (Some 1) [OrderItem.mk 0 2 50] 0 (py "pending"))
           (Order.mk (Some 1) [OrderItem.mk 0 5 50] 0 (py "pending"))
           (Ok tt)).
  reflexivity.
Defined.

Lemma add_to_existing_ids (h : heap) (product_id : option Z) (q : Z)
  (items items' : list OrderItem.t) :
  Order.add_to_existing h product_id q items = Some items' ->
  (fun item => Product.id (h !!! OrderItem.product item)) <$> items'
  = (fun item => Product.id (h !!! OrderItem.product item)) <$> items.
Proof.
  revert items'. induction items as [|item items IH]; intros items';
    cbn [Order.add_to_existing].
  - discriminate.
  - case_bool_decide.
    + intros [= <-]. reflexivity.
    + destruct (Order.add_to_existing h product_id q items) as [rest|];
        [|discriminate].
      intros [= <-]. rewrite !fmap_cons. f_equal. apply IH. reflexivity.
Qed.

Lemma add_to_existing_positive (h : heap) (product_id : option Z) (q : Z)
  (items items' : list OrderItem.t) :
  0 < q ->
  Forall (fun item => 0 < OrderItem.quantity item) items ->
  Order.add_to_existing h product_id q items = Some items' ->
  Forall (fun item => 0 < OrderItem.quantity item) items'.
Proof.
  intros Hq Hpos. revert items'.
  induction Hpos as [|item items Hitem Hpos IH]; intros items'; simpl.
  - discriminate.
  - case_bool_decide.
    + intros [= <-]. constructor; [simpl; lia|exact Hpos].
    + destruct (Order.add_to_existing h product_id q items) as [rest|];
        [|discriminate].
      intros [= <-]. constructor; [exact Hitem|]. apply IH. reflexivity.
Qed.

Lemma add_to_existing_None (h : heap) (product_id : option Z) (q : Z)
  (items : list OrderItem.t) :
  Order.add_to_existing h product_id q items = None ->
  no_line_for h product_id items.
Proof.
  induction items as [|item items IH]; simpl.
  - constructor.
  - case_bool_decide as Hid; [discriminate|].
    destruct (Order.add_to_existing h product_id q items); [discriminate|].
    intros _. constructor; [exact Hid|]. apply IH. reflexivity.
Qed.

(** X3. [add_item] keeps the lines of an order in order: when no two lines
    are for one product identity and every line has a positive quantity,
    the same holds after [add_item], whether it returns or raises. *)
Theorem add_item_keeps_lines_ok
  (h : heap) (product : addr) (q : Z) (o o' : Order.t) (r : result unit) :
  lines_ok h o ->
  Order.add_item h product q o = (r, o') ->
  lines_ok h o'.
Proof.
  intros [Hnodup Hpos]. unfold Order.add_item.
  destruct (Z.leb_spec q 0); [intros [= <- <-]; split; assumption|].
  destruct (Order.add_to_existing _ _ _ _) as [items'|] eqn:E.
  - intros [= <- <-]. split.
    + unfold line_ids; simpl.
      rewrite (add_to_existing_ids _ _ _ _ _ E). exact Hnodup.
    + simpl. eapply add_to_existing_positive; eauto.
  - apply add_to_existing_None in E.
    destruct (OrderItem.init _ _ _) as [item|e] eqn:Ei;
      intros [= <- <-]; [|split; assumption].
    unfold OrderItem.init in Ei.
    destruct (q <=? 0); [discriminate|].
    destruct (_ <=? _)%float; [discriminate|].
    injection Ei as <-. split.
    + unfold line_ids; simpl. rewrite fmap_app. simpl.
      apply NoDup_app. split; [exact Hnodup|]. split.
      * intros x Hx Hin. apply list_elem_of_singleton in Hin. subst x.
        apply list_elem_of_fmap in Hx as (item & Hitem & Hin).
        unfold no_line_for in E. rewrite Forall_forall in E.
        apply (E item Hin). symmetry. exact Hitem.
      * apply NoDup_singleton.
    + simpl. apply Forall_app. split; [exact Hpos|].
      constructor; [simpl; lia|constructor].
Qed.

Lemma add_item_keeps_lines_ok_witness :
  lines_ok [Product.mk (Some 1) (py "Laptop") 10 50;
            Product.mk (Some 2) (py "Mouse") 20 30]
    (Order.mk (Some 1) [OrderItem.mk 0 2 50; OrderItem.mk 1 3 30] 0
       (py "pending")).
Proof.
  apply (add_item_keeps_lines_ok
           [Product.mk (Some 1) (py "Laptop") 10 50;
            Product.mk (Some 2) (py "Mouse") 20 30] 1%nat 3
           (Order.mk (Some 1) [OrderItem.mk 0 2 50] 0 (py "pending"))
           (Order.mk (Some 1) [OrderItem.mk 0 2 50; OrderItem.mk 1 3 30] 0
              (py "pending"))
           (Ok tt)).
  - split.
    + apply NoDup_singleton.
    + constructor; [simpl; lia|constructor].
  - reflexivity.
Defined.

Lemma set_items_same (o : Order.t) : Order.set_items (Order.items o) o = o.
Proof. destruct o; reflexivity. Qed.

Lemma filter_no_line (h : heap) (product_id : option Z)
  (items : list OrderItem.t) :
  no_line_for h product_id items ->
  filter (fun item => Product.id (h !!! OrderItem.product item) <> product_id)
    items = items.
Proof.
  induction 1 as [|item items Hne _ IH]; [reflexivity|].
  rewrite filter_cons_True by exact Hne. rewrite IH. reflexivity.
Qed.

(** X4. [remove_item] never raises; after it no line of the order is for
    the product identity given, the lines for every other identity are the
    ones the order had, in the same sequence, and the id, the date and the
    status of the order are the same. *)
Theorem remove_item_removes
  (h : heap) (product_id : option Z) (o : Order.t) :
  exists o' : Order.t,
    Order.remove_item h product_id o = (Ok tt, o')
    /\ no_line_for h product_id (Order.items o')
    /\ (forall other : option Z,
          other <> product_id -> lines_for h other o' = lines_for h other o)
    /\ Order.id o' = Order.id o
    /\ Order.created_at o' = Order.created_at o
    /\ Order.status o' = Order.status o.
Proof.
  eexists. split; [reflexivity|]. simpl. split; [|split; [|repeat split]].
  - unfold no_line_for. apply Forall_forall. intros item Hin.
    apply list_elem_of_filter in Hin as [Hne _]. exact Hne.
  - intros other Hother. unfold lines_for. simpl.
    apply list_filter_filter_l. intros item Heq. congruence.
Qed.

Lemma remove_item_removes_witness :
  exists o' : Order.t,
    Order.remove_item [Product.mk (Some 1) (py "Product 1") 10 50;
                       Product.mk (Some 2) (py "Product 2") 20 30] (Some 1)
      (Order.mk (Some 1) [OrderItem.mk 0 2 50; OrderItem.mk 1 3 30] 0
         (py "pending"))
    = (Ok tt, o')
    /\ lines_for [Product.mk (Some 1) (py "Product 1") 10 50;
                  Product.mk (Some 2) (py "Product 2") 20 30] (Some 2) o'
       = [OrderItem.mk 1 3 30].
Proof.
  destruct (remove_item_removes
              [Product.mk (Some 1) (py "Product 1") 10 50;
               Product.mk (Some 2) (py "Product 2") 20 30] (Some 1)
              (Order.mk (Some 1) [OrderItem.mk 0 2 50; OrderItem.mk 1 3 30] 0
                 (py "pending")))
    as (o' & Hrun & _ & Hother & _).
  exists o'. split; [exact Hrun|].
  rewrite (Hother (Some 2)) by discriminate. reflexivity.
Defined.

(** X5. Adding a product the order has no line for and then removing that
    product's identity gives back the order as it was before the add. *)
Theorem add_then_remove_item
  (h : heap) (product : addr) (q : Z) (o : Order.t) :
  0 < q ->
  (Product.price (h !!! product) <=? 0)%float = false ->
  no_line_for h (Product.id (h !!! product)) (Order.items o) ->
  (Order.add_item h product q;;
   Order.remove_item h (Product.id (h !!! product))) o
  = (Ok tt, o).
Proof.
  intros Hq Hprice Hno. unfold bind.
  rewrite (add_item_new_line _ _ _ _ Hq Hprice Hno).
  unfold Order.remove_item. simpl.
  rewrite filter_app, (filter_no_line _ _ _ Hno).
  rewrite filter_cons_False by (simpl; intros Hne; apply Hne; reflexivity).
  rewrite filter_nil, app_nil_r.
  destruct o; reflexivity.
Qed.

Lemma add_then_remove_item_witness :
  (Order.add_item [Product.mk (Some 1) (py "Laptop") 10 50;
                   Product.mk (Some 2) (py "Mouse") 20 30] 1 3;;
   Order.remove_item [Product.mk (Some 1) (py "Laptop") 10 50;
                      Product.mk (Some 2) (py "Mouse") 20 30] (Some 2))
    (Order.mk (Some 1) [OrderItem.mk 0 2 50] 0 (py "pending"))
  = (Ok tt, Order.mk (Some 1) [OrderItem.mk 0 2 50] 0 (py "pending")).
Proof.
  apply (add_then_remove_item
           [Product.mk (Some 1) (py "Laptop") 10 50;
            Product.mk (Some 2) (py "Mouse") 20 30] 1%nat 3
           (Order.mk (Some 1) [OrderItem.mk 0 2 50] 0 (py "pending")));
    [lia | reflexivity |].
  constructor; [simpl; discriminate|constructor].
Defined.

(** ** Order: the life of an order *)

(** X6. An order that has an item goes through [confirm] then [complete]
    whatever its status was: both succeed and the order, otherwise the same,
    is completed. After [cancel], [complete] never succeeds: [cancel] then
    [complete] raises on every order, and leaves a completed order as it
    was and any other order cancelled. *)
Theorem order_life_paths (o : Order.t) :
  (Order.items o <> [] ->
   (Order.confirm;; Order.complete) o
   = (Ok tt, Order.set_status (py "completed") o))
  /\ (exists e : exn,
        (Order.cancel;; Order.complete) o
        = (Raise e,
           if str_eqb (Order.status o) (py "completed") then o
           else Order.set_status (py "cancelled") o)).
Proof.
  split.
  - intros Hitems. unfold bind. rewrite (confirm_nonempty _ Hitems).
    reflexivity.
  - unfold bind, Order.cancel.
    destruct (str_eqb (Order.status o) (py "completed")).
    + eexists. reflexivity.
    + eexists. reflexivity.
Qed.

Lemma order_life_paths_witness :
  (Order.confirm;; Order.complete)
    (Order.mk (Some 1) [OrderItem.mk 0 2 50] 0 (py "pending"))
  = (Ok tt, Order.mk (Some 1) [OrderItem.mk 0 2 50] 0 (py "completed")).
Proof.
  apply (proj1 (order_life_paths
                  (Order.mk (Some 1) [OrderItem.mk 0 2 50] 0 (py "pending")))).
  discriminate.
Defined.

(** ** The product repository *)

Lemma next_id_above {V} (table : gmap Z V) (k : Z) :
  is_Some (table !! k) -> k < next_id table.
Proof.
  unfold next_id. revert k.
  apply (map_fold_weak_ind
           (fun r (m : gmap Z V) => forall k, is_Some (m !! k) -> k < 1 + r)).
  - intros k [x Hx]. rewrite lookup_empty in Hx. discriminate.
  - intros i x m r _ IH k Hk.
    rewrite lookup_insert_is_Some in Hk.
    destruct Hk as [-> | [_ Hk]]; [lia|].
    specialize (IH k Hk). lia.
Qed.

(** The key given to a new row is the key of no row. *)
Lemma next_id_fresh {V} (table : gmap Z V) : table !! next_id table = None.
Proof.
  destruct (table !! next_id table) as [x|] eqn:E; [|reflexivity].
  pose proof (next_id_above table (next_id table) (mk_is_Some _ _ E)). lia.
Qed.




(** X8. [delete] never raises. It returns [True] exactly when the product
    was stored; afterwards the product has no row, every other row and every
    order is as it was, and [get] of the id returns [None]. *)
Theorem product_delete_then_get (product_id : Z) (w : World Session) :
  exists (deleted : bool) (w' : World Session),
    ProductRepository.delete product_id w = (Ok deleted, w')
    /\ (deleted = true <-> is_Some (products (session w) !! product_id))
    /\ products (session w') = delete product_id (products (session w))
    /\ orders (session w') = orders (session w)
    /\ objects w' = objects w
    /\ ProductRepository.get (Some product_id) w' = (Ok None, w').
Proof.
  simpl. unfold SqlAlchemyProductRepository.delete; simpl.
  destruct (products (session w) !! product_id) as [row|] eqn:Hrow; simpl.
  - eexists _, _. split; [reflexivity|]. simpl.
    split; [split; eauto|]. repeat split.
    unfold SqlAlchemyProductRepository.get, bind, gets; simpl.
    rewrite lookup_delete_eq. reflexivity.
  - exists false, w. split; [reflexivity|].
    split; [split; [discriminate|intros [x Hx]; discriminate]|].
    split; [symmetry; apply delete_id; exact Hrow|].
    repeat split.
    unfold SqlAlchemyProductRepository.get, bind, gets; simpl.
    rewrite Hrow. reflexivity.
Qed.

Lemma product_delete_then_get_witness :
  exists (deleted : bool) (w' : World Session),
    ProductRepository.delete 1 shop = (Ok deleted, w')
    /\ deleted = true
    /\ ProductRepository.get (Some 1) w' = (Ok None, w').
Proof.
  destruct (product_delete_then_get 1 shop)
    as (deleted & w' & Hrun & Hdeleted & _ & _ & _ & Hget).
  exists deleted, w'. split; [exact Hrun|]. split; [|exact Hget].
  apply Hdeleted. eexists. reflexivity.
Defined.



(** ** The service: products *)

Lemma head_filter_None {A} (P : A -> Prop) `{!forall x, Decision (P x)}
  (l : list A) :
  Forall (fun x => ~ P x) l -> head (filter P l) = None.
Proof.
  induction 1 as [|x l Hx _ IH]; [reflexivity|].
  rewrite filter_cons_False by exact Hx. exact IH.
Qed.

Lemma head_filter_Some {A} (P : A -> Prop) `{!forall x, Decision (P x)}
  (l : list A) :
  Exists P l -> exists x, head (filter P l) = Some x /\ P x /\ x ∈ l.
Proof.
  induction l as [|y l IH]; intros Hex; [inversion Hex|].
  destruct (decide (P y)) as [Hy|Hy].
  - exists y. rewrite filter_cons_True by exact Hy.
    split; [reflexivity|]. split; [exact Hy|left].
  - rewrite filter_cons_False by exact Hy.
    destruct IH as (x & Hx & HP & Hin).
    { inversion Hex; [contradiction|assumption]. }
    exists x. split; [exact Hx|]. split; [exact HP|right; exact Hin].
Qed.

(** [get_by_name]: the first row with the name, loaded. *)
Lemma get_by_name_run (name : str) (w : World Session) :
  ProductRepository.get_by_name name w
  = match head (filter (fun r : Z * ProductORM.t => ProductORM.name r.2 = name)
                  (map_to_list (products (session w)))) with
    | Some row =>
        match SqlAlchemyProductRepository._to_domain row w with
        | (Ok product, w') => (Ok (Some product), w')
        | (Raise e, w') => (Raise e, w')
        end
    | None => (Ok None, w)
    end.
Proof.
  simpl. unfold SqlAlchemyProductRepository.get_by_name, bind, gets.
  destruct (head _) as [row|]; [|reflexivity].
  destruct (SqlAlchemyProductRepository._to_domain row w) as [[a|e] w'];
    reflexivity.
Qed.

(** X10. [create_product] with a name some stored product has raises
    [ValueError] and leaves the tables as they were. With a name no stored
    product has, it runs the checks of [Product]: when they fail their
    exception is raised and nothing has changed; when they pass, the product
    is stored under a key no row had, with the name, quantity and price
    given, the other rows and the orders are as they were, and the object
    returned has that key as its id. *)
Theorem create_product_spec
  (name : str) (quantity : Z) (price : float) (w : World Session) :
  (products_valid (products (session w)) ->
   (exists id row,
      products (session w) !! id = Some row /\ ProductORM.name row = name) ->
   exists h' : heap,
     WarehouseService.create_product name quantity price w
     = (Raise (ValueError (Product_with_name_already_exists name)),
        mkWorld h' (session w)))
  /\ ((forall id row,
         products (session w) !! id = Some row -> ProductORM.name row <> name) ->
      match Product.init None name quantity price with
      | Raise e =>
          WarehouseService.create_product name quantity price w = (Raise e, w)
      | Ok p =>
          exists id : Z,
            products (session w) !! id = None
            /\ WarehouseService.create_product name quantity price w
               = (Ok (length (objects w)),
                  mkWorld (objects w ++ [Product.set_id (Some id) p])
                    (mkSession
                       (<[id := ProductORM.mk name quantity price]>
                          (products (session w)))
                       (orders (session w))))
      end).
Proof.
  unfold WarehouseService.create_product.
  split.
  - intros Hvalid (id & row & Hrow & Hname).
    destruct (head_filter_Some
                (fun r : Z * ProductORM.t => ProductORM.name r.2 = name)
                (map_to_list (products (session w))))
      as ([id' row'] & Hhead & _ & Hin).
    { apply Exists_exists. exists (id, row). split; [|exact Hname].
      apply elem_of_map_to_list. exact Hrow. }
    apply elem_of_map_to_list in Hin.
    eexists. unfold bind at 1. rewrite get_by_name_run, Hhead.
    rewrite (product_to_domain_valid _ _ (Hvalid _ _ Hin)). reflexivity.
  - intros Hfresh.
    assert (Hhead : head (filter
                (fun r : Z * ProductORM.t => ProductORM.name r.2 = name)
                (map_to_list (products (session w)))) = None).
    { apply head_filter_None. apply Forall_forall. intros [id row] Hin.
      apply elem_of_map_to_list in Hin. simpl. eapply Hfresh; eauto. }
    destruct (Product.init None name quantity price) as [p|e] eqn:Einit.
    + exists (next_id (products (session w))).
      split; [apply next_id_fresh|].
      unfold bind at 1. rewrite get_by_name_run, Hhead.
      unfold bind at 1. unfold on_heap, Product.new. rewrite Einit. simpl.
      unfold SqlAlchemyProductRepository.add. simpl.
      rewrite lookup_total_new, insert_new.
      unfold Product.init in Einit.
      destruct (Product._validate _); [|discriminate].
      injection Einit as <-. reflexivity.
    + unfold bind at 1. rewrite get_by_name_run, Hhead.
      unfold bind at 1. unfold on_heap, Product.new. rewrite Einit.
      destruct w; reflexivity.
Qed.

Lemma create_product_spec_witness :
  (exists h' : heap,
     WarehouseService.create_product (py "Mouse") 5 10 shop
     = (Raise (ValueError (Product_with_name_already_exists (py "Mouse"))),
        mkWorld h' (session shop)))
  /\ (exists id : Z,
        products (session shop) !! id = None
        /\ WarehouseService.create_product (py "Keyboard") 30 80 shop
           = (Ok 0%nat,
              mkWorld [Product.mk (Some id) (py "Keyboard") 30 80]
                (mkSession
                   (<[id := ProductORM.mk (py "Keyboard") 30 80]>
                      (products (session shop)))
                   ∅)))
  /\ WarehouseService.create_product (py "Keyboard") 30 0 shop
     = (Raise (InvalidPriceError 0), shop).
Proof.
  split; [|split].
  - apply (proj1 (create_product_spec (py "Mouse") 5 10 shop)).
    + apply well_formed_products. reflexivity.
    + exists 2, (ProductORM.mk (py "Mouse") 20 30). split; reflexivity.
  - apply (proj2 (create_product_spec (py "Keyboard") 30 80 shop)).
    intros id row Hrow.
    apply (well_formed_products (session shop) eq_refl) in Hrow as Hv.
    destruct (decide (id = 1)) as [->|H1];
      [injection Hrow as <-; discriminate|].
    destruct (decide (id = 2)) as [->|H2];
      [injection Hrow as <-; discriminate|].
    simpl in Hrow. rewrite lookup_insert_ne in Hrow by congruence.
    rewrite lookup_insert_ne in Hrow by congruence.
    rewrite lookup_empty in Hrow. discriminate.
  - apply (proj2 (create_product_spec (py "Keyboard") 30 0 shop)).
    intros id row Hrow.
    destruct (decide (id = 1)) as [->|H1];
      [injection Hrow as <-; discriminate|].
    destruct (decide (id = 2)) as [->|H2];
      [injection Hrow as <-; discriminate|].
    simpl in Hrow. rewrite lookup_insert_ne in Hrow by congruence.
    rewrite lookup_insert_ne in Hrow by congruence.
    rewrite lookup_empty in Hrow. discriminate.
Defined.

Lemma valid_product_row_parts (id : Z) (row : ProductORM.t) :
  valid_product_row (id, row) = true ->
  (ProductORM.price row <=? 0)%float = false
  /\ 0 <= ProductORM.quantity row
  /\ negb (truthy (ProductORM.name row))
     || negb (truthy (strip (ProductORM.name row))) = false.
Proof.
  unfold valid_product_row, Product._validate, product_of_row; simpl.
  destruct (ProductORM.price row <=? 0)%float; [discriminate|].
  destruct (Z.ltb_spec (ProductORM.quantity row) 0); [discriminate|].
  destruct (negb (truthy (ProductORM.name row)) || _); [discriminate|].
  intros _. repeat split. lia.
Qed.

(** X11. [update_product_price] on a product that is not stored raises
    [ProductNotFoundError]. On a stored product, a new price [<= 0] raises
    [InvalidPriceError] with that price and the tables are as they were;
    any other new price is written in the product's row, whose name and
    quantity are kept, and no other row and no order changes. *)
Theorem update_product_price_spec
  (product_id : Z) (new_price : float) (w : World Session) :
  (products (session w) !! product_id = None ->
   WarehouseService.update_product_price product_id new_price w
   = (Raise (ProductNotFoundError (Some product_id)), w))
  /\ (forall row : ProductORM.t,
        products (session w) !! product_id = Some row ->
        valid_product_row (product_id, row) = true ->
        exists h' : heap,
          WarehouseService.update_product_price product_id new_price w
          = if (new_price <=? 0)%float
            then (Raise (InvalidPriceError new_price), mkWorld h' (session w))
            else (Ok (S (length (objects w))),
                  mkWorld h'
                    (mkSession
                       (<[product_id :=
                            ProductORM.mk (ProductORM.name row)
                              (ProductORM.quantity row) new_price]>
                          (products (session w)))
                       (orders (session w))))).
Proof.
  unfold WarehouseService.update_product_price. split.
  - intros Hnone. unfold bind at 1.
    rewrite (get_product_not_found _ _ Hnone). reflexivity.
  - intros row Hrow Hv.
    destruct (valid_product_row_parts _ _ Hv) as (_ & Hq & Hname).
    set (h1 := objects w ++ [product_of_row (product_id, row)]).
    set (p := Product.mk (Some product_id) (ProductORM.name row)
                (ProductORM.quantity row) new_price).
    assert (Hreplace :
              on_heap (Product.replace_price (length (objects w)) new_price)
                (mkWorld h1 (session w))
              = if (new_price <=? 0)%float
                then (Raise (InvalidPriceError new_price),
                      mkWorld h1 (session w))
                else (Ok (length h1), mkWorld (h1 ++ [p]) (session w))).
    { unfold on_heap, Product.replace_price, Product.new, Product.init,
        Product._validate; simpl.
      subst h1. rewrite lookup_total_new; simpl.
      destruct (new_price <=? 0)%float; [reflexivity|].
      destruct (Z.ltb_spec (ProductORM.quantity row) 0); [lia|].
      rewrite Hname. reflexivity. }
    unfold bind at 1. rewrite (get_product_found _ _ _ Hrow Hv). fold h1.
    unfold bind at 1. rewrite Hreplace.
    destruct (new_price <=? 0)%float.
    + exists h1. reflexivity.
    + exists (h1 ++ [p]).
      rewrite (product_update_found (length h1) product_id row);
        [|simpl; rewrite lookup_total_new; reflexivity|exact Hrow].
      simpl. rewrite lookup_total_new. simpl.
      subst h1. rewrite length_app. simpl.
      replace (length (objects w) + 1)%nat with (S (length (objects w)))
        by lia.
      reflexivity.
Qed.

Lemma update_product_price_spec_witness :
  WarehouseService.update_product_price 3 60 shop
  = (Raise (ProductNotFoundError (Some 3)), shop)
  /\ (exists h' : heap,
        WarehouseService.update_product_price 1 0 shop
        = (Raise (InvalidPriceError 0), mkWorld h' (session shop)))
  /\ (exists h' : heap,
        WarehouseService.update_product_price 1 60 shop
        = (Ok 1%nat,
           mkWorld h'
             (mkSession
                (<[1 := ProductORM.mk (py "Laptop") 10 60]>
                   (products (session shop)))
                ∅))).
Proof.
  split; [|split].
  - apply (proj1 (update_product_price_spec 3 60 shop)). reflexivity.
  - apply (proj2 (update_product_price_spec 1 0 shop)
             (ProductORM.mk (py "Laptop") 10 50) eq_refl eq_refl).
  - apply (proj2 (update_product_price_spec 1 60 shop)
             (ProductORM.mk (py "Laptop") 10 50) eq_refl eq_refl).
Defined.

(** X12. [restock_product] on a product that is not stored raises
    [ProductNotFoundError]. On a stored product, a quantity [<= 0] raises
    [InvalidQuantityError] and the tables are as they were; a positive
    quantity is added to the quantity of the product's row, whose name and
    price are kept, and no other row and no order changes. *)
Theorem restock_product_spec
  (product_id : Z) (quantity : Z) (w : World Session) :
  (products (session w) !! product_id = None ->
   WarehouseService.restock_product product_id quantity w
   = (Raise (ProductNotFoundError (Some product_id)), w))
  /\ (forall row : ProductORM.t,
        products (session w) !! product_id = Some row ->
        valid_product_row (product_id, row) = true ->
        exists h' : heap,
          WarehouseService.restock_product product_id quantity w
          = if quantity <=? 0
            then (Raise (InvalidQuantityError quantity),
                  mkWorld h' (session w))
            else (Ok (length (objects w)),
                  mkWorld h'
                    (mkSession
                       (<[product_id :=
                            ProductORM.mk (ProductORM.name row)
                              (ProductORM.quantity row + quantity)
                              (ProductORM.price row)]>
                          (products (session w)))
                       (orders (session w))))).
Proof.
  unfold WarehouseService.restock_product. split.
  - intros Hnone. unfold bind at 1.
    rewrite (get_product_not_found _ _ Hnone). reflexivity.
  - intros row Hrow Hv.
    unfold bind at 1. rewrite (get_product_found _ _ _ Hrow Hv).
    unfold bind at 1.
    unfold on_heap, Product.increase_quantity; simpl.
    rewrite lookup_total_new; simpl.
    destruct (quantity <=? 0).
    + eexists. reflexivity.
    + rewrite insert_new. eexists.
      rewrite (product_update_found (length (objects w)) product_id row);
        [|simpl; rewrite lookup_total_new; reflexivity|exact Hrow].
      simpl. rewrite lookup_total_new. reflexivity.
Qed.

Lemma restock_product_spec_witness :
  WarehouseService.restock_product 3 5 shop
  = (Raise (ProductNotFoundError (Some 3)), shop)
  /\ (exists h' : heap,
        WarehouseService.restock_product 1 0 shop
        = (Raise (InvalidQuantityError 0), mkWorld h' (session shop)))
  /\ (exists h' : heap,
        WarehouseService.restock_product 1 20 shop
        = (Ok 0%nat,
           mkWorld h'
             (mkSession
                (<[1 := ProductORM.mk (py "Laptop") 30 50]>
                   (products (session shop)))
                ∅))).
Proof.
  split; [|split].
  - apply (proj1 (restock_product_spec 3 5 shop)). reflexivity.
  - apply (proj2 (restock_product_spec 1 0 shop)
             (ProductORM.mk (py "Laptop") 10 50) eq_refl eq_refl).
  - apply (proj2 (restock_product_spec 1 20 shop)
             (ProductORM.mk (py "Laptop") 10 50) eq_refl eq_refl).
Defined.

(** ** The service: orders *)

Lemma get_order_not_found (order_id : Z) (w : World Session) :
  orders (session w) !! order_id = None ->
  WarehouseService.get_order order_id w
  = (Raise (OrderNotFoundError order_id), w).
Proof.
  intros Hnone. unfold WarehouseService.get_order; simpl.
  unfold SqlAlchemyOrderRepository.get, bind, gets; simpl.
  rewrite Hnone. reflexivity.
Qed.

(** X13. [complete_order] on an order that is not stored raises
    [OrderNotFoundError] and changes nothing. On a stored order of a
    well-formed session: when the status is "confirmed" it succeeds, the
    order's row gets the status "completed" with its lines and date kept,
    no other order and no product changes, and the order returned is
    completed; with any other status it raises [ValueError] with that
    status, and the tables are as they were. *)
Theorem complete_order_spec (order_id : Z) (w : World Session) :
  (orders (session w) !! order_id = None ->
   WarehouseService.complete_order order_id w
   = (Raise (OrderNotFoundError order_id), w))
  /\ (forall order_orm : OrderORM.t,
        well_formed (session w) = true ->
        orders (session w) !! order_id = Some order_orm ->
        (OrderORM.status order_orm = py "confirmed" ->
         exists (order : Order.t) (h' : heap),
           WarehouseService.complete_order order_id w
           = (Ok order,
              mkWorld h'
                (mkSession (products (session w))
                   (<[order_id :=
                        OrderORM.mk (py "completed")
                          (OrderORM.created_at order_orm)
                          (OrderORM.items order_orm)]>
                      (orders (session w)))))
           /\ Order.id order = Some order_id
           /\ Order.status order = py "completed")
        /\ (OrderORM.status order_orm <> py "confirmed" ->
            exists h' : heap,
              WarehouseService.complete_order order_id w
              = (Raise (ValueError (Can_only_complete_confirmed_orders
                                      (OrderORM.status order_orm))),
                 mkWorld h' (session w)))).
Proof.
  unfold WarehouseService.complete_order. split.
  - intros Hnone. unfold bind at 1.
    rewrite (get_order_not_found _ _ Hnone). reflexivity.
  - intros order_orm Hwf Hrow.
    destruct (get_order_found _ _ _ Hwf Hrow)
      as (order & ext & E & Hid & Hst & _ & _).
    simpl in Hid, Hst.
    split.
    + intros Hconfirmed.
      exists (Order.set_status (py "completed") order), (objects w ++ ext).
      split; [|split; [exact Hid|reflexivity]].
      unfold bind at 1. rewrite E, Hst, Hconfirmed. simpl.
      erewrite order_update_found; [|exact Hid|exact Hrow].
      reflexivity.
    + intros Hother. exists (objects w ++ ext).
      unfold bind at 1. rewrite E, Hst.
      rewrite (str_eqb_neq _ _ Hother). reflexivity.
Qed.

Lemma complete_order_spec_witness :
  WarehouseService.complete_order 7 shop_with_orders
  = (Raise (OrderNotFoundError 7), shop_with_orders)
  /\ (exists h' : heap,
        WarehouseService.complete_order 1 shop_with_orders
        = (Raise (ValueError (Can_only_complete_confirmed_orders
                                (py "pending"))),
           mkWorld h' (session shop_with_orders)))
  /\ (exists (order : Order.t) (h' : heap),
        WarehouseService.complete_order 1
          (mkWorld []
             (mkSession (products (session shop))
                (<[1 := OrderORM.mk (py "confirmed") 0
                          [OrderItemORM.mk (Some 1) 2 50]]> ∅)))
        = (Ok order,
           mkWorld h'
             (mkSession (products (session shop))
                (<[1 := OrderORM.mk (py "completed") 0
                          [OrderItemORM.mk (Some 1) 2 50]]>
                   (<[1 := OrderORM.mk (py "confirmed") 0
                             [OrderItemORM.mk (Some 1) 2 50]]> ∅))))
        /\ Order.id order = Some 1
        /\ Order.status order = py "completed").
Proof.
  split; [|split].
  - apply (proj1 (complete_order_spec 7 shop_with_orders)). reflexivity.
  - apply (proj2 (complete_order_spec 1 shop_with_orders)
             (OrderORM.mk (py "pending") 0 [OrderItemORM.mk (Some 1) 2 50])
             eq_refl eq_refl).
    vm_compute; discriminate.
  - destruct (proj2 (complete_order_spec 1
                       (mkWorld []
                          (mkSession (products (session shop))
                             (<[1 := OrderORM.mk (py "confirmed") 0
                                       [OrderItemORM.mk (Some 1) 2 50]]> ∅))))
                (OrderORM.mk (py "confirmed") 0
                   [OrderItemORM.mk (Some 1) 2 50]))
      as [Hconfirmed _].
    + vm_compute. reflexivity.
    + reflexivity.
    + apply Hconfirmed. reflexivity.
Defined.

(** ** The service: listings *)








(** ** create_order, pair by pair *)

Lemma stored_quantity_app (k : Z) (l1 l2 : list OrderItemORM.t) :
  stored_quantity k (l1 ++ l2) = stored_quantity k l1 + stored_quantity k l2.
Proof.
  unfold stored_quantity. induction l1 as [|x l1 IH]; simpl; [reflexivity|].
  rewrite IH. lia.
Qed.

Lemma restore_line_lookup (table : gmap Z ProductORM.t)
  (item_orm : OrderItemORM.t) (k : Z) :
  restore_line table item_orm !! k
  = (fun row =>
       ProductORM.mk (ProductORM.name row)
         (ProductORM.quantity row
          + (if bool_decide (OrderItemORM.product_id item_orm = Some k)
             then OrderItemORM.quantity item_orm else 0))
         (ProductORM.price row)) <$> table !! k.
Proof.
  assert (Hsame : forall o : option ProductORM.t,
            o = (fun row => ProductORM.mk (ProductORM.name row)
                              (ProductORM.quantity row + 0)
                              (ProductORM.price row)) <$> o).
  { intros [row|]; [|reflexivity]. simpl. rewrite Z.add_0_r.
    destruct row; reflexivity. }
  unfold restore_line.
  destruct (OrderItemORM.product_id item_orm) as [id|] eqn:Hid.
  - destruct (table !! id) as [row|] eqn:Hrow.
    + rewrite lookup_insert. case_decide as Hk.
      * subst k. rewrite bool_decide_eq_true_2 by reflexivity.
        rewrite Hrow. reflexivity.
      * rewrite bool_decide_eq_false_2 by congruence. apply Hsame.
    + case_bool_decide as Hk; [|apply Hsame].
      injection Hk as ->. rewrite Hrow. reflexivity.
  - rewrite bool_decide_eq_false_2 by discriminate. apply Hsame.
Qed.

(** What [restored_products] leaves in the row of a product: the quantity
    the lines hold of it, added. *)
Lemma restored_products_lookup (items_orm : list OrderItemORM.t)
  (table : gmap Z ProductORM.t) (k : Z) :
  restored_products items_orm table !! k
  = (fun row =>
       ProductORM.mk (ProductORM.name row)
         (ProductORM.quantity row + stored_quantity k items_orm)
         (ProductORM.price row)) <$> table !! k.
Proof.
  unfold restored_products. revert table.
  induction items_orm as [|item_orm items_orm IH]; intros table.
  - simpl. destruct (table !! k) as [row|]; [|reflexivity].
    simpl. rewrite Z.add_0_r. destruct row; reflexivity.
  - cbn [foldl]. rewrite IH, restore_line_lookup.
    destruct (table !! k) as [row|]; [|reflexivity].
    simpl. do 2 f_equal. lia.
Qed.

Lemma item_to_orm_ext (h h' : heap) (items : list OrderItem.t) :
  Forall (fun item =>
            Product.id (h' !!! OrderItem.product item)
            = Product.id (h !!! OrderItem.product item)) items ->
  SqlAlchemyOrderRepository.item_to_orm h' <$> items
  = SqlAlchemyOrderRepository.item_to_orm h <$> items.
Proof.
  induction 1 as [|item items Hid _ IH]; [reflexivity|].
  rewrite !fmap_cons, IH.
  unfold SqlAlchemyOrderRepository.item_to_orm at 1 3.
  rewrite Hid. reflexivity.
Qed.

Lemma add_to_existing_stored (h : heap) (product_id : option Z) (q k : Z)
  (items items' : list OrderItem.t) :
  Order.add_to_existing h product_id q items = Some items' ->
  stored_quantity k (SqlAlchemyOrderRepository.item_to_orm h <$> items')
  = stored_quantity k (SqlAlchemyOrderRepository.item_to_orm h <$> items)
    + (if bool_decide (product_id = Some k) then q else 0).
Proof.
  revert items'. induction items as [|item items IH]; intros items';
    cbn [Order.add_to_existing].
  - discriminate.
  - destruct (decide (Product.id (h !!! OrderItem.product item) = product_id))
      as [Hid|Hid].
    + rewrite (bool_decide_eq_true_2 _ Hid).
      intros [= <-]. rewrite !fmap_cons.
      unfold stored_quantity, SqlAlchemyOrderRepository.item_to_orm; simpl.
      rewrite Hid.
      destruct (bool_decide (product_id = Some k)); lia.
    + rewrite (bool_decide_eq_false_2 _ Hid).
      destruct (Order.add_to_existing h product_id q items) as [rest|];
        [|discriminate].
      intros [= <-]. rewrite !fmap_cons.
      specialize (IH rest eq_refl).
      unfold stored_quantity in *; simpl. simpl in IH.
      rewrite IH. lia.
Qed.

Lemma add_to_existing_Forall (P : OrderItem.t -> Prop) (h : heap)
  (product_id : option Z) (q : Z) (items items' : list OrderItem.t) :
  (forall item,
     P item -> P (OrderItem.set_quantity (OrderItem.quantity item + q) item)) ->
  Forall P items ->
  Order.add_to_existing h product_id q items = Some items' ->
  Forall P items'.
Proof.
  intros Hset Hall. revert items'.
  induction Hall as [|item items Hitem Hall IH]; intros items';
    cbn [Order.add_to_existing].
  - discriminate.
  - case_bool_decide.
    + intros [= <-]. constructor; [apply Hset; exact Hitem|exact Hall].
    + destruct (Order.add_to_existing h product_id q items) as [rest|];
        [|discriminate].
      intros [= <-]. constructor; [exact Hitem|]. apply IH. reflexivity.
Qed.

Lemma add_to_existing_products (h : heap) (product_id : option Z) (q : Z)
  (items items' : list OrderItem.t) :
  Order.add_to_existing h product_id q items = Some items' ->
  OrderItem.product <$> items' = OrderItem.product <$> items.
Proof.
  revert items'. induction items as [|item items IH]; intros items';
    cbn [Order.add_to_existing].
  - discriminate.
  - case_bool_decide.
    + intros [= <-]. reflexivity.
    + destruct (Order.add_to_existing h product_id q items) as [rest|];
        [|discriminate].
      intros [= <-]. rewrite !fmap_cons. f_equal. apply IH. reflexivity.
Qed.

(** What an [add_item] that returns has done to the order. *)
Lemma add_item_returns (h : heap) (product : addr) (q : Z)
  (o o' : Order.t) :
  Order.add_item h product q o = (Ok tt, o') ->
  0 < q
  /\ Order.id o' = Order.id o
  /\ Order.status o' = Order.status o
  /\ Order.created_at o' = Order.created_at o
  /\ Order.total_items o' = Order.total_items o + q
  /\ (forall k : Z,
        stored_quantity k
          (SqlAlchemyOrderRepository.item_to_orm h <$> Order.items o')
        = stored_quantity k
            (SqlAlchemyOrderRepository.item_to_orm h <$> Order.items o)
          + (if bool_decide (Product.id (h !!! product) = Some k)
             then q else 0))
  /\ (forall P : OrderItem.t -> Prop,
        (forall item,
           P item ->
           P (OrderItem.set_quantity (OrderItem.quantity item + q) item)) ->
        P (OrderItem.mk product q (Product.price (h !!! product))) ->
        Forall P (Order.items o) -> Forall P (Order.items o')).
Proof.
  unfold Order.add_item.
  destruct (Z.leb_spec q 0); [discriminate|].
  destruct (Order.add_to_existing _ _ _ _) as [items'|] eqn:E.
  - intros [= <-]. simpl. split; [lia|]. repeat split.
    + unfold Order.total_items; simpl.
      apply (add_to_existing_total _ _ _ _ _ E).
    + intros k. apply (add_to_existing_stored _ _ _ _ _ _ E).
    + intros P Hset _ Hall. eapply add_to_existing_Forall; eauto.
  - unfold OrderItem.init.
    destruct (Z.leb_spec q 0); [lia|].
    destruct (_ <=? _)%float; [discriminate|].
    intros [= <-]. simpl. split; [lia|]. repeat split.
    + unfold Order.total_items; simpl. rewrite foldr_app. simpl.
      generalize (Order.items o). intros l.
      induction l as [|x l IH]; simpl; lia.
    + intros k. rewrite fmap_app, stored_quantity_app.
      unfold stored_quantity at 2; simpl. lia.
    + intros P _ Hnew Hall. apply Forall_app. split; [exact Hall|].
      constructor; [exact Hnew|constructor].
Qed.

(** With a positive quantity and a product whose price passes the check,
    [add_item] returns. *)
Lemma add_item_succeeds (h : heap) (product : addr) (q : Z) (o : Order.t) :
  0 < q ->
  (Product.price (h !!! product) <=? 0)%float = false ->
  exists o' : Order.t, Order.add_item h product q o = (Ok tt, o').
Proof.
  intros Hq Hprice. unfold Order.add_item, OrderItem.init.
  destruct (Z.leb_spec q 0); [lia|].
  destruct (Order.add_to_existing _ _ _ _); [eauto|].
  rewrite Hprice. eauto.
Qed.

(** One pair the stock covers, with what the loop of [create_order] keeps:
    the lines of the order are [order_lines_ok], and giving their
    quantities back to the products table gives the table the loop started
    from. *)
Lemma create_order_step_ok (order : Order.t) (id q : Z)
  (row : ProductORM.t) (w : World Session) (table0 : gmap Z ProductORM.t) :
  products (session w) !! id = Some row ->
  valid_product_row (id, row) = true ->
  0 < q <= ProductORM.quantity row ->
  order_lines_ok (objects w) (products (session w)) order ->
  restored_products
    (SqlAlchemyOrderRepository.item_to_orm (objects w) <$> Order.items order)
    (products (session w)) = table0 ->
  exists (order' : Order.t) (h' : heap),
    WarehouseService.create_order_step order (id, q) w
    = (Ok order',
       mkWorld h'
         (set_products
            (<[id := ProductORM.mk (ProductORM.name row)
                       (ProductORM.quantity row - q) (ProductORM.price row)]>
               (products (session w)))
            (session w)))
    /\ order_lines_ok h'
         (<[id := ProductORM.mk (ProductORM.name row)
                    (ProductORM.quantity row - q) (ProductORM.price row)]>
            (products (session w)))
         order'
    /\ restored_products
         (SqlAlchemyOrderRepository.item_to_orm h' <$> Order.items order')
         (<[id := ProductORM.mk (ProductORM.name row)
                    (ProductORM.quantity row - q) (ProductORM.price row)]>
            (products (session w)))
       = table0
    /\ Order.total_items order' = Order.total_items order + q
    /\ Order.id order' = Order.id order
    /\ Order.status order' = Order.status order
    /\ Order.created_at order' = Order.created_at order.
Proof.
  intros Hrow Hv Hq Hlines Hrestored.
  set (h := objects w) in *.
  set (prod := product_of_row (id, row)).
  set (p2 := Product.set_quantity (ProductORM.quantity row - q) prod).
  set (table' := <[id := ProductORM.mk (ProductORM.name row)
                           (ProductORM.quantity row - q)
                           (ProductORM.price row)]> (products (session w))).
  pose proof (valid_product_row_validate _ Hv) as Hvalid.
  apply validate_ok_price in Hvalid. simpl in Hvalid.
  destruct (add_item_succeeds (h ++ [prod]) (length h) q order)
    as [order' Hadd]; [lia| |].
  { rewrite lookup_total_new. exact Hvalid. }
  destruct (add_item_returns _ _ _ _ _ Hadd)
    as (_ & Hid & Hst & Hat & Htotal & Hstored & Hforall).
  rewrite lookup_total_new in Hstored, Hforall. simpl in Hstored, Hforall.
  exists order', (h ++ [p2]).
  (* the run *)
  assert (Hrun : WarehouseService.create_order_step order (id, q) w
                 = (Ok order', mkWorld (h ++ [p2])
                                 (set_products table' (session w)))).
  { unfold WarehouseService.create_order_step.
    unfold bind at 1. rewrite (get_product_found _ _ _ Hrow Hv).
    unfold bind at 1. unfold gets at 1. simpl. fold h prod.
    rewrite lookup_total_new; simpl.
    destruct (Z.ltb_spec (ProductORM.quantity row) q); [lia|].
    unfold bind at 1. unfold gets at 1. simpl.
    unfold bind at 1. unfold call. rewrite Hadd.
    unfold bind at 1. unfold on_heap, Product.reduce_quantity; simpl.
    rewrite lookup_total_new. simpl.
    destruct (Z.leb_spec q 0); [lia|].
    rewrite Z.gtb_ltb.
    destruct (Z.ltb_spec (ProductORM.quantity row) q); [lia|].
    rewrite insert_new.
    unfold bind at 1.
    erewrite product_update_found;
      [|simpl; rewrite lookup_total_new; reflexivity|exact Hrow].
    simpl. rewrite lookup_total_new. reflexivity. }
  (* the lines *)
  assert (Hlines' : order_lines_ok (h ++ [p2]) table' order').
  { unfold order_lines_ok. apply Hforall.
    - intros item (Hlt & Hjoin & Hpos & Hprice).
      repeat split; try assumption. simpl. lia.
    - simpl. rewrite length_app. simpl. split; [lia|].
      rewrite lookup_total_new. simpl.
      split; [exists id; split; [reflexivity|]|split; [lia|exact Hvalid]].
      unfold table'. rewrite lookup_insert_eq. eauto.
    - eapply Forall_impl; [exact Hlines|].
      intros item (Hlt & (k & Hk & Hsome) & Hpos & Hprice).
      rewrite length_app. simpl. split; [lia|].
      rewrite lookup_total_app_l by exact Hlt.
      split; [|split; assumption].
      exists k. split; [exact Hk|].
      unfold table'. rewrite lookup_insert_is_Some.
      destruct (decide (id = k)); tauto. }
  split; [exact Hrun|]. split; [exact Hlines'|].
  split; [|repeat split; assumption].
  (* the quantities held *)
  assert (Hrows' : SqlAlchemyOrderRepository.item_to_orm (h ++ [p2])
                     <$> Order.items order'
                   = SqlAlchemyOrderRepository.item_to_orm (h ++ [prod])
                     <$> Order.items order').
  { apply item_to_orm_ext. eapply Forall_impl; [exact Hlines'|].
    intros item (Hlt & _). rewrite length_app in Hlt. simpl in Hlt.
    destruct (decide (OrderItem.product item < length h)%nat) as [Hin|Hout].
    - rewrite !lookup_total_app_l by exact Hin. reflexivity.
    - replace (OrderItem.product item) with (length h) by lia.
      rewrite !lookup_total_new. reflexivity. }
  assert (Hrows : SqlAlchemyOrderRepository.item_to_orm (h ++ [prod])
                    <$> Order.items order
                  = SqlAlchemyOrderRepository.item_to_orm h
                    <$> Order.items order).
  { apply item_to_orm_ext. eapply Forall_impl; [exact Hlines|].
    intros item (Hlt & _).
    rewrite lookup_total_app_l by exact Hlt. reflexivity. }
  apply map_eq. intros k.
  rewrite <- Hrestored, !restored_products_lookup.
  rewrite Hrows', Hstored, Hrows.
  unfold table'. rewrite lookup_insert.
  case_decide as Hk.
  - subst k. rewrite Hrow. rewrite bool_decide_eq_true_2 by reflexivity.
    simpl. do 2 f_equal. lia.
  - rewrite bool_decide_eq_false_2 by congruence.
    destruct (products (session w) !! k) as [row'|]; [|reflexivity].
    simpl. do 2 f_equal. lia.
Qed.

Lemma create_order_step_invalid_quantity (order : Order.t) (id q : Z)
  (row : ProductORM.t) (w : World Session) :
  products (session w) !! id = Some row ->
  valid_product_row (id, row) = true ->
  q <= ProductORM.quantity row ->
  q <= 0 ->
  WarehouseService.create_order_step order (id, q) w
  = (Raise (InvalidQuantityError q),
     mkWorld (objects w ++ [product_of_row (id, row)]) (session w)).
Proof.
  intros Hrow Hv Hle Hq. unfold WarehouseService.create_order_step.
  unfold bind at 1. rewrite (get_product_found _ _ _ Hrow Hv).
  unfold bind at 1. unfold gets at 1. simpl. rewrite lookup_total_new; simpl.
  destruct (Z.ltb_spec (ProductORM.quantity row) q); [lia|].
  unfold bind at 1. unfold gets at 1. simpl.
  unfold bind at 1. unfold call.
  rewrite add_item_invalid_quantity by exact Hq. reflexivity.
Qed.

Lemma valid_product_row_quantity (id : Z) (row : ProductORM.t) (v : Z) :
  valid_product_row (id, row) = true ->
  0 <= v ->
  valid_product_row
    (id, ProductORM.mk (ProductORM.name row) v (ProductORM.price row)) = true.
Proof.
  unfold valid_product_row, Product._validate, product_of_row; simpl.
  destruct (ProductORM.price row <=? 0)%float; [discriminate|].
  destruct (Z.ltb_spec (ProductORM.quantity row) 0); [discriminate|].
  destruct (negb (truthy (ProductORM.name row)) || _); [discriminate|].
  intros _ Hv. destruct (Z.ltb_spec v 0); [lia|reflexivity].
Qed.

Lemma set_products_same (s : Session) : set_products (products s) s = s.
Proof. destruct s; reflexivity. Qed.

(** The loop of [create_order] does to the products table what [reserve]
    does, and keeps the lines of the order in step with it. *)
Lemma create_order_loop (pairs : list (Z * Z)) :
  forall (order : Order.t) (w : World Session)
    (table0 : gmap Z ProductORM.t),
    products_valid (products (session w)) ->
    order_lines_ok (objects w) (products (session w)) order ->
    restored_products
      (SqlAlchemyOrderRepository.item_to_orm (objects w) <$> Order.items order)
      (products (session w)) = table0 ->
    exists h' : heap,
      match reserve pairs (products (session w)) with
      | (Ok _, table') =>
          exists order' : Order.t,
            for_fold pairs WarehouseService.create_order_step order w
            = (Ok order', mkWorld h' (set_products table' (session w)))
            /\ products_valid table'
            /\ order_lines_ok h' table' order'
            /\ restored_products
                 (SqlAlchemyOrderRepository.item_to_orm h'
                  <$> Order.items order') table' = table0
            /\ Order.total_items order'
               = Order.total_items order
                 + foldr (fun pq acc => pq.2 + acc) 0 pairs
            /\ Order.id order' = Order.id order
            /\ Order.status order' = Order.status order
            /\ Order.created_at order' = Order.created_at order
      | (Raise e, table') =>
          for_fold pairs WarehouseService.create_order_step order w
          = (Raise e, mkWorld h' (set_products table' (session w)))
      end.
Proof.
  induction pairs as [|[id q] pairs IH];
    intros order w table0 Hvalid Hlines Hrestored.
  - exists (objects w). simpl. exists order.
    rewrite set_products_same. destruct w as [h s]. simpl in *.
    repeat split; try assumption. lia.
  - cbn [reserve for_fold].
    destruct (products (session w) !! id) as [row|] eqn:Hrow.
    + pose proof (Hvalid _ _ Hrow) as Hv.
      destruct (Z.ltb_spec (ProductORM.quantity row) q) as [Hlt|Hge].
      { eexists. unfold bind.
        rewrite (create_order_step_insufficient _ _ _ _ _ Hrow Hv Hlt).
        rewrite set_products_same. reflexivity. }
      destruct (Z.leb_spec q 0) as [Hq|Hq].
      { eexists. unfold bind.
        rewrite (create_order_step_invalid_quantity _ _ _ _ _ Hrow Hv Hge Hq).
        rewrite set_products_same. reflexivity. }
      destruct (create_order_step_ok order id q row w table0 Hrow Hv
                  (conj Hq Hge) Hlines Hrestored)
        as (order1 & h1 & Hrun & Hlines1 & Hrestored1 & Htotal & Hid & Hst
            & Hat).
      set (table1 := <[id := ProductORM.mk (ProductORM.name row)
                               (ProductORM.quantity row - q)
                               (ProductORM.price row)]>
                       (products (session w))) in *.
      destruct (IH order1 (mkWorld h1 (set_products table1 (session w)))
                  table0) as [h' Hloop].
      { simpl. apply products_valid_insert; [exact Hvalid|].
        apply valid_product_row_quantity; [exact Hv|lia]. }
      { exact Hlines1. }
      { exact Hrestored1. }
      exists h'. simpl in Hloop.
      destruct (reserve pairs table1) as [[[]|e] table'].
      * destruct Hloop as (order' & Hrun' & Hvalid' & Hlines' & Hrestored'
                           & Htotal' & Hid' & Hst' & Hat').
        exists order'. unfold bind. rewrite Hrun, Hrun'.
        repeat split; try assumption; try congruence.
        simpl. lia.
      * unfold bind. rewrite Hrun, Hloop. reflexivity.
    + exists (objects w). unfold bind.
      unfold WarehouseService.create_order_step. unfold bind.
      rewrite (get_product_not_found _ _ Hrow).
      rewrite set_products_same. destruct w; reflexivity.
Qed.

Lemma order_lines_ok_items_valid (h : heap) (table : gmap Z ProductORM.t)
  (order : Order.t) :
  order_lines_ok h table order ->
  items_valid table
    (SqlAlchemyOrderRepository.item_to_orm h <$> Order.items order).
Proof.
  unfold order_lines_ok, items_valid. intros Hlines.
  apply Forall_fmap. eapply Forall_impl; [exact Hlines|].
  intros item (_ & (k & Hk & Hsome) & Hpos & Hprice). simpl.
  exists k. repeat split; assumption.
Qed.

(** What [create_order] leaves when its loop has run, in the terms of
    [create_order_loop]. *)
Lemma create_order_run (now : Z) (pairs : list (Z * Z)) (w : World Session) :
  products_valid (products (session w)) ->
  exists h' : heap,
    match reserve pairs (products (session w)) with
    | (Ok _, table') =>
        exists (order : Order.t) (order_orm : OrderORM.t),
          WarehouseService.create_order now pairs w
          = (Ok order,
             mkWorld h'
               (mkSession table'
                  (<[next_id (orders (session w)) := order_orm]>
                     (orders (session w)))))
          /\ products_valid table'
          /\ items_valid table' (OrderORM.items order_orm)
          /\ restored_products (OrderORM.items order_orm) table'
             = products (session w)
          /\ Order.id order = Some (next_id (orders (session w)))
          /\ Order.status order = py "pending"
          /\ OrderORM.status order_orm = py "pending"
          /\ OrderORM.created_at order_orm = now
          /\ Order.total_items order
             = foldr (fun pq acc => pq.2 + acc) 0 pairs
    | (Raise e, table') =>
        WarehouseService.create_order now pairs w
        = (Raise e, mkWorld h' (mkSession table' (orders (session w))))
    end.
Proof.
  intros Hvalid.
  destruct (create_order_loop pairs (Order.init None now) w
              (products (session w)) Hvalid) as [h' Hloop].
  { constructor. }
  { reflexivity. }
  exists h'. unfold WarehouseService.create_order.
  destruct (reserve pairs (products (session w))) as [[[]|e] table'].
  - destruct Hloop as (order' & Hrun & Hvalid' & Hlines & Hrestored & Htotal
                       & Hid & Hst & Hat).
    exists (Order.set_id (Some (next_id (orders (session w)))) order').
    exists (OrderORM.mk (Order.status order') (Order.created_at order')
              (SqlAlchemyOrderRepository.item_to_orm h'
               <$> Order.items order')).
    unfold bind. rewrite Hrun.
    split; [reflexivity|]. simpl.
    split; [exact Hvalid'|].
    split; [apply order_lines_ok_items_valid; exact Hlines|].
    split; [exact Hrestored|].
    repeat split; assumption.
  - unfold bind. rewrite Hloop. reflexivity.
Qed.

(** X16. On a session whose product rows pass the checks, [create_order]
    does to the products table what the table-only loop [reserve] does.
    When [reserve] raises, [create_order] raises the same exception, the
    products table is the one [reserve] reached and the orders table is as
    it was. When [reserve] returns, [create_order] returns the order: it is
    stored, pending and dated [now], under a key no order had, its
    [total_items] is the sum of the quantities asked, and its id is that
    key. *)
Theorem create_order_runs_reserve
  (now : Z) (pairs : list (Z * Z)) (w : World Session) :
  products_valid (products (session w)) ->
  exists h' : heap,
    match reserve pairs (products (session w)) with
    | (Ok _, table') =>
        exists (order : Order.t) (order_orm : OrderORM.t),
          WarehouseService.create_order now pairs w
          = (Ok order,
             mkWorld h'
               (mkSession table'
                  (<[next_id (orders (session w)) := order_orm]>
                     (orders (session w)))))
          /\ orders (session w) !! next_id (orders (session w)) = None
          /\ Order.id order = Some (next_id (orders (session w)))
          /\ Order.status order = py "pending"
          /\ OrderORM.status order_orm = py "pending"
          /\ OrderORM.created_at order_orm = now
          /\ Order.total_items order
             = foldr (fun pq acc => pq.2 + acc) 0 pairs
    | (Raise e, table') =>
        WarehouseService.create_order now pairs w
        = (Raise e, mkWorld h' (mkSession table' (orders (session w))))
    end.
Proof.
  intros Hvalid.
  destruct (create_order_run now pairs w Hvalid) as [h' Hrun].
  exists h'.
  destruct (reserve pairs (products (session w))) as [[[]|e] table'];
    [|exact Hrun].
  destruct Hrun as (order & order_orm & Hrun & _ & _ & _ & Hrest).
  exists order, order_orm. split; [exact Hrun|].
  split; [apply next_id_fresh|exact Hrest].
Qed.

Lemma create_order_runs_reserve_witness :
  exists h' : heap,
    (exists (order : Order.t) (order_orm : OrderORM.t),
       WarehouseService.create_order 0 [(1, 2); (2, 3); (1, 4)] shop
       = (Ok order,
          mkWorld h'
            (mkSession
               (<[1 := ProductORM.mk (py "Laptop") 4 50]>
                  (<[2 := ProductORM.mk (py "Mouse") 17 30]> ∅))
               (<[1 := order_orm]> ∅)))
       /\ Order.id order = Some 1
       /\ Order.total_items order = 9).
Proof.
  destruct (create_order_runs_reserve 0 [(1, 2); (2, 3); (1, 4)] shop)
    as [h' H].
  - apply well_formed_products. reflexivity.
  - exists h'.
    destruct H as (order & order_orm & Hrun & _ & Hid & _ & _ & _ & Htotal).
    exists order, order_orm. rewrite Hrun.
    repeat split; assumption.
Defined.

(** ** create_order then cancel_order *)

(** [cancel_order] on a stored order that is pending or confirmed, when the
    product rows pass the checks and the lines of the order join them. *)
Lemma cancel_order_run (order_id : Z) (order_orm : OrderORM.t)
  (w : World Session) :
  products_valid (products (session w)) ->
  orders (session w) !! order_id = Some order_orm ->
  items_valid (products (session w)) (OrderORM.items order_orm) ->
  OrderORM.status order_orm = py "pending"
  \/ OrderORM.status order_orm = py "confirmed" ->
  exists (order' : Order.t) (h' : heap),
    WarehouseService.cancel_order order_id w
    = (Ok order',
       mkWorld h'
         (mkSession
            (restored_products (OrderORM.items order_orm)
               (products (session w)))
            (<[order_id := OrderORM.set_status (py "cancelled") order_orm]>
               (orders (session w)))))
    /\ Order.id order' = Some order_id
    /\ Order.status order' = py "cancelled".
Proof.
  intros Hprod Hrow Hitems Hpc.
  destruct (order_to_domain_valid (order_id, order_orm) w Hprod Hitems)
    as (order & ext & E & Hid & Hst & _ & Hlines).
  simpl in Hid, Hst, Hlines.
  destruct (cancel_order_restore_loop _ _
              (mkWorld (objects w ++ ext) (session w)) Hlines Hprod Hitems)
    as (ext' & E').
  simpl in E'.
  exists (Order.set_status (py "cancelled") order),
    ((objects w ++ ext) ++ ext').
  split; [|split; [exact Hid|reflexivity]].
  unfold WarehouseService.cancel_order.
  assert (Hget : WarehouseService.get_order order_id w
                 = (Ok order, mkWorld (objects w ++ ext) (session w))).
  { unfold WarehouseService.get_order; simpl.
    unfold SqlAlchemyOrderRepository.get, bind, gets; simpl.
    rewrite Hrow; simpl. rewrite E. reflexivity. }
  unfold bind at 1. rewrite Hget, Hst.
  assert (Hguard : negb (str_eqb (OrderORM.status order_orm) (py "pending")
                         || str_eqb (OrderORM.status order_orm)
                              (py "confirmed")) = false).
  { destruct Hpc as [-> | ->]; reflexivity. }
  rewrite Hguard.
  unfold bind at 1. rewrite E'.
  unfold bind at 1. unfold call, Order.cancel. rewrite Hst.
  assert (Hnot : str_eqb (OrderORM.status order_orm) (py "completed")
                 = false).
  { destruct Hpc as [-> | ->]; reflexivity. }
  rewrite Hnot.
  erewrite order_update_found; [|exact Hid|exact Hrow].
  reflexivity.
Qed.

(** X17. [create_order] then [cancel_order]: on a session whose product
    rows pass the checks, cancelling the order a [create_order] has just
    returned succeeds, whatever the pairs were (a product asked twice
    included); the order returned is cancelled and the products table is
    again the one [create_order] started from. *)
Theorem create_then_cancel_restores_products
  (now : Z) (pairs : list (Z * Z)) (w w1 : World Session) (order : Order.t) :
  products_valid (products (session w)) ->
  WarehouseService.create_order now pairs w = (Ok order, w1) ->
  exists (order_id : Z) (order' : Order.t) (w2 : World Session),
    Order.id order = Some order_id
    /\ WarehouseService.cancel_order order_id w1 = (Ok order', w2)
    /\ Order.id order' = Some order_id
    /\ Order.status order' = py "cancelled"
    /\ products (session w2) = products (session w).
Proof.
  intros Hvalid Hcreate.
  destruct (create_order_run now pairs w Hvalid) as [h' Hrun].
  destruct (reserve pairs (products (session w))) as [[[]|e] table'].
  - destruct Hrun as (order0 & order_orm & Hrun & Hvalid' & Hitems & Hrestored
                      & Hid & _ & Hst & _).
    rewrite Hrun in Hcreate. injection Hcreate as <- <-.
    destruct (cancel_order_run (next_id (orders (session w))) order_orm
                (mkWorld h'
                   (mkSession table'
                      (<[next_id (orders (session w)) := order_orm]>
                         (orders (session w))))))
      as (order' & h2 & Hcancel & Hid' & Hst').
    + exact Hvalid'.
    + simpl. apply lookup_insert_eq.
    + exact Hitems.
    + left. exact Hst.
    + exists (next_id (orders (session w))), order'. eexists.
      split; [exact Hid|]. split; [exact Hcancel|].
      split; [exact Hid'|]. split; [exact Hst'|].
      simpl. exact Hrestored.
  - rewrite Hrun in Hcreate. discriminate.
Qed.

Lemma create_then_cancel_restores_products_witness :
  exists (order_id : Z) (order' : Order.t) (w2 : World Session),
    WarehouseService.cancel_order order_id
      (WarehouseService.create_order 0 [(1, 2); (2, 3); (1, 4)] shop).2
    = (Ok order', w2)
    /\ Order.status order' = py "cancelled"
    /\ products (session w2) = products (session shop).
Proof.
  destruct (create_then_cancel_restores_products 0 [(1, 2); (2, 3); (1, 4)]
              shop
              (WarehouseService.create_order 0 [(1, 2); (2, 3); (1, 4)] shop).2
              (Order.mk (Some 1)
                 [OrderItem.mk 0 6 50; OrderItem.mk 1 3 30] 0 (py "pending")))
    as (order_id & order' & w2 & _ & Hcancel & _ & Hst & Hproducts).
  - apply well_formed_products. reflexivity.
  - vm_compute. reflexivity.
  - exists order_id, order', w2. repeat split; assumption.
Defined.

(** ** The order repository *)

(** A line that is loaded has the quantity and the price of its row. *)
Lemma item_to_domain_fields (item_orm : OrderItemORM.t) (item : OrderItem.t)
  (w w' : World Session) :
  SqlAlchemyOrderRepository.item_to_domain item_orm w = (Ok item, w') ->
  OrderItem.quantity item = OrderItemORM.quantity item_orm
  /\ OrderItem.price_at_order item = OrderItemORM.price_at_order item_orm.
Proof.
  unfold SqlAlchemyOrderRepository.item_to_domain, bind, gets.
  destruct (query_product _ _) as [row|]; [|discriminate].
  destruct (SqlAlchemyProductRepository._to_domain row w) as [[a|e] w1];
    [|discriminate].
  unfold of_result, OrderItem.init.
  destruct (_ <=? 0); [discriminate|].
  destruct (_ <=? _)%float; [discriminate|].
  intros [= <- _]. split; reflexivity.
Qed.

Lemma items_to_domain_fields (items_orm : list OrderItemORM.t)
  (items : list OrderItem.t) (w w' : World Session) :
  map_each SqlAlchemyOrderRepository.item_to_domain items_orm w
  = (Ok items, w') ->
  Forall2 (fun item item_orm =>
             OrderItem.quantity item = OrderItemORM.quantity item_orm
             /\ OrderItem.price_at_order item
                = OrderItemORM.price_at_order item_orm)
    items items_orm.
Proof.
  revert items w w'. induction items_orm as [|item_orm items_orm IH];
    intros items w w'; cbn [map_each].
  - intros [= <- _]. constructor.
  - unfold bind at 1.
    destruct (SqlAlchemyOrderRepository.item_to_domain item_orm w)
      as [[item|e] w1] eqn:E; [|discriminate].
    unfold bind at 1.
    destruct (map_each SqlAlchemyOrderRepository.item_to_domain items_orm w1)
      as [[rest|e] w2] eqn:E'; [|discriminate].
    intros [= <- _]. constructor.
    + eapply item_to_domain_fields; eauto.
    + eapply IH; eauto.
Qed.

Lemma Forall2_both {A B} (P Q : A -> B -> Prop) (l : list A) (k : list B) :
  Forall2 P l k -> Forall2 Q l k ->
  Forall2 (fun x y => P x y /\ Q x y) l k.
Proof.
  induction 1 as [|x y l k HP _ IH]; intros HQ.
  - constructor.
  - apply Forall2_cons_1 in HQ as [HQ HQs].
    constructor; [split; assumption|apply IH; exact HQs].
Qed.

(** X18. [add] then [get] of an order: an order whose lines are
    [order_lines_ok] is stored under a key no order had, which becomes its
    id, and no product row changes. [get] of that key then loads an order
    with that id, the same status and date, and line for line the same
    quantity, the same [price_at_order] and a product object of the same
    id. *)
Theorem order_add_then_get (order : Order.t) (w : World Session) :
  products_valid (products (session w)) ->
  order_lines_ok (objects w) (products (session w)) order ->
  exists (id : Z) (w1 : World Session) (loaded : Order.t) (h2 : heap),
    OrderRepository.add order w = (Ok (Order.set_id (Some id) order), w1)
    /\ orders (session w) !! id = None
    /\ products (session w1) = products (session w)
    /\ OrderRepository.get id w1 = (Ok (Some loaded), mkWorld h2 (session w1))
    /\ Order.id loaded = Some id
    /\ Order.status loaded = Order.status order
    /\ Order.created_at loaded = Order.created_at order
    /\ Forall2 (fun item item' =>
                  OrderItem.quantity item' = OrderItem.quantity item
                  /\ OrderItem.price_at_order item'
                     = OrderItem.price_at_order item
                  /\ Product.id (h2 !!! OrderItem.product item')
                     = Product.id (objects w !!! OrderItem.product item))
         (Order.items order) (Order.items loaded).
Proof.
  intros Hvalid Hlines.
  set (id := next_id (orders (session w))).
  set (order_orm := OrderORM.mk (Order.status order) (Order.created_at order)
                      (SqlAlchemyOrderRepository.item_to_orm (objects w)
                       <$> Order.items order)).
  set (w1 := mkWorld (objects w)
               (set_orders (<[id := order_orm]> (orders (session w)))
                  (session w))).
  destruct (items_to_domain_valid (OrderORM.items order_orm) w1)
    as (items' & ext & E & Hof).
  { exact Hvalid. }
  { apply order_lines_ok_items_valid. exact Hlines. }
  pose proof (items_to_domain_fields _ _ _ _ E) as Hfields.
  exists id, w1,
    (Order.mk (Some id) items' (Order.created_at order) (Order.status order)),
    (objects w ++ ext).
  split; [reflexivity|]. split; [apply next_id_fresh|].
  split; [reflexivity|]. split.
  - simpl. unfold SqlAlchemyOrderRepository.get, bind at 1, gets at 1. simpl.
    rewrite lookup_insert_eq. simpl.
    unfold SqlAlchemyOrderRepository._to_domain, bind. simpl in E.
    simpl. rewrite E. reflexivity.
  - simpl. repeat split.
    simpl in Hof, Hfields.
    pose proof (Forall2_both _ _ _ _ Hof Hfields) as Hboth.
    rewrite Forall2_fmap_r in Hboth.
    apply Forall2_flip.
    eapply Forall2_impl; [exact Hboth|].
    intros item' item [(_ & Hid & _) (Hq & Hp)]. simpl in *.
    repeat split; assumption.
Qed.

Lemma order_add_then_get_witness :
  exists (id : Z) (w1 : World Session) (loaded : Order.t) (h2 : heap),
    OrderRepository.add
      (Order.mk None [OrderItem.mk 0 2 50] 0 (py "pending"))
      (mkWorld [Product.mk (Some 1) (py "Laptop") 8 50] (session shop))
    = (Ok (Order.mk (Some id) [OrderItem.mk 0 2 50] 0 (py "pending")), w1)
    /\ OrderRepository.get id w1 = (Ok (Some loaded), mkWorld h2 (session w1))
    /\ Order.id loaded = Some id
    /\ Order.status loaded = py "pending".
Proof.
  destruct (order_add_then_get
              (Order.mk None [OrderItem.mk 0 2 50] 0 (py "pending"))
              (mkWorld [Product.mk (Some 1) (py "Laptop") 8 50]
                 (session shop)))
    as (id & w1 & loaded & h2 & Hadd & _ & _ & Hget & Hid & Hst & _).
  - apply (well_formed_products (session shop)). reflexivity.
  - constructor; [|constructor]. simpl.
    split; [lia|]. split; [|split; [lia|reflexivity]].
    exists 1. split; [reflexivity|]. eexists. reflexivity.
  - exists id, w1, loaded, h2. repeat split; assumption.
Defined.

(** X19. [update] of an order writes the status and nothing else. On an
    order whose id is the key of no row (or is [None]) it raises
    [ValueError] and changes nothing. On an order whose id is the key of a
    row, in a well-formed session, it sets the status of that row to the
    order's and changes no other row and no product; a [get] of the id then
    loads an order with the new status and with the lines the row had
    before, whatever lines the order given to [update] has. *)
Theorem order_update_then_get (order : Order.t) (w : World Session) :
  (query_order (Order.id order) (session w) = None ->
   OrderRepository.update order w
   = (Raise (ValueError (Order_with_id_not_found (Order.id order))), w))
  /\ (forall (id : Z) (order_orm : OrderORM.t),
        well_formed (session w) = true ->
        Order.id order = Some id ->
        orders (session w) !! id = Some order_orm ->
        exists (w1 : World Session) (loaded : Order.t) (h2 : heap),
          OrderRepository.update order w = (Ok order, w1)
          /\ session w1
             = mkSession (products (session w))
                 (<[id := OrderORM.mk (Order.status order)
                            (OrderORM.created_at order_orm)
                            (OrderORM.items order_orm)]>
                    (orders (session w)))
          /\ OrderRepository.get id w1
             = (Ok (Some loaded), mkWorld h2 (session w1))
          /\ Order.status loaded = Order.status order
          /\ Forall2 (line_of h2) (Order.items loaded)
               (OrderORM.items order_orm)).
Proof.
  split.
  - intros Hnone. simpl. unfold SqlAlchemyOrderRepository.update.
    rewrite Hnone. reflexivity.
  - intros id order_orm Hwf Hid Hrow.
    set (row' := OrderORM.mk (Order.status order)
                   (OrderORM.created_at order_orm)
                   (OrderORM.items order_orm)).
    set (w1 := mkWorld (objects w)
                 (mkSession (products (session w))
                    (<[id := row']> (orders (session w))))).
    destruct (order_to_domain_valid (id, row') w1)
      as (loaded & ext & E & _ & Hst & _ & Hlines).
    { apply (well_formed_products (session w)), Hwf. }
    { simpl. apply (well_formed_items (session w) id order_orm Hwf Hrow). }
    exists w1, loaded, (objects w ++ ext).
    split; [rewrite (order_update_found _ _ _ _ Hid Hrow); reflexivity|].
    split; [reflexivity|]. split; [|split; [exact Hst|exact Hlines]].
    simpl. unfold SqlAlchemyOrderRepository.get, bind at 1, gets at 1. simpl.
    rewrite lookup_insert_eq. simpl.
    unfold bind. rewrite E. reflexivity.
Qed.

Lemma order_update_then_get_witness :
  OrderRepository.update (Order.mk (Some 7) [] 0 (py "confirmed"))
    shop_with_orders
  = (Raise (ValueError (Order_with_id_not_found (Some 7))), shop_with_orders)
  /\ (exists (w1 : World Session) (loaded : Order.t) (h2 : heap),
        OrderRepository.update (Order.mk (Some 1) [] 0 (py "confirmed"))
          shop_with_orders
        = (Ok (Order.mk (Some 1) [] 0 (py "confirmed")), w1)
        /\ OrderRepository.get 1 w1
           = (Ok (Some loaded), mkWorld h2 (session w1))
        /\ Order.status loaded = py "confirmed"
        /\ Forall2 (line_of h2) (Order.items loaded)
             [OrderItemORM.mk (Some 1) 2 50]).
Proof.
  split.
  - apply (proj1 (order_update_then_get
                    (Order.mk (Some 7) [] 0 (py "confirmed"))
                    shop_with_orders)).
    reflexivity.
  - destruct (proj2 (order_update_then_get
                       (Order.mk (Some 1) [] 0 (py "confirmed"))
                       shop_with_orders) 1
                (OrderORM.mk (py "pending") 0 [OrderItemORM.mk (Some 1) 2 50])
                eq_refl eq_refl eq_refl)
      as (w1 & loaded & h2 & Hup & _ & Hget & Hst & Hlines).
    exists w1, loaded, h2. repeat split; assumption.
Defined.

(** ** What the service keeps: a session the repositories can load *)

Lemma well_formed_intro (s : Session) :
  products_valid (products s) ->
  (forall id order_orm,
     orders s !! id = Some order_orm ->
     items_valid (products s) (OrderORM.items order_orm)) ->
  well_formed s = true.
Proof.
  intros Hprod Horders. unfold well_formed.
  apply andb_true_iff. split.
  - apply forallb_forall. intros [id row] Hin.
    apply list_elem_of_In, elem_of_map_to_list in Hin.
    apply Hprod. exact Hin.
  - apply forallb_forall. intros [id order_orm] Hin.
    apply list_elem_of_In, elem_of_map_to_list in Hin.
    specialize (Horders _ _ Hin). simpl.
    apply forallb_forall. intros item_orm Hitem.
    apply list_elem_of_In in Hitem.
    unfold items_valid in Horders. rewrite Forall_forall in Horders.
    destruct (Horders _ Hitem) as (k & Hk & [row Hrow] & Hq & Hp).
    unfold valid_item_row, query_product. rewrite Hk, Hrow. simpl.
    apply andb_true_iff. split; [apply Z.ltb_lt; exact Hq|].
    rewrite Hp. reflexivity.
Qed.

Lemma items_valid_mono (table table' : gmap Z ProductORM.t)
  (items_orm : list OrderItemORM.t) :
  (forall k, is_Some (table !! k) -> is_Some (table' !! k)) ->
  items_valid table items_orm -> items_valid table' items_orm.
Proof.
  intros Hmono Hitems. unfold items_valid.
  eapply Forall_impl; [exact Hitems|].
  intros item_orm (k & Hk & Hsome & Hrest). exists k. eauto.
Qed.

(** [reserve] keeps the rows valid and takes no row away. *)
Lemma reserve_keeps (pairs : list (Z * Z)) :
  forall (table table' : gmap Z ProductORM.t) (r : result unit),
    reserve pairs table = (r, table') ->
    products_valid table ->
    products_valid table'
    /\ (forall k, is_Some (table !! k) -> is_Some (table' !! k)).
Proof.
  induction pairs as [|[id q] pairs IH]; intros table table' r;
    cbn [reserve].
  - intros [= _ <-] Hvalid. split; [exact Hvalid|auto].
  - destruct (table !! id) as [row|] eqn:Hrow;
      [|intros [= _ <-] Hvalid; split; [exact Hvalid|auto]].
    destruct (Z.ltb_spec (ProductORM.quantity row) q);
      [intros [= _ <-] Hvalid; split; [exact Hvalid|auto]|].
    destruct (Z.leb_spec q 0);
      [intros [= _ <-] Hvalid; split; [exact Hvalid|auto]|].
    intros Hrun Hvalid.
    destruct (IH _ _ _ Hrun) as [Hvalid' Hmono].
    + apply products_valid_insert; [exact Hvalid|].
      apply valid_product_row_quantity; [apply Hvalid; exact Hrow|lia].
    + split; [exact Hvalid'|].
      intros k Hk. apply Hmono. rewrite lookup_insert_is_Some.
      destruct (decide (id = k)); tauto.
Qed.

(** X20. [create_order] keeps the session well-formed, whether it returns
    or raises, and whatever the pairs are: every product row still passes
    the checks of [Product], and every line of every stored order, the new
    one included, still joins a product row and passes the checks of
    [OrderItem]. *)
Theorem create_order_well_formed_invariant
  (now : Z) (pairs : list (Z * Z)) (w w' : World Session)
  (r : result Order.t) :
  well_formed (session w) = true ->
  WarehouseService.create_order now pairs w = (r, w') ->
  well_formed (session w') = true.
Proof.
  intros Hwf Hcreate.
  pose proof (well_formed_products _ Hwf) as Hvalid.
  destruct (create_order_run now pairs w Hvalid) as [h' Hrun].
  destruct (reserve pairs (products (session w))) as [r0 table'] eqn:Hreserve.
  destruct (reserve_keeps _ _ _ _ Hreserve Hvalid) as [Hvalid' Hmono].
  assert (Hold : forall id order_orm,
            orders (session w) !! id = Some order_orm ->
            items_valid table' (OrderORM.items order_orm)).
  { intros id order_orm Hrow. eapply items_valid_mono; [exact Hmono|].
    eapply well_formed_items; eauto. }
  destruct r0 as [[]|e].
  - destruct Hrun as (order & order_orm & Hrun & _ & Hitems & _).
    rewrite Hrun in Hcreate. injection Hcreate as _ <-.
    apply well_formed_intro; simpl; [exact Hvalid'|].
    intros id row. rewrite lookup_insert. case_decide.
    + intros [= <-]. exact Hitems.
    + apply Hold.
  - rewrite Hrun in Hcreate. injection Hcreate as _ <-.
    apply well_formed_intro; simpl; [exact Hvalid'|exact Hold].
Qed.

Lemma create_order_well_formed_invariant_witness :
  well_formed
    (session (WarehouseService.create_order 0 [(1, 2); (2, 30)] shop).2)
  = true.
Proof.
  apply (create_order_well_formed_invariant 0 [(1, 2); (2, 30)] shop
           (WarehouseService.create_order 0 [(1, 2); (2, 30)] shop).2
           (WarehouseService.create_order 0 [(1, 2); (2, 30)] shop).1).
  - reflexivity.
  - destruct (WarehouseService.create_order 0 [(1, 2); (2, 30)] shop).
    reflexivity.
Defined.

Lemma restored_products_keeps (items_orm : list OrderItemORM.t) :
  forall table : gmap Z ProductORM.t,
    products_valid table ->
    Forall (fun item_orm => 0 <= OrderItemORM.quantity item_orm) items_orm ->
    products_valid (restored_products items_orm table)
    /\ (forall k,
          is_Some (table !! k) ->
          is_Some (restored_products items_orm table !! k)).
Proof.
  unfold restored_products.
  induction items_orm as [|item_orm items_orm IH]; intros table Hvalid Hq.
  - split; [exact Hvalid|auto].
  - apply Forall_cons in Hq as [Hq Hqs]. cbn [foldl].
    destruct (IH (restore_line table item_orm)) as [Hvalid' Hmono].
    + apply restore_line_valid; assumption.
    + exact Hqs.
    + split; [exact Hvalid'|].
      intros k Hk. apply Hmono.
      rewrite restore_line_lookup. destruct Hk as [row ->]. eauto.
Qed.

(** X21. [cancel_order] keeps the session well-formed, whether it returns
    or raises. *)
Theorem cancel_order_well_formed_invariant
  (order_id : Z) (w w' : World Session) (r : result Order.t) :
  well_formed (session w) = true ->
  WarehouseService.cancel_order order_id w = (r, w') ->
  well_formed (session w') = true.
Proof.
  intros Hwf Hcancel.
  pose proof (well_formed_products _ Hwf) as Hvalid.
  destruct (orders (session w) !! order_id) as [order_orm|] eqn:Hrow.
  - pose proof (well_formed_items _ _ _ Hwf Hrow) as Hitems.
    destruct (decide (OrderORM.status order_orm = py "pending"
                      \/ OrderORM.status order_orm = py "confirmed"))
      as [Hpc|Hnot].
    + destruct (cancel_order_run _ _ _ Hvalid Hrow Hitems Hpc)
        as (order' & h' & Hrun & _).
      rewrite Hrun in Hcancel. injection Hcancel as _ <-.
      destruct (restored_products_keeps (OrderORM.items order_orm)
                  (products (session w)) Hvalid) as [Hvalid' Hmono].
      { eapply Forall_impl; [exact Hitems|].
        intros item_orm (k & _ & _ & Hq & _). lia. }
      apply well_formed_intro; simpl; [exact Hvalid'|].
      intros id row. rewrite lookup_insert. case_decide.
      * intros [= <-]. simpl.
        eapply items_valid_mono; [exact Hmono|exact Hitems].
      * intros Hid. eapply items_valid_mono; [exact Hmono|].
        eapply well_formed_items; eauto.
    + destruct (get_order_found _ _ _ Hwf Hrow)
        as (order & ext & E & _ & Hst & _).
      simpl in Hst.
      unfold WarehouseService.cancel_order in Hcancel.
      unfold bind at 1 in Hcancel. rewrite E, Hst in Hcancel.
      rewrite !str_eqb_neq in Hcancel by tauto.
      injection Hcancel as _ <-. exact Hwf.
  - unfold WarehouseService.cancel_order in Hcancel.
    unfold bind at 1 in Hcancel.
    rewrite (get_order_not_found _ _ Hrow) in Hcancel.
    injection Hcancel as _ <-. exact Hwf.
Qed.

Lemma cancel_order_well_formed_invariant_witness :
  well_formed (session (WarehouseService.cancel_order 1 shop_with_orders).2)
  = true.
Proof.
  apply (cancel_order_well_formed_invariant 1 shop_with_orders
           (WarehouseService.cancel_order 1 shop_with_orders).2
           (WarehouseService.cancel_order 1 shop_with_orders).1).
  - reflexivity.
  - destruct (WarehouseService.cancel_order 1 shop_with_orders).
    reflexivity.
Defined.

(** ** The unit of work *)

(** X22. A [create_order] run in a unit of work is all or nothing for the
    tables. On a session whose product rows pass the checks: when the
    table-only loop [reserve] returns, the order is returned and what is
    committed is the products table [reserve] reached and the orders with
    the new one; when [reserve] raises, the same exception leaves the block
    and what is committed is what was committed before, although the loop
    had written the reductions of the earlier pairs. Either way the session
    is left with the committed tables. *)
Theorem unit_of_work_create_order
  (now : Z) (pairs : list (Z * Z)) (db db' : Database) (r : result Order.t) :
  products_valid (products (session (world db))) ->
  SqlAlchemyUnitOfWork.run (WarehouseService.create_order now pairs) db
  = (r, db') ->
  session (world db') = committed db'
  /\ match reserve pairs (products (session (world db))) with
     | (Ok _, table') =>
         exists (order : Order.t) (order_orm : OrderORM.t),
           r = Ok order
           /\ committed db'
              = mkSession table'
                  (<[next_id (orders (session (world db))) := order_orm]>
                     (orders (session (world db))))
     | (Raise e, _) => r = Raise e /\ committed db' = committed db
     end.
Proof.
  intros Hvalid. unfold SqlAlchemyUnitOfWork.run.
  destruct (create_order_run now pairs (world db) Hvalid) as [h' Hrun].
  destruct (reserve pairs (products (session (world db))))
    as [[[]|e] table'].
  - destruct Hrun as (order & order_orm & Hrun & _).
    rewrite Hrun. intros [= <- <-]. split; [reflexivity|].
    exists order, order_orm. split; reflexivity.
  - rewrite Hrun. intros [= <- <-]. split; [reflexivity|].
    split; reflexivity.
Qed.

Lemma unit_of_work_create_order_witness :
  session
    (world
       (SqlAlchemyUnitOfWork.run
          (WarehouseService.create_order 0 [(1, 2); (2, 30)])
          (mkDatabase (session shop) shop)).2)
  = committed
      (SqlAlchemyUnitOfWork.run
         (WarehouseService.create_order 0 [(1, 2); (2, 30)])
         (mkDatabase (session shop) shop)).2
  /\ (SqlAlchemyUnitOfWork.run
        (WarehouseService.create_order 0 [(1, 2); (2, 30)])
        (mkDatabase (session shop) shop)).1
     = Raise (InsufficientStockError (py "Mouse") 30 20)
  /\ committed
       (SqlAlchemyUnitOfWork.run
          (WarehouseService.create_order 0 [(1, 2); (2, 30)])
          (mkDatabase (session shop) shop)).2
     = session shop.
Proof.
  apply (unit_of_work_create_order 0 [(1, 2); (2, 30)]
           (mkDatabase (session shop) shop)
           (SqlAlchemyUnitOfWork.run
              (WarehouseService.create_order 0 [(1, 2); (2, 30)])
              (mkDatabase (session shop) shop)).2
           (SqlAlchemyUnitOfWork.run
              (WarehouseService.create_order 0 [(1, 2); (2, 30)])
              (mkDatabase (session shop) shop)).1).
  - apply (well_formed_products (session shop)). reflexivity.
  - destruct (SqlAlchemyUnitOfWork.run _ _). reflexivity.
Defined.

(** The lines that are valid against a products table are valid against the
    table without a row none of them joins. *)
Lemma items_valid_delete (table : gmap Z ProductORM.t) (product_id : Z)
  (items_orm : list OrderItemORM.t) :
  items_valid table items_orm ->
  Forall (fun item_orm => OrderItemORM.product_id item_orm <> Some product_id)
    items_orm ->
  items_valid (delete product_id table) items_orm.
Proof.
  unfold items_valid. intros Hvalid Hother.
  induction Hvalid as [|item_orm items_orm (k & Hk & Hsome & Hrest) _ IH];
    [constructor|].
  apply Forall_cons in Hother as [Hne Hother].
  constructor; [|apply IH; exact Hother].
  exists k. split; [exact Hk|]. split; [|exact Hrest].
  rewrite lookup_delete_ne; [exact Hsome|].
  intros ->. apply Hne. exact Hk.
Qed.

Lemma products_valid_delete (table : gmap Z ProductORM.t) (product_id : Z) :
  products_valid table -> products_valid (delete product_id table).
Proof.
  intros Hvalid id row Hrow.
  apply lookup_delete_Some in Hrow as [_ Hrow]. apply Hvalid. exact Hrow.
Qed.

(** X23. [delete_product] keeps the session well-formed, whether it returns
    or raises: a product row is removed only when no line of any stored
    order joins it, so every line of every stored order still joins a
    product row afterwards, and the orders are as they were. *)
Theorem delete_product_well_formed_invariant
  (product_id : Z) (w w' : World Session) (r : result bool) :
  well_formed (session w) = true ->
  WarehouseService.delete_product product_id w = (r, w') ->
  well_formed (session w') = true
  /\ orders (session w') = orders (session w)
  /\ (forall order_id order_orm,
        orders (session w') !! order_id = Some order_orm ->
        Forall (fun item_orm =>
                  exists id,
                    OrderItemORM.product_id item_orm = Some id
                    /\ is_Some (products (session w') !! id))
          (OrderORM.items order_orm)).
Proof.
  intros Hwf Hrun.
  assert (Hgoal : well_formed (session w') = true
                  /\ orders (session w') = orders (session w)).
  { destruct (products (session w) !! product_id) as [row|] eqn:Hrow.
    - destruct (delete_product_loads _ _ _ Hwf Hrow)
        as (all_orders & h' & E & Horders).
      rewrite E in Hrun. unfold bind at 1 in Hrun.
      destruct (decide
                  (Exists (fun order_row : Z * OrderORM.t =>
                             Exists (fun item_orm =>
                                       OrderItemORM.product_id item_orm
                                       = Some product_id)
                               (OrderORM.items order_row.2))
                     (map_to_list (orders (session w))))) as [Href|Hnone].
      + destruct (scan_orders_reference product_id all_orders _
                    (mkWorld h' (session w)) Horders Href)
          as ([order_id' order_orm'] & _ & _ & E').
        rewrite E' in Hrun. injection Hrun as <- <-.
        split; [exact Hwf|reflexivity].
      + apply not_Exists_Forall in Hnone; [|intros x; apply _].
        rewrite (scan_orders_no_reference product_id all_orders _
                   (mkWorld h' (session w)) Horders Hnone) in Hrun.
        erewrite product_delete_found in Hrun; [|exact Hrow].
        injection Hrun as <- <-. simpl. split; [|reflexivity].
        apply well_formed_intro; simpl.
        * apply products_valid_delete, well_formed_products, Hwf.
        * intros id order_orm Horder.
          apply items_valid_delete.
          -- eapply well_formed_items; eauto.
          -- rewrite Forall_forall in Hnone.
             specialize (Hnone (id, order_orm)). simpl in Hnone.
             apply not_Exists_Forall; [intros x; apply _|].
             apply Hnone. apply elem_of_map_to_list. exact Horder.
    - unfold WarehouseService.delete_product in Hrun.
      unfold bind at 1 in Hrun.
      rewrite (get_product_not_found _ _ Hrow) in Hrun.
      injection Hrun as <- <-. split; [exact Hwf|reflexivity]. }
  destruct Hgoal as [Hwf' Horders']. split; [exact Hwf'|].
  split; [exact Horders'|].
  intros order_id order_orm Horder.
  pose proof (well_formed_items _ _ _ Hwf' Horder) as Hitems.
  eapply Forall_impl; [exact Hitems|].
  intros item_orm (id & Hid & Hsome & _). exists id. split; assumption.
Qed.

Lemma delete_product_well_formed_invariant_witness :
  well_formed (session (WarehouseService.delete_product 1 shop_with_orders).2)
  = true
  /\ orders (session (WarehouseService.delete_product 1 shop_with_orders).2)
     = orders (session shop_with_orders)
  /\ (forall order_id order_orm,
        orders (session (WarehouseService.delete_product 1 shop_with_orders).2)
          !! order_id = Some order_orm ->
        Forall (fun item_orm =>
                  exists id,
                    OrderItemORM.product_id item_orm = Some id
                    /\ is_Some
                         (products
                            (session
                               (WarehouseService.delete_product 1
                                  shop_with_orders).2) !! id))
          (OrderORM.items order_orm)).
Proof.
  apply (delete_product_well_formed_invariant 1 shop_with_orders
           (WarehouseService.delete_product 1 shop_with_orders).2
           (WarehouseService.delete_product 1 shop_with_orders).1).
  - reflexivity.
  - destruct (WarehouseService.delete_product 1 shop_with_orders).
    reflexivity.
Defined.
